(** * Container lifecycle manager (app.py): a shallow embedding

    The Flask handlers of [app.py] and the helpers they call are written
    here as functions in a small state-and-exception monad.  The state is
    the module-level dictionary [project_containers], the container
    runtime behind [subprocess.run], and the list of commands handed to
    it.  Python strings are sequences of code points below 256; JSON
    numbers are integers. *)

From Stdlib Require Import String Ascii List ZArith Bool Lia DecimalString.
Import ListNotations.
Open Scope string_scope.
Open Scope list_scope.

Set Implicit Arguments.
Set Warnings "-register-all".

(** ** Python strings *)

Module PyStr.

(** [str.isspace] on one code point below 256. *)
Definition isspace (c : ascii) : bool :=
  let n := nat_of_ascii c in
  (((9 <=? n) && (n <=? 13)) || ((28 <=? n) && (n <=? 32))
   || (n =? 133) || (n =? 160))%nat.

Fixpoint lstrip (s : string) : string :=
  match s with
  | EmptyString => EmptyString
  | String c t => if isspace c then lstrip t else s
  end.

Fixpoint rstrip (s : string) : string :=
  match s with
  | EmptyString => EmptyString
  | String c t =>
      match rstrip t with
      | EmptyString => if isspace c then EmptyString else String c EmptyString
      | r => String c r
      end
  end.

(** [s.strip()] *)
Definition strip (s : string) : string := rstrip (lstrip s).

Definition starts_with_space (s : string) : bool :=
  match s with
  | EmptyString => false
  | String c _ => isspace c
  end.

Fixpoint ends_with_space (s : string) : bool :=
  match s with
  | EmptyString => false
  | String c EmptyString => isspace c
  | String _ t => ends_with_space t
  end.

(** No leading and no trailing whitespace. *)
Definition trimmed (s : string) : Prop :=
  starts_with_space s = false /\ ends_with_space s = false.

(** [sub in s] *)
Fixpoint contains (sub s : string) : bool :=
  if String.prefix sub s then true
  else match s with
       | EmptyString => false
       | String _ t => contains sub t
       end.

(** [str(n)] for a non-negative index. *)
Definition of_nat (n : nat) : string := NilZero.string_of_uint (Nat.to_uint n).

(** [str(z)] for an integer. *)
Definition of_Z (z : Z) : string := NilZero.string_of_int (Z.to_int z).

End PyStr.

(** ** Python dictionaries, in insertion order *)

Module PyDict.
Section Dict.
Variable V : Type.

Definition t := list (string * V).

Definition keys (d : t) : list string := map fst d.

(** [d.get(k)] *)
Fixpoint get (k : string) (d : t) : option V :=
  match d with
  | [] => None
  | (k', v) :: rest => if String.eqb k k' then Some v else get k rest
  end.

(** [k in d] *)
Definition mem (k : string) (d : t) : bool :=
  match get k d with Some _ => true | None => false end.

(** [d[k] = v]: an existing key keeps its place, a new key goes last. *)
Fixpoint set (k : string) (v : V) (d : t) : t :=
  match d with
  | [] => [(k, v)]
  | (k', v') :: rest =>
      if String.eqb k k' then (k, v) :: rest else (k', v') :: set k v rest
  end.

(** [del d[k]] *)
Fixpoint del (k : string) (d : t) : t :=
  match d with
  | [] => []
  | (k', v') :: rest =>
      if String.eqb k k' then del k rest else (k', v') :: del k rest
  end.

(** [d.get(k, default)] *)
Definition get_default (k : string) (default : V) (d : t) : V :=
  match get k d with Some v => v | None => default end.

End Dict.
End PyDict.

(** ** JSON values, as [json.loads] and [request.get_json] produce them *)

Inductive json : Type :=
| JNull
| JBool (b : bool)
| JNum (n : Z)
| JStr (s : string)
| JList (l : list json)
| JDict (d : list (string * json)).

(** Truth value of a Python object: [if x:], [not x], [x or y]. *)
Definition truthy (j : json) : bool :=
  match j with
  | JNull => false
  | JBool b => b
  | JNum n => negb (Z.eqb n 0)
  | JStr s => negb (String.eqb s "")
  | JList l => match l with [] => false | _ => true end
  | JDict d => match d with [] => false | _ => true end
  end.

(** [type(x).__name__] *)
Definition type_name (j : json) : string :=
  match j with
  | JNull => "NoneType"
  | JBool _ => "bool"
  | JNum _ => "int"
  | JStr _ => "str"
  | JList _ => "list"
  | JDict _ => "dict"
  end.

(** [isinstance(x, dict)] *)
Definition is_dict (j : json) : bool :=
  match j with JDict _ => true | _ => false end.

(** [x == "literal"] for a JSON value [x]. *)
Definition eq_str (j : json) (s : string) : bool :=
  match j with JStr s' => String.eqb s' s | _ => false end.

(** ** Exceptions *)

Inductive exn : Type :=
| AttributeError (message : string)
| KeyError (message : string)
| IndexError (message : string)
| TypeError (message : string).

(** [str(e)] *)
Definition exn_str (e : exn) : string :=
  match e with
  | AttributeError m | KeyError m | IndexError m | TypeError m => m
  end.

Inductive outcome (A : Type) : Type :=
| Ret (a : A)
| Raise (e : exn).
Arguments Ret {A} a.
Arguments Raise {A} e.

Definition no_attribute (j : json) (attr : string) : exn :=
  AttributeError ("'" ++ type_name j ++ "' object has no attribute '" ++ attr ++ "'").

(** [x.get(key, default)] *)
Definition py_get (j : json) (key : string) (default : json) : outcome json :=
  match j with
  | JDict d => Ret (PyDict.get_default key default d)
  | _ => Raise (no_attribute j "get")
  end.

(** [x.items()] *)
Definition py_items (j : json) : outcome (list (string * json)) :=
  match j with
  | JDict d => Ret d
  | _ => Raise (no_attribute j "items")
  end.

(** [len(x)] *)
Definition py_len (j : json) : outcome nat :=
  match j with
  | JStr s => Ret (String.length s)
  | JList l => Ret (List.length l)
  | JDict d => Ret (List.length d)
  | _ => Raise (TypeError ("object of type '" ++ type_name j ++ "' has no len()"))
  end.

(** [x[0]] *)
Definition py_first (j : json) : outcome json :=
  match j with
  | JStr (String c _) => Ret (JStr (String c EmptyString))
  | JStr EmptyString => Raise (IndexError "string index out of range")
  | JList (x :: _) => Ret x
  | JList [] => Raise (IndexError "list index out of range")
  | JDict _ => Raise (KeyError "0")
  | _ => Raise (TypeError ("'" ++ type_name j ++ "' object is not subscriptable"))
  end.

(** ** What one [subprocess.run(..., capture_output=True, text=True,
    check=True)] call does: the process exits with a return code and its
    two captured streams, or the call raises something else (the
    executable is missing, say) with a message. *)

Inductive completed : Type :=
| Exited (returncode : Z) (stdout stderr : string)
| SpawnError (message : string).

(** The dictionary [run_docker_command] returns. *)
Record cmd_result : Type := CmdResult {
  success : bool;
  output : string;
  error : string
}.

(** The dictionary [get_container_status] returns: with ["success":
    False] it has an ["error"], with ["success": True] it has
    ["status"], ["created"], ["id"] and ["env"]. *)
Inductive status_result : Type :=
| StatusError (err : string)
| StatusInfo (status created : json) (id : string) (env : json).

Definition status_success (r : status_result) : bool :=
  match r with StatusInfo _ _ _ _ => true | StatusError _ => false end.

(** [r.get("status", default)] *)
Definition status_get_status (r : status_result) (default : json) : json :=
  match r with StatusInfo s _ _ _ => s | StatusError _ => default end.

(** [r.get("env", default)] *)
Definition status_get_env (r : status_result) (default : json) : json :=
  match r with StatusInfo _ _ _ e => e | StatusError _ => default end.

(** The dictionary [run_container] returns. *)
Inductive run_result : Type :=
| RunError (err : string)
| RunOk (container_id : string).

(** The dictionary [stop_and_remove_container] returns. *)
Inductive stop_result : Type :=
| StopError (err : string)
| StopOk.

(** A Flask response: [jsonify(body), code]. *)
Record response : Type := Response {
  body : list (string * json);
  code : Z
}.

Definition error_response (message : string) (c : Z) : response :=
  Response [("status", JStr "error"); ("message", JStr message)] c.

(** ** A small container runtime to run the handlers against

    A daemon that may be down, one image that may be present or
    pullable, and containers with an identifier, a name and a status.
    [docker inspect] prints the status word, or [[]] for an unknown
    identifier, and [Sim.json_loads] decodes exactly that output. *)

Module Sim.

Record container : Type := Container {
  cid : string;
  cname : string;
  cstatus : string
}.

Record World : Type := MkWorld {
  daemon_up : bool;
  image_present : bool;
  pull_ok : bool;
  containers : list container;
  next_id : nat
}.

Fixpoint find (id : string) (cs : list container) : option container :=
  match cs with
  | [] => None
  | c :: rest => if String.eqb (cid c) id then Some c else find id rest
  end.

Definition name_taken (name : string) (cs : list container) : bool :=
  existsb (fun c => String.eqb (cname c) name) cs.

Definition set_status (id status : string) (cs : list container) : list container :=
  map (fun c => if String.eqb (cid c) id then Container (cid c) (cname c) status else c) cs.

Definition remove (id : string) (cs : list container) : list container :=
  filter (fun c => negb (String.eqb (cid c) id)) cs.

Definition with_containers (w : World) (cs : list container) : World :=
  MkWorld (daemon_up w) (image_present w) (pull_ok w) cs (next_id w).

Definition no_such_container (id : string) : completed :=
  Exited 1 "" ("Error response from daemon: No such container: " ++ id).

Definition subprocess_run (command : list string) (w : World) : completed * World :=
  if negb (daemon_up w) then
    (Exited 1 "" "Cannot connect to the Docker daemon. Is the docker daemon running?", w)
  else
    match command with
    | ["docker"; "info"] => (Exited 0 "Server: up" "", w)
    | ["docker"; "image"; "inspect"; _] =>
        if image_present w then (Exited 0 "image" "", w)
        else (Exited 1 "[]" "Error response from daemon: No such image", w)
    | ["docker"; "pull"; _] =>
        if pull_ok w
        then (Exited 0 "pulled" "",
              MkWorld (daemon_up w) true (pull_ok w) (containers w) (next_id w))
        else (Exited 1 "" "Error response from daemon: pull access denied", w)
    | "docker" :: "run" :: "-d" :: "--name" :: name :: _ =>
        if name_taken name (containers w) then
          (Exited 125 "" "docker: Error response from daemon: Conflict. The container name is already in use.", w)
        else
          let id := ("c" ++ PyStr.of_nat (next_id w))%string in
          (Exited 0 (id ++ String (ascii_of_nat 10) "") "",
           MkWorld (daemon_up w) (image_present w) (pull_ok w)
                   (containers w ++ [Container id name "running"])
                   (S (next_id w)))
    | ["docker"; "inspect"; id] =>
        match find id (containers w) with
        | Some c => (Exited 0 (cstatus c) "", w)
        | None => (Exited 1 "[]" ("Error: No such object: " ++ id), w)
        end
    | ["docker"; "start"; id] =>
        match find id (containers w) with
        | Some _ => (Exited 0 id "", with_containers w (set_status id "running" (containers w)))
        | None => (no_such_container id, w)
        end
    | ["docker"; "stop"; id] =>
        match find id (containers w) with
        | Some _ => (Exited 0 id "", with_containers w (set_status id "exited" (containers w)))
        | None => (no_such_container id, w)
        end
    | ["docker"; "rm"; id] =>
        match find id (containers w) with
        | Some _ => (Exited 0 id "", with_containers w (remove id (containers w)))
        | None => (no_such_container id, w)
        end
    | _ => (SpawnError "unsupported command", w)
    end.

(** Decodes what the simulated [docker inspect] prints. *)
Definition json_loads (s : string) : option json :=
  if String.eqb s "[]" then Some (JList [])
  else Some (JList [JDict [("State", JDict [("Status", JStr s)]);
                           ("Created", JStr "2024-01-01T00:00:00Z");
                           ("Config", JDict [("Env", JList [])])]]).

Definition py_repr (j : json) : string := "<object>".

Definition image : string := "example/base:latest".

(** A reachable daemon with the image present and no container. *)
Definition fresh : World := MkWorld true true true [] 1.

(** The same with the container [c1] of project 42, running. *)
Definition one_running : World :=
  MkWorld true true true [Container "c1" "project-42" "running"] 2.

(** The same with that container exited. *)
Definition one_exited : World :=
  MkWorld true true true [Container "c1" "project-42" "exited"] 2.

End Sim.

(** ** A runtime whose executable cannot be started: every call raises. *)

Module Unspawnable.

Definition message : string := " spawn failed ".

Definition subprocess_run (command : list string) (w : unit) : completed * unit :=
  (SpawnError message, w).

End Unspawnable.

(** ** A scripted runtime: each call takes the next outcome of a list *)

Module Script.

Definition World : Type := list completed.

Definition subprocess_run (command : list string) (w : World) : completed * World :=
  match w with
  | r :: rest => (r, rest)
  | [] => (SpawnError "no outcome left", [])
  end.

(** Decodes the few outputs the scripts print: an empty list, a number,
    a list of a number, an object, text that is no JSON, and otherwise
    an inspection whose status is the text. *)
Definition json_loads (s : string) : option json :=
  if String.eqb s "[]" then Some (JList [])
  else if String.eqb s "5" then Some (JNum 5)
  else if String.eqb s "[5]" then Some (JList [JNum 5])
  else if String.eqb s "{}" then Some (JDict [])
  else if String.eqb s "[{}]" then Some (JList [JDict []])
  else if String.eqb s "{" then None
  else Some (JList [JDict [("State", JDict [("Status", JStr s)])]]).

Definition py_repr (j : json) : string := "<object>".

Definition image : string := "example/base:latest".

Definition ok (out : string) : completed := Exited 0 out "".

Definition failed (err : string) : completed := Exited 1 "" err.

End Script.

(** ** The application *)

Section App.

(** The container runtime: its state, and what running one command
    line does to it. *)
Variable World : Type.
Variable subprocess_run : list string -> World -> completed * World.

(** [json.loads]; [None] is [json.JSONDecodeError]. *)
Variable json_loads : string -> option json.

(** [repr] of a list or a dictionary. *)
Variable py_repr : json -> string.

(** The base image, read from the process environment at start-up. *)
Variable USER_CONTAINER_TEMPLATE : string.

(** [str(x)], also what an f-string placeholder prints. *)
Definition py_str (j : json) : string :=
  match j with
  | JNull => "None"
  | JBool true => "True"
  | JBool false => "False"
  | JNum n => PyStr.of_Z n
  | JStr s => s
  | JList _ | JDict _ => py_repr j
  end.

(** The process state: the registry, the runtime, and every command
    line handed to [subprocess.run] so far, oldest first. *)
Record State : Type := MkState {
  project_containers : PyDict.t string;
  world : World;
  docker_log : list (list string)
}.

Definition M (A : Type) : Type := State -> outcome A * State.

Definition ret {A} (a : A) : M A := fun st => (Ret a, st).

Definition bind {A B} (m : M A) (k : A -> M B) : M B :=
  fun st =>
    match m st with
    | (Ret a, st') => k a st'
    | (Raise e, st') => (Raise e, st')
    end.

Definition raise {A} (e : exn) : M A := fun st => (Raise e, st).

Definition lift {A} (o : outcome A) : M A := fun st => (o, st).

(** [try: m except Exception as e: handler(e)] *)
Definition try_except {A} (m : M A) (handler : exn -> M A) : M A :=
  fun st =>
    match m st with
    | (Ret a, st') => (Ret a, st')
    | (Raise e, st') => handler e st'
    end.

Definition get_registry : M (PyDict.t string) :=
  fun st => (Ret (project_containers st), st).

Definition put_registry (d : PyDict.t string) : M unit :=
  fun st => (Ret tt, MkState d (world st) (docker_log st)).

Notation "x <- c1 ;; c2" := (bind c1 (fun x => c2))
  (at level 100, c1 at next level, right associativity).

(** *** Runtime command executor *)

Definition run_docker_command (command : list string) : M cmd_result :=
  fun st =>
    let (r, w) := subprocess_run command (world st) in
    let st' := MkState (project_containers st) w (docker_log st ++ [command]) in
    match r with
    | Exited rc out err =>
        if Z.eqb rc 0
        then (Ret (CmdResult true (PyStr.strip out) (PyStr.strip err)), st')
        else (Ret (CmdResult false (PyStr.strip out) (PyStr.strip err)), st')
    | SpawnError msg => (Ret (CmdResult false "" msg), st')
    end.

Definition check_docker_running : M bool :=
  result <- run_docker_command ["docker"; "info"] ;;
  ret (success result).

Definition unknown_version : json :=
  JDict [("Version", JStr "Unknown"); ("ApiVersion", JStr "Unknown")].

Definition get_docker_version : M json :=
  result <- run_docker_command ["docker"; "version"; "--format"; "json"] ;;
  if success result then
    match json_loads (output result) with
    | Some j => ret j
    | None => ret unknown_version
    end
  else ret unknown_version.

(** *** Image availability guard *)

Definition ensure_base_image_exists : M bool :=
  check_image <- run_docker_command
                   ["docker"; "image"; "inspect"; USER_CONTAINER_TEMPLATE] ;;
  if negb (success check_image) then
    pull_result <- run_docker_command ["docker"; "pull"; USER_CONTAINER_TEMPLATE] ;;
    if negb (success pull_result) then ret false else ret true
  else ret true.

(** *** Container operations *)

Definition get_container_status (container_id : string) : M status_result :=
  result <- run_docker_command ["docker"; "inspect"; container_id] ;;
  if negb (success result) then
    ret (StatusError ("Failed to get container status: " ++ error result))
  else
    match json_loads (output result) with
    | None => ret (StatusError "Failed to parse container info")
    | Some container_info =>
        empty <- lift (if negb (truthy container_info) then Ret true
                       else match py_len container_info with
                            | Ret n => Ret (Nat.eqb n 0)
                            | Raise e => Raise e
                            end) ;;
        if (empty : bool) then ret (StatusError "Container not found")
        else
          container_data <- lift (py_first container_info) ;;
          config <- lift (py_get container_data "Config" (JDict [])) ;;
          env_vars <- lift (py_get config "Env" (JList [])) ;;
          state <- lift (py_get container_data "State" (JDict [])) ;;
          status <- lift (py_get state "Status" (JStr "unknown")) ;;
          created <- lift (py_get container_data "Created" (JStr "")) ;;
          ret (StatusInfo status created container_id env_vars)
    end.

Definition stop_and_remove_container (container_id : string) : M stop_result :=
  stop_result <- run_docker_command ["docker"; "stop"; container_id] ;;
  if negb (success stop_result) then
    ret (StopError ("Failed to stop container: " ++ error stop_result))
  else
    rm_result <- run_docker_command ["docker"; "rm"; container_id] ;;
    if negb (success rm_result) then
      ret (StopError ("Failed to remove container: " ++ error rm_result))
    else ret StopOk.

Definition start_container (container_id : string) : M bool :=
  result <- run_docker_command ["docker"; "start"; container_id] ;;
  ret (success result).

(** The [-e] arguments, one pair per entry of the environment. *)
Definition env_args (environment : PyDict.t json) : list string :=
  flat_map (fun kv => ["-e"; (fst kv ++ "=" ++ py_str (snd kv))%string]) environment.

(** The [-p] arguments: [f"{host_port}:{container_port}"]. *)
Definition port_args (ports : list (string * json)) : list string :=
  flat_map (fun kv => ["-p"; (py_str (snd kv) ++ ":" ++ fst kv)%string]) ports.

(** The [-v] arguments; a dictionary value stands for its ["bind"]. *)
Definition volume_args (volumes : list (string * json)) : list string :=
  flat_map (fun kv =>
              let container_path :=
                match snd kv with
                | JDict d => PyDict.get_default "bind" (JStr "") d
                | other => other
                end in
              ["-v"; (fst kv ++ ":" ++ py_str container_path)%string]) volumes.

(** What [if command: ...] appends to [run_cmd]. *)
Definition command_tokens (command : json) : list json :=
  if truthy command then
    match command with
    | JStr s => [JStr s]
    | JList l => l
    | _ => []
    end
  else [].

(** The items of a list as [' '.join] wants them: all of them strings. *)
Fixpoint str_items (i : nat) (l : list json) : outcome (list string) :=
  match l with
  | [] => Ret []
  | JStr s :: rest =>
      match str_items (S i) rest with
      | Ret r => Ret (s :: r)
      | Raise e => Raise e
      end
  | j :: _ =>
      Raise (TypeError ("sequence item " ++ PyStr.of_nat i
                        ++ ": expected str instance, " ++ type_name j ++ " found"))
  end.

(** [run_cmd] before the command is looked at, when the image guard
    has passed and the mappings are dictionaries. *)
Definition run_cmd_base (project_id : string) (environment : PyDict.t json)
           (ports volumes : list (string * json)) : list string :=
  ["docker"; "run"; "-d"; "--name"; ("project-" ++ project_id)%string]
    ++ env_args environment
    ++ port_args ports
    ++ volume_args volumes
    ++ ["--label"; ("project_id=" ++ project_id)%string;
        "--label"; "managed_by=agent_name_tbd"]
    ++ ["--restart"; "unless-stopped"]
    ++ [USER_CONTAINER_TEMPLATE].

(** [run_cmd] as it is joined for the log and handed to the executor. *)
Definition build_run_cmd (project_id : string) (environment : PyDict.t json)
           (ports volumes : list (string * json)) (command : json) : list json :=
  map JStr (run_cmd_base project_id environment ports volumes)
    ++ command_tokens command.

Definition none_to_empty (j : json) : json :=
  match j with JNull => JDict [] | _ => j end.

Definition run_container (project_id : string)
           (environment : option (PyDict.t json))
           (ports volumes command : json) : M run_result :=
  let environment := match environment with Some d => d | None => [] end in
  let ports := none_to_empty ports in
  let volumes := none_to_empty volumes in
  let environment := PyDict.set "PROJECT_ID" (JStr project_id) environment in
  image <- ensure_base_image_exists ;;
  if negb image then
    ret (RunError ("Failed to ensure base image " ++ USER_CONTAINER_TEMPLATE
                   ++ " exists"))
  else
    port_items <- lift (py_items ports) ;;
    volume_items <- lift (py_items volumes) ;;
    run_cmd <- lift (str_items 0 (build_run_cmd project_id environment
                                                 port_items volume_items command)) ;;
    result <- run_docker_command run_cmd ;;
    if negb (success result) then
      ret (RunError ("Failed to run container: " ++ error result))
    else
      let container_id := PyStr.strip (output result) in
      _ <- get_container_status container_id ;;
      ret (RunOk container_id).

(** *** Lifecycle manager: the HTTP handlers *)

Definition daemon_unreachable : response :=
  error_response
    "Could not connect to Docker daemon. Please ensure Docker is running." 500.

(** [GET /api/status]; nothing is caught here. *)
Definition get_docker_status : M response :=
  running <- check_docker_running ;;
  if negb running then ret daemon_unreachable
  else
    version_info <- get_docker_version ;;
    base_image_available <- ensure_base_image_exists ;;
    server <- lift (py_get version_info "Server" (JDict [])) ;;
    version <- lift (py_get server "Version" (JStr "Unknown")) ;;
    server' <- lift (py_get version_info "Server" (JDict [])) ;;
    api_version <- lift (py_get server' "ApiVersion" (JStr "Unknown")) ;;
    ret (Response [("status", JStr "success");
                   ("message", JStr "Docker daemon is accessible");
                   ("version", version);
                   ("api_version", api_version);
                   ("method", JStr "Docker CLI");
                   ("base_image", JStr USER_CONTAINER_TEMPLATE);
                   ("base_image_available", JBool base_image_available)] 200).

(** [request.get_json(silent=True) or {}] *)
Definition request_data (request_json : option json) : json :=
  match request_json with
  | Some j => if truthy j then j else JDict []
  | None => JDict []
  end.

(** The [if project_id in project_containers:] block of
    [create_or_run_container]: [Some] response when it returns, [None]
    when control falls through to the creation of a new container. *)
Definition reuse_existing (project_id : string) : M (option response) :=
  registry <- get_registry ;;
  match PyDict.get project_id registry with
  | None => ret None
  | Some container_id =>
      status_result <- get_container_status container_id ;;
      if status_success status_result then
        if negb (eq_str (status_get_status status_result JNull) "running") then
          started <- start_container container_id ;;
          if (started : bool) then
            new_status <- get_container_status container_id ;;
            ret (Some (Response
                         [("status", JStr "success");
                          ("message", JStr ("Container for project " ++ project_id
                                            ++ " restarted"));
                          ("container_id", JStr container_id);
                          ("container_status",
                            status_get_status new_status (JStr "unknown"));
                          ("environment", status_get_env new_status (JList []))]
                         200))
          else ret None
        else
          ret (Some (Response
                       [("status", JStr "success");
                        ("message", JStr ("Container for project " ++ project_id
                                          ++ " is already running"));
                        ("container_id", JStr container_id);
                        ("container_status",
                          status_get_status status_result (JStr "unknown"));
                        ("environment", status_get_env status_result (JList []))]
                       200))
      else ret None
  end.

(** The environment [create_or_run_container] hands to [run_container]. *)
Definition request_environment (project_id : string) (environment : json)
  : PyDict.t json :=
  let environment := match environment with JDict d => d | _ => [] end in
  PyDict.set "PROJECT_ID" (JStr project_id) environment.

(** The rest of [create_or_run_container], from
    [data = request.get_json(silent=True) or {}] on. *)
Definition create_new (project_id : string) (request_json : option json)
  : M response :=
  let data := request_data request_json in
  environment <- lift (py_get data "environment" (JDict [])) ;;
  volumes <- lift (py_get data "volumes" (JDict [])) ;;
  ports <- lift (py_get data "ports" (JDict [])) ;;
  command <- lift (py_get data "command" JNull) ;;
  let environment := request_environment project_id environment in
  run_result <- run_container project_id (Some environment) ports volumes command ;;
  match run_result with
  | RunError err => ret (error_response err 500)
  | RunOk container_id =>
      registry <- get_registry ;;
      _ <- put_registry (PyDict.set project_id container_id registry) ;;
      status_result <- get_container_status container_id ;;
      ret (Response
             [("status", JStr "success");
              ("message", JStr ("Container created for project " ++ project_id));
              ("project_id", JStr project_id);
              ("container_id", JStr container_id);
              ("base_image", JStr USER_CONTAINER_TEMPLATE);
              ("container_status",
                if status_success status_result
                then status_get_status status_result (JStr "unknown")
                else JStr "unknown");
              ("environment",
                if status_success status_result
                then status_get_env status_result (JList [])
                else JList [])]
             201)
  end.

Definition exception_response (e : exn) : M response :=
  ret (error_response ("Error: " ++ exn_str e) 500).

(** [POST /api/containers/<project_id>] *)
Definition create_or_run_container (project_id : string)
           (request_json : option json) : M response :=
  try_except
    (running <- check_docker_running ;;
     if negb running then ret daemon_unreachable
     else
       image <- ensure_base_image_exists ;;
       if negb image then
         ret (error_response ("Base Docker image " ++ USER_CONTAINER_TEMPLATE
                              ++ " not available. Check your registry access.") 500)
       else
         early <- reuse_existing project_id ;;
         match early with
         | Some r => ret r
         | None => create_new project_id request_json
         end)
    exception_response.

Definition no_container_found (project_id : string) : response :=
  error_response ("No container found for project " ++ project_id) 404.

(** [DELETE /api/containers/<project_id>] *)
Definition stop_container (project_id : string) : M response :=
  try_except
    (running <- check_docker_running ;;
     if negb running then ret daemon_unreachable
     else
       registry <- get_registry ;;
       match PyDict.get project_id registry with
       | None => ret (no_container_found project_id)
       | Some container_id =>
           result <- stop_and_remove_container container_id ;;
           match result with
           | StopOk =>
               registry <- get_registry ;;
               _ <- put_registry (PyDict.del project_id registry) ;;
               ret (Response
                      [("status", JStr "success");
                       ("message", JStr ("Container for project " ++ project_id
                                         ++ " stopped and removed"))]
                      200)
           | StopError err =>
               if PyStr.contains "No such container" err then
                 registry <- get_registry ;;
                 _ <- put_registry (PyDict.del project_id registry) ;;
                 ret (Response
                        [("status", JStr "warning");
                         ("message", JStr ("Container for project " ++ project_id
                                           ++ " not found in Docker, but record cleaned"))]
                        200)
               else ret (error_response err 500)
           end
       end)
    exception_response.

(** One entry of the listing. *)
Definition list_entry (container_id : string) (container_status : status_result)
  : json :=
  match container_status with
  | StatusInfo status created _ env =>
      JDict [("container_id", JStr container_id);
             ("base_image", JStr USER_CONTAINER_TEMPLATE);
             ("status", status);
             ("created", created);
             ("environment", env)]
  | StatusError _ =>
      JDict [("container_id", JStr container_id);
             ("base_image", JStr USER_CONTAINER_TEMPLATE);
             ("status", JStr "not_found");
             ("error", JStr "Container exists in records but not in Docker")]
  end.

(** The [for project_id, container_id in project_containers.items()]
    loop of [list_containers]. *)
Fixpoint list_loop (items : list (string * string)) (result : PyDict.t json)
  : M (PyDict.t json) :=
  match items with
  | [] => ret result
  | (project_id, container_id) :: rest =>
      container_status <- get_container_status container_id ;;
      list_loop rest
                (PyDict.set project_id (list_entry container_id container_status)
                            result)
  end.

(** [GET /api/containers] *)
Definition list_containers : M response :=
  try_except
    (running <- check_docker_running ;;
     if negb running then ret daemon_unreachable
     else
       registry <- get_registry ;;
       result <- list_loop registry [] ;;
       ret (Response [("status", JStr "success"); ("containers", JDict result)] 200))
    exception_response.

(** [GET /api/containers/<project_id>] *)
Definition get_container_status_endpoint (project_id : string) : M response :=
  try_except
    (running <- check_docker_running ;;
     if negb running then ret daemon_unreachable
     else
       registry <- get_registry ;;
       match PyDict.get project_id registry with
       | None => ret (no_container_found project_id)
       | Some container_id =>
           container_status <- get_container_status container_id ;;
           match container_status with
           | StatusInfo status created _ env =>
               ret (Response
                      [("status", JStr "success");
                       ("project_id", JStr project_id);
                       ("container_id", JStr container_id);
                       ("base_image", JStr USER_CONTAINER_TEMPLATE);
                       ("container_status", status);
                       ("created", created);
                       ("environment", env)]
                      200)
           | StatusError _ =>
               ret (error_response ("Container for project " ++ project_id
                                    ++ " exists in records but not in Docker") 404)
           end
       end)
    exception_response.

(** The operations a client can invoke. *)
Inductive operation : Type :=
| OpStatus
| OpCreateOrRun (project_id : string) (request_json : option json)
| OpStop (project_id : string)
| OpList
| OpGet (project_id : string).

Definition handle (op : operation) : M response :=
  match op with
  | OpStatus => get_docker_status
  | OpCreateOrRun project_id request_json =>
      create_or_run_container project_id request_json
  | OpStop project_id => stop_container project_id
  | OpList => list_containers
  | OpGet project_id => get_container_status_endpoint project_id
  end.

(** *** Vocabulary of the properties *)

(** The command line starts a new container. *)
Definition is_docker_run (command : list string) : bool :=
  match command with
  | "docker" :: "run" :: _ => true
  | _ => false
  end.

(** Every run of [m] takes a state to an [R]-related state. *)
Definition along (R : State -> State -> Prop) {A} (m : M A) : Prop :=
  forall st, R st (snd (m st)).

(** The registry is the same dictionary before and after. *)
Definition registry_kept (st st' : State) : Prop :=
  project_containers st' = project_containers st.

(** The commands issued between two states all satisfy [P]. *)
Definition log_grows (P : list string -> Prop) (st st' : State) : Prop :=
  exists ext, docker_log st' = docker_log st ++ ext /\ Forall P ext.


(** No new container is started between two states. *)
Definition quiet : State -> State -> Prop :=
  log_grows (fun command => is_docker_run command = false).

(** A [docker run] command line is the one [run_container] builds for
    project [pid] from the environment [E]. *)
Definition run_uses (pid : string) (E : PyDict.t json) (cmd : list string) : Prop :=
  is_docker_run cmd = true ->
  exists ports volumes command,
    str_items 0 (build_run_cmd pid E ports volumes command) = Ret cmd.

(** The call ran and the process exited with code 0. *)
Definition exit_ok (r : completed) : bool :=
  match r with
  | Exited rc _ _ => Z.eqb rc 0
  | SpawnError _ => false
  end.

(** What the executor makes of one outcome of [subprocess.run]. *)
Definition cmd_result_of (r : completed) : cmd_result :=
  match r with
  | Exited rc out err => CmdResult (Z.eqb rc 0) (PyStr.strip out) (PyStr.strip err)
  | SpawnError msg => CmdResult false "" msg
  end.

(** The state after one command line has been handed to the runtime. *)
Definition after_command (command : list string) (st : State) : State :=
  MkState (project_containers st)
          (snd (subprocess_run command (world st)))
          (docker_log st ++ [command]).

(** The docker subcommands the application uses. *)
Inductive command_kind : Type :=
| KInfo | KVersion | KImageInspect | KPull | KInspect
| KStart | KStop | KRm | KRun | KOther.

Definition kind_of (command : list string) : command_kind :=
  match command with
  | ["docker"; "info"] => KInfo
  | ["docker"; "version"; "--format"; "json"] => KVersion
  | ["docker"; "image"; "inspect"; _] => KImageInspect
  | ["docker"; "pull"; _] => KPull
  | ["docker"; "inspect"; _] => KInspect
  | ["docker"; "start"; _] => KStart
  | ["docker"; "stop"; _] => KStop
  | ["docker"; "rm"; _] => KRm
  | "docker" :: "run" :: _ => KRun
  | _ => KOther
  end.

(** The subcommands each operation may issue. *)
Definition allowed_kinds (op : operation) : list command_kind :=
  match op with
  | OpStatus => [KInfo; KVersion; KImageInspect; KPull]
  | OpCreateOrRun _ _ => [KInfo; KImageInspect; KPull; KInspect; KStart; KRun]
  | OpStop _ => [KInfo; KStop; KRm]
  | OpList => [KInfo; KInspect]
  | OpGet _ => [KInfo; KInspect]
  end.

(** How many of the commands start a new container. *)
Definition run_count (commands : list (list string)) : nat :=
  length (filter is_docker_run commands).

(** At most [n] containers are started between two states. *)
Definition runs_at_most (n : nat) (st st' : State) : Prop :=
  exists ext, docker_log st' = docker_log st ++ ext /\ run_count ext <= n.

(** A decoded inspection the code can read: a list whose first element
    is an object with objects (or nothing) under [Config] and [State]. *)
Definition well_formed_info (j : json) : bool :=
  match j with
  | JList (JDict cd :: _) =>
      is_dict (PyDict.get_default "Config" (JDict []) cd)
      && is_dict (PyDict.get_default "State" (JDict []) cd)
  | _ => false
  end.

(** The HTTP codes each container handler can answer with. *)
Definition answer_codes (op : operation) : list Z :=
  match op with
  | OpStatus => [200; 500]
  | OpCreateOrRun _ _ => [200; 201; 500]
  | OpStop _ => [200; 404; 500]
  | OpList => [200; 500]
  | OpGet _ => [200; 404; 500]
  end%Z.

(** The command is of one of the kinds [ks]. *)
Definition of_kinds (ks : list command_kind) (command : list string) : Prop :=
  In (kind_of command) ks.

(** * Properties *)

(** ** Strings *)

Lemma lstrip_no_leading_space (s : string) :
  PyStr.starts_with_space (PyStr.lstrip s) = false.
Proof.
  induction s as [|c t IH]; simpl; [reflexivity|].
  destruct (PyStr.isspace c) eqn:E; [exact IH|]. simpl. exact E.
Qed.

Lemma rstrip_no_trailing_space (s : string) :
  PyStr.ends_with_space (PyStr.rstrip s) = false.
Proof.
  induction s as [|c t IH]; simpl; [reflexivity|].
  destruct (PyStr.rstrip t) as [|c' r] eqn:E.
  - destruct (PyStr.isspace c) eqn:Ec; simpl; [reflexivity | exact Ec].
  - exact IH.
Qed.

Lemma rstrip_keeps_head (s : string) :
  PyStr.starts_with_space s = false ->
  PyStr.starts_with_space (PyStr.rstrip s) = false.
Proof.
  destruct s as [|c t]; simpl; [reflexivity|]. intros Hc.
  destruct (PyStr.rstrip t); [rewrite Hc|]; simpl; auto.
Qed.

Lemma strip_trimmed (s : string) : PyStr.trimmed (PyStr.strip s).
Proof.
  split; unfold PyStr.strip.
  - apply rstrip_keeps_head, lstrip_no_leading_space.
  - apply rstrip_no_trailing_space.
Qed.

Lemma contains_refl_prefix (sub s : string) :
  String.prefix sub s = true -> PyStr.contains sub s = true.
Proof. intros H. destruct s; simpl in *; rewrite H; reflexivity. Qed.

(** ** Dictionaries *)

Section DictFacts.
Variable V : Type.
Implicit Types (d : PyDict.t V) (k : string) (v : V).

Lemma dict_get_set_same k v d : PyDict.get k (PyDict.set k v d) = Some v.
Proof.
  induction d as [|[k' v'] rest IH]; simpl.
  - rewrite String.eqb_refl. reflexivity.
  - destruct (String.eqb k k') eqn:E; simpl; rewrite ?String.eqb_refl, ?E; auto.
Qed.

Lemma dict_get_set_other k k' v d :
  k' <> k -> PyDict.get k' (PyDict.set k v d) = PyDict.get k' d.
Proof.
  intros Hne. induction d as [|[k0 v0] rest IH]; simpl.
  - destruct (String.eqb_spec k' k); [contradiction | reflexivity].
  - destruct (String.eqb_spec k k0) as [->|Hk]; simpl.
    + destruct (String.eqb_spec k' k0); [contradiction | reflexivity].
    + destruct (String.eqb k' k0); auto.
Qed.

Lemma dict_get_del_same k d : PyDict.get k (PyDict.del k d) = None.
Proof.
  induction d as [|[k' v'] rest IH]; simpl; [reflexivity|].
  destruct (String.eqb k k') eqn:E; simpl; rewrite ?E; auto.
Qed.

Lemma dict_get_del_other k k' d :
  k' <> k -> PyDict.get k' (PyDict.del k d) = PyDict.get k' d.
Proof.
  intros Hne. induction d as [|[k0 v0] rest IH]; simpl; [reflexivity|].
  destruct (String.eqb_spec k k0) as [->|Hk]; simpl.
  - destruct (String.eqb_spec k' k0); [contradiction | exact IH].
  - destruct (String.eqb k' k0); auto.
Qed.

Lemma dict_set_set k v v' d :
  PyDict.set k v (PyDict.set k v' d) = PyDict.set k v d.
Proof.
  induction d as [|[k0 v0] rest IH]; simpl.
  - rewrite String.eqb_refl. reflexivity.
  - destruct (String.eqb k k0) eqn:E; simpl; rewrite ?String.eqb_refl, ?E;
      [reflexivity | f_equal; exact IH].
Qed.

Lemma dict_get_in k v d : PyDict.get k d = Some v -> In (k, v) d.
Proof.
  induction d as [|[k0 v0] rest IH]; simpl; [discriminate|].
  destruct (String.eqb_spec k k0) as [->|Hk].
  - intros [= ->]. left; reflexivity.
  - intros H. right. exact (IH H).
Qed.

Lemma dict_get_none_keys k d : PyDict.get k d = None <-> ~ In k (PyDict.keys d).
Proof.
  induction d as [|[k0 v0] rest IH]; simpl.
  - split; [intros _ [] | reflexivity].
  - destruct (String.eqb_spec k k0) as [->|Hk].
    + split; [discriminate | intros H; exfalso; apply H; left; reflexivity].
    + rewrite IH. split; intros H.
      * intros [Heq | Hin]; [congruence | exact (H Hin)].
      * intros Hin. apply H. right. exact Hin.
Qed.

Lemma dict_in_get k v d : NoDup (PyDict.keys d) -> In (k, v) d -> PyDict.get k d = Some v.
Proof.
  induction d as [|[k0 v0] rest IH]; simpl; [intros _ []|].
  intros Hnd [Heq | Hin].
  - inversion Heq; subst. rewrite String.eqb_refl. reflexivity.
  - inversion Hnd as [|? ? Hnotin Hnd']; subst.
    destruct (String.eqb_spec k k0) as [->|Hk].
    + exfalso. apply Hnotin. change k0 with (fst (k0, v)). apply in_map. exact Hin.
    + exact (IH Hnd' Hin).
Qed.

Lemma dict_set_fresh k v d :
  PyDict.get k d = None -> PyDict.set k v d = d ++ [(k, v)].
Proof.
  induction d as [|[k0 v0] rest IH]; simpl; [reflexivity|].
  destruct (String.eqb k k0); [discriminate|].
  intros H. f_equal. exact (IH H).
Qed.

Lemma dict_keys_set_in k v d :
  forall k', In k' (PyDict.keys (PyDict.set k v d)) <-> k' = k \/ In k' (PyDict.keys d).
Proof.
  intros k'. induction d as [|[k0 v0] rest IH]; simpl.
  - intuition congruence.
  - destruct (String.eqb_spec k k0) as [->|Hk]; simpl.
    + intuition congruence.
    + rewrite IH. tauto.
Qed.

Lemma dict_set_NoDup k v d : NoDup (PyDict.keys d) -> NoDup (PyDict.keys (PyDict.set k v d)).
Proof.
  induction d as [|[k0 v0] rest IH]; simpl; intros Hnd.
  - constructor; [intros [] | constructor].
  - inversion Hnd as [|? ? Hnotin Hnd']; subst.
    destruct (String.eqb_spec k k0) as [->|Hk]; simpl.
    + constructor; assumption.
    + constructor; [|exact (IH Hnd')].
      intros Hin. apply dict_keys_set_in in Hin. destruct Hin; [congruence | contradiction].
Qed.

Lemma dict_keys_del_in k d :
  forall k', In k' (PyDict.keys (PyDict.del k d)) -> In k' (PyDict.keys d).
Proof.
  intros k'. induction d as [|[k0 v0] rest IH]; simpl; [tauto|].
  destruct (String.eqb k k0); simpl; tauto.
Qed.

Lemma dict_del_NoDup k d : NoDup (PyDict.keys d) -> NoDup (PyDict.keys (PyDict.del k d)).
Proof.
  induction d as [|[k0 v0] rest IH]; simpl; intros Hnd; [constructor|].
  inversion Hnd as [|? ? Hnotin Hnd']; subst.
  destruct (String.eqb k k0); simpl; [exact (IH Hnd')|].
  constructor; [|exact (IH Hnd')].
  intros Hin. apply Hnotin. exact (dict_keys_del_in _ _ _ Hin).
Qed.

End DictFacts.

(** ** The monad *)

Section Along.
Variable R : State -> State -> Prop.
Hypothesis R_refl : forall st, R st st.
Hypothesis R_trans : forall a b c, R a b -> R b c -> R a c.

Lemma along_ret A (a : A) : along R (ret a).
Proof. intros st. apply R_refl. Qed.

Lemma along_lift A (o : outcome A) : along R (lift o).
Proof. intros st. apply R_refl. Qed.

Lemma along_bind A B (m : M A) (k : A -> M B) :
  along R m -> (forall a, along R (k a)) -> along R (bind m k).
Proof.
  intros Hm Hk st. unfold bind. specialize (Hm st).
  destruct (m st) as [[a|e] st']; simpl in *; [|exact Hm].
  eapply R_trans; [exact Hm | apply Hk].
Qed.

Lemma along_try A (m : M A) (h : exn -> M A) :
  along R m -> (forall e, along R (h e)) -> along R (try_except m h).
Proof.
  intros Hm Hh st. unfold try_except. specialize (Hm st).
  destruct (m st) as [[a|e] st']; simpl in *; [exact Hm|].
  eapply R_trans; [exact Hm | apply Hh].
Qed.

Lemma along_get_registry : along R get_registry.
Proof. intros st. apply R_refl. Qed.

Lemma along_bind_lift A B (o : outcome A) (k : A -> M B) :
  (forall a, o = Ret a -> along R (k a)) -> along R (bind (lift o) k).
Proof.
  intros Hk st. unfold bind, lift. destruct o as [a|e]; simpl.
  - apply Hk. reflexivity.
  - apply R_refl.
Qed.

End Along.

Lemma registry_kept_refl st : registry_kept st st.
Proof. reflexivity. Qed.

Lemma registry_kept_trans a b c :
  registry_kept a b -> registry_kept b c -> registry_kept a c.
Proof. unfold registry_kept. congruence. Qed.

Lemma log_grows_refl P st : log_grows P st st.
Proof. exists []. rewrite app_nil_r. auto. Qed.

Lemma log_grows_trans P a b c :
  log_grows P a b -> log_grows P b c -> log_grows P a c.
Proof.
  intros [e1 [H1 F1]] [e2 [H2 F2]]. exists (e1 ++ e2). split.
  - rewrite H2, H1, app_assoc. reflexivity.
  - apply Forall_app. auto.
Qed.

(** ** Runtime command executor *)

Lemma run_docker_command_eq command st :
  exists r,
    run_docker_command command st
    = (Ret r, MkState (project_containers st)
                      (snd (subprocess_run command (world st)))
                      (docker_log st ++ [command])).
Proof.
  unfold run_docker_command.
  destruct (subprocess_run command (world st)) as [[rc out err|msg] w]; simpl.
  - destruct (Z.eqb rc 0); eexists; reflexivity.
  - eexists; reflexivity.
Qed.

Lemma run_docker_command_kept command : along registry_kept (run_docker_command command).
Proof.
  intros st. destruct (run_docker_command_eq command st) as [r ->]. reflexivity.
Qed.

Lemma run_docker_command_log (P : list string -> Prop) command :
  P command -> along (log_grows P) (run_docker_command command).
Proof.
  intros HP st. destruct (run_docker_command_eq command st) as [r ->].
  exists [command]. simpl. auto.
Qed.

(** [C8, as amended] The executor never raises.  A zero exit gives
    [success = True]; a non-zero exit or a failure to spawn gives
    [success = False].  When the process exited, [output] and [error] are
    the captured streams stripped, so they carry no leading or trailing
    whitespace; when the call itself failed, [output] is empty and
    [error] is the message of the exception as it is. *)
Theorem run_docker_command_result command st :
  exists r,
    fst (run_docker_command command st) = Ret r /\
    match fst (subprocess_run command (world st)) with
    | Exited rc out err =>
        success r = Z.eqb rc 0
        /\ output r = PyStr.strip out /\ error r = PyStr.strip err
        /\ PyStr.trimmed (output r) /\ PyStr.trimmed (error r)
    | SpawnError msg =>
        success r = false /\ output r = "" /\ error r = msg
    end.
Proof.
  unfold run_docker_command.
  destruct (subprocess_run command (world st)) as [[rc out err|msg] w]; simpl.
  - destruct (Z.eqb rc 0); eexists; (split; [reflexivity|]); simpl;
      repeat split; try reflexivity; apply strip_trimmed.
  - eexists; split; [reflexivity|]. simpl. auto.
Qed.

(** ** Which helpers touch the registry, which start containers *)

Lemma quiet_refl st : quiet st st.
Proof. apply log_grows_refl. Qed.

Lemma quiet_trans a b c : quiet a b -> quiet b c -> quiet a c.
Proof. apply log_grows_trans. Qed.

Lemma log_grows_weaken (P Q : list string -> Prop) a b :
  (forall c, P c -> Q c) -> log_grows P a b -> log_grows Q a b.
Proof.
  intros HPQ [ext [H F]]. exists ext. split; [exact H|].
  eapply Forall_impl; [exact HPQ | exact F].
Qed.

Ltac along_with rfl trs leaf :=
  repeat first
    [ apply along_ret; exact rfl
    | apply along_get_registry; exact rfl
    | apply along_bind_lift; [exact rfl | intros ? ?]
    | apply along_lift; exact rfl
    | leaf
    | apply along_bind; [exact trs | | intros ?]
    | apply along_try; [exact trs | | intros ?]
    | match goal with
      | |- along _ (if ?b then _ else _) => destruct b
      | |- along _ (match ?x with _ => _ end) => destruct x
      end ].

Ltac kept_leaf := apply run_docker_command_kept.
Ltac kept := along_with registry_kept_refl registry_kept_trans kept_leaf.

Ltac quiet_leaf := apply run_docker_command_log; reflexivity.
Ltac quiet_auto := along_with quiet_refl quiet_trans quiet_leaf.

Lemma check_docker_running_kept : along registry_kept check_docker_running.
Proof. unfold check_docker_running. kept. Qed.

Lemma get_docker_version_kept : along registry_kept get_docker_version.
Proof. unfold get_docker_version. kept. Qed.

Lemma ensure_base_image_exists_kept : along registry_kept ensure_base_image_exists.
Proof. unfold ensure_base_image_exists. kept. Qed.

Lemma get_container_status_kept h : along registry_kept (get_container_status h).
Proof. unfold get_container_status. kept. Qed.

Lemma stop_and_remove_container_kept h :
  along registry_kept (stop_and_remove_container h).
Proof. unfold stop_and_remove_container. kept. Qed.

Lemma start_container_kept h : along registry_kept (start_container h).
Proof. unfold start_container. kept. Qed.

Ltac kept_leaf' :=
  first [ apply run_docker_command_kept | apply check_docker_running_kept
        | apply get_docker_version_kept | apply ensure_base_image_exists_kept
        | apply get_container_status_kept | apply stop_and_remove_container_kept
        | apply start_container_kept ].
Ltac kept' := along_with registry_kept_refl registry_kept_trans kept_leaf'.

Lemma run_container_kept pid env ports volumes command :
  along registry_kept (run_container pid env ports volumes command).
Proof. unfold run_container. kept'. Qed.

Lemma reuse_existing_kept pid : along registry_kept (reuse_existing pid).
Proof. unfold reuse_existing. kept'. Qed.

Lemma check_docker_running_quiet : along quiet check_docker_running.
Proof. unfold check_docker_running. quiet_auto. Qed.

Lemma ensure_base_image_exists_quiet : along quiet ensure_base_image_exists.
Proof. unfold ensure_base_image_exists. quiet_auto. Qed.

Lemma get_container_status_quiet h : along quiet (get_container_status h).
Proof. unfold get_container_status. quiet_auto. Qed.

Lemma start_container_quiet h : along quiet (start_container h).
Proof. unfold start_container. quiet_auto. Qed.

Ltac quiet_leaf' :=
  first [ apply check_docker_running_quiet | apply ensure_base_image_exists_quiet
        | apply get_container_status_quiet | apply start_container_quiet ].
Ltac quiet_auto' := along_with quiet_refl quiet_trans quiet_leaf'.

Lemma reuse_existing_quiet pid : along quiet (reuse_existing pid).
Proof. unfold reuse_existing. quiet_auto'. Qed.

(** ** The command line of [docker run] *)

Lemma str_items_strings (strs : list string) (rest : list json) (i : nat) :
  str_items i (map JStr strs ++ rest)
  = match str_items (i + length strs) rest with
    | Ret r => Ret (strs ++ r)
    | Raise e => Raise e
    end.
Proof.
  revert i. induction strs as [|s strs IH]; intros i; simpl.
  - rewrite Nat.add_0_r. destruct (str_items i rest); reflexivity.
  - rewrite IH. rewrite <- plus_n_Sm. simpl.
    destruct (str_items (S (i + length strs)) rest); reflexivity.
Qed.

(** [C10] A falsy [command] (the empty string, the empty list) is
    handled exactly as an absent one: nothing is appended to the command
    line.  A non-empty string is appended as one token, a non-empty list
    element by element, and nothing else appends anything. *)
Theorem command_tokens_cases :
  (forall pid env ports volumes st,
      run_container pid env ports volumes (JStr "") st
      = run_container pid env ports volumes JNull st
      /\ run_container pid env ports volumes (JList []) st
         = run_container pid env ports volumes JNull st)
  /\ (command_tokens JNull = [] /\ command_tokens (JStr "") = []
      /\ command_tokens (JList []) = [])
  /\ (forall c s pid env ports volumes,
         command_tokens (JStr (String c s)) = [JStr (String c s)]
         /\ exists base,
             str_items 0 (build_run_cmd pid env ports volumes JNull) = Ret base
             /\ str_items 0 (build_run_cmd pid env ports volumes (JStr (String c s)))
                = Ret (base ++ [String c s]))
  /\ (forall x l ss pid env ports volumes,
         command_tokens (JList (x :: l)) = x :: l
         /\ (x :: l = map JStr ss ->
             exists base,
               str_items 0 (build_run_cmd pid env ports volumes JNull) = Ret base
               /\ str_items 0 (build_run_cmd pid env ports volumes (JList (x :: l)))
                  = Ret (base ++ ss)))
  /\ (forall command,
         command_tokens command <> [] ->
         (exists c s, command = JStr (String c s))
         \/ (exists x l, command = JList (x :: l))).
Proof.
  split; [|split; [|split; [|split]]].
  - intros. split; reflexivity.
  - repeat split.
  - intros c s pid env ports volumes. split; [reflexivity|].
    exists (run_cmd_base pid env ports volumes).
    unfold build_run_cmd. rewrite !str_items_strings. simpl.
    rewrite app_nil_r. split; reflexivity.
  - intros x l ss pid env ports volumes. split; [reflexivity|].
    intros Hss. exists (run_cmd_base pid env ports volumes).
    unfold build_run_cmd. rewrite !str_items_strings.
    change (command_tokens (JList (x :: l))) with (x :: l). rewrite Hss.
    rewrite <- (app_nil_r (map JStr ss)), str_items_strings. simpl.
    rewrite !app_nil_r. split; reflexivity.
  - intros command H. unfold command_tokens, truthy in H.
    destruct command as [| b | n | s | l | d];
      try (exfalso; apply H; reflexivity).
    + destruct b; exfalso; apply H; reflexivity.
    + destruct (Z.eqb n 0); exfalso; apply H; reflexivity.
    + destruct s as [|c s]; [exfalso; apply H; reflexivity|].
      left. exists c, s. reflexivity.
    + destruct l as [|x l]; [exfalso; apply H; reflexivity|].
      right. exists x, l. reflexivity.
    + destruct d; exfalso; apply H; reflexivity.
Qed.

(** ** The environment of a new container *)

Lemma along_weaken (R R' : State -> State -> Prop) A (m : M A) :
  (forall a b, R a b -> R' a b) -> along R m -> along R' m.
Proof. intros H Hm st. apply H, Hm. Qed.

Lemma quiet_run_uses pid E a b : quiet a b -> log_grows (run_uses pid E) a b.
Proof.
  apply log_grows_weaken. intros c Hc Hrun. rewrite Hc in Hrun. discriminate.
Qed.

Lemma put_registry_log P d : along (log_grows P) (put_registry d).
Proof. intros st. exists []. simpl. rewrite app_nil_r. auto. Qed.

Ltac uses_leaf :=
  first [ apply put_registry_log
        | eapply along_weaken; [apply quiet_run_uses|];
          first [ apply check_docker_running_quiet
                | apply ensure_base_image_exists_quiet
                | apply get_container_status_quiet
                | apply reuse_existing_quiet ] ].

Lemma run_container_log pid e ports volumes command :
  along (log_grows (run_uses pid (PyDict.set "PROJECT_ID" (JStr pid) e)))
        (run_container pid (Some e) ports volumes command).
Proof.
  unfold run_container.
  apply along_bind; [apply log_grows_trans | uses_leaf | intros image].
  destruct (negb image); [apply along_ret, log_grows_refl|].
  apply along_bind_lift; [apply log_grows_refl | intros port_items _].
  apply along_bind_lift; [apply log_grows_refl | intros volume_items _].
  apply along_bind_lift; [apply log_grows_refl | intros run_cmd Hcmd].
  apply along_bind; [apply log_grows_trans | | intros result].
  - apply run_docker_command_log. intros _.
    exists port_items, volume_items, command. exact Hcmd.
  - along_with (@log_grows_refl (run_uses pid (PyDict.set "PROJECT_ID" (JStr pid) e)))
               (@log_grows_trans (run_uses pid (PyDict.set "PROJECT_ID" (JStr pid) e)))
               uses_leaf.
Qed.

Lemma create_or_run_container_log pid d env :
  PyDict.get "environment" d = Some (JDict env) ->
  along (log_grows (run_uses pid (PyDict.set "PROJECT_ID" (JStr pid) env)))
        (create_or_run_container pid (Some (JDict d))).
Proof.
  intros Henv. set (E := PyDict.set "PROJECT_ID" (JStr pid) env).
  unfold create_or_run_container, exception_response.
  apply along_try; [apply log_grows_trans | | intros e; apply along_ret, log_grows_refl].
  apply along_bind; [apply log_grows_trans | uses_leaf | intros running].
  destruct (negb running); [apply along_ret, log_grows_refl|].
  apply along_bind; [apply log_grows_trans | uses_leaf | intros image].
  destruct (negb image); [apply along_ret, log_grows_refl|].
  apply along_bind; [apply log_grows_trans | uses_leaf | intros early].
  destruct early as [r|]; [apply along_ret, log_grows_refl|].
  unfold create_new.
  assert (Hdata : request_data (Some (JDict d)) = JDict d).
  { destruct d; [discriminate | reflexivity]. }
  rewrite Hdata. simpl py_get. unfold PyDict.get_default at 1. rewrite Henv.
  apply along_bind_lift; [apply log_grows_refl | intros a [= <-]].
  apply along_bind_lift; [apply log_grows_refl | intros volumes _].
  apply along_bind_lift; [apply log_grows_refl | intros ports _].
  apply along_bind_lift; [apply log_grows_refl | intros command _].
  apply along_bind; [apply log_grows_trans | | intros run_result].
  - unfold E. rewrite <- (dict_set_set "PROJECT_ID" (JStr pid) (JStr pid) env).
    apply run_container_log.
  - along_with (@log_grows_refl (run_uses pid E)) (@log_grows_trans (run_uses pid E))
               uses_leaf.
Qed.

Lemma env_args_in (E : PyDict.t json) k v :
  In (k, v) E -> In (k ++ "=" ++ py_str v)%string (env_args E).
Proof.
  intros Hin. unfold env_args. apply in_flat_map. exists (k, v).
  split; [exact Hin|]. simpl. right. left. reflexivity.
Qed.

(** [C6] Whatever environment mapping the request carries, also one
    that binds [PROJECT_ID] itself, every [docker run] the handler
    issues for the project is built from that mapping with [PROJECT_ID]
    set to the project id: the caller's value is gone, every other pair
    is kept, and each pair is on the command line as [-e KEY=VALUE]. *)
Theorem project_id_always_injected pid d env st :
  PyDict.get "environment" d = Some (JDict env) ->
  NoDup (PyDict.keys env) ->
  let E := PyDict.set "PROJECT_ID" (JStr pid) env in
  PyDict.get "PROJECT_ID" E = Some (JStr pid)
  /\ (forall v, In ("PROJECT_ID", v) E -> v = JStr pid)
  /\ (forall k, k <> "PROJECT_ID" -> PyDict.get k E = PyDict.get k env)
  /\ In ("PROJECT_ID=" ++ pid)%string (env_args E)
  /\ (forall k v, k <> "PROJECT_ID" -> PyDict.get k env = Some v ->
                  In (k ++ "=" ++ py_str v)%string (env_args E))
  /\ log_grows (run_uses pid E) st
               (snd (create_or_run_container pid (Some (JDict d)) st)).
Proof.
  intros Henv Hnd E.
  assert (Hpid : PyDict.get "PROJECT_ID" E = Some (JStr pid))
    by apply dict_get_set_same.
  split; [exact Hpid|]. split; [|split; [|split; [|split]]].
  - intros v Hin.
    assert (Hget : PyDict.get "PROJECT_ID" E = Some v).
    { apply dict_in_get; [apply dict_set_NoDup; exact Hnd | exact Hin]. }
    congruence.
  - intros k Hk. apply dict_get_set_other. exact Hk.
  - apply (env_args_in E "PROJECT_ID" (JStr pid)). apply dict_get_in. exact Hpid.
  - intros k v Hk Hget. apply env_args_in. apply dict_get_in.
    unfold E. rewrite dict_get_set_other; assumption.
  - apply create_or_run_container_log. exact Henv.
Qed.

(** ** A request whose environment is not a dictionary *)

Lemma request_data_dict d : request_data (Some (JDict d)) = JDict d.
Proof. destruct d; reflexivity. Qed.

Lemma create_or_run_container_ext pid b1 b2 :
  (forall st, create_new pid b1 st = create_new pid b2 st) ->
  forall st, create_or_run_container pid b1 st = create_or_run_container pid b2 st.
Proof.
  intros H st. unfold create_or_run_container, try_except, bind.
  destruct (check_docker_running st) as [[running|e] s1]; [|reflexivity].
  destruct (negb running); [reflexivity|].
  destruct (ensure_base_image_exists s1) as [[image|e] s2]; [|reflexivity].
  destruct (negb image); [reflexivity|].
  destruct (reuse_existing pid s2) as [[[r|]|e] s3]; try reflexivity.
  rewrite H. reflexivity.
Qed.

(** [C9] A request body whose [environment] is not a dictionary (a
    string, a list, a number, null) is not turned down for it: the
    environment becomes the empty mapping before [PROJECT_ID] is put in,
    and the handler does exactly what it does for the same body without
    an [environment]. *)
Theorem non_dict_environment_coerced pid d v st :
  PyDict.get "environment" d = Some v ->
  is_dict v = false ->
  request_environment pid v = request_environment pid (JDict [])
  /\ request_environment pid v = [("PROJECT_ID", JStr pid)]
  /\ create_or_run_container pid (Some (JDict d)) st
     = create_or_run_container pid (Some (JDict (PyDict.del "environment" d))) st.
Proof.
  intros Hget Hv.
  assert (Hco : request_environment pid v = [("PROJECT_ID", JStr pid)]).
  { destruct v; try reflexivity. discriminate Hv. }
  split; [rewrite Hco; reflexivity|]. split; [exact Hco|].
  apply create_or_run_container_ext. clear st. intros st.
  unfold create_new. rewrite !request_data_dict. cbn [py_get].
  unfold PyDict.get_default.
  rewrite dict_get_del_same, !dict_get_del_other by discriminate.
  rewrite Hget. unfold bind, lift. rewrite Hco. reflexivity.
Qed.

(** ** Reusing a running container *)

Lemma kept_eq A (m : M A) st o st' :
  along registry_kept m -> m st = (o, st') ->
  project_containers st' = project_containers st.
Proof. intros Hm Heq. specialize (Hm st). rewrite Heq in Hm. exact Hm. Qed.
Arguments kept_eq {A m st o st'} _ _.

Lemma quiet_eq A (m : M A) st o st' :
  along quiet m -> m st = (o, st') -> quiet st st'.
Proof. intros Hm Heq. specialize (Hm st). rewrite Heq in Hm. exact Hm. Qed.
Arguments quiet_eq {A m st o st'} _ _.

Lemma reuse_running pid request_json st st0 st1 st2 h created id env :
  PyDict.get pid (project_containers st) = Some h ->
  check_docker_running st = (Ret true, st0) ->
  ensure_base_image_exists st0 = (Ret true, st1) ->
  get_container_status h st1
  = (Ret (StatusInfo (JStr "running") created id env), st2) ->
  create_or_run_container pid request_json st
  = (Ret (Response
            [("status", JStr "success");
             ("message", JStr ("Container for project " ++ pid
                               ++ " is already running"));
             ("container_id", JStr h);
             ("container_status", JStr "running");
             ("environment", env)]
            200), st2)
  /\ project_containers st2 = project_containers st
  /\ quiet st st2.
Proof.
  intros Hget Hcheck Himage Hstatus.
  pose proof (kept_eq check_docker_running_kept Hcheck) as K0.
  pose proof (kept_eq ensure_base_image_exists_kept Himage) as K1.
  pose proof (kept_eq (get_container_status_kept h) Hstatus) as K2.
  split; [|split].
  - unfold create_or_run_container, try_except, bind.
    rewrite Hcheck. cbn [negb]. rewrite Himage. cbn [negb].
    unfold reuse_existing, bind, get_registry.
    rewrite K1, K0, Hget, Hstatus. reflexivity.
  - congruence.
  - eapply quiet_trans; [exact (quiet_eq check_docker_running_quiet Hcheck)|].
    eapply quiet_trans; [exact (quiet_eq ensure_base_image_exists_quiet Himage)|].
    exact (quiet_eq (get_container_status_quiet h) Hstatus).
Qed.

(** ** What a handler can do to the registry *)

Lemma reuse_existing_code pid st r st' :
  reuse_existing pid st = (Ret (Some r), st') ->
  code r = 200%Z /\ PyDict.get "project_id" (body r) = None
  /\ exists h, PyDict.get pid (project_containers st) = Some h
               /\ PyDict.get "container_id" (body r) = Some (JStr h).
Proof.
  unfold reuse_existing, bind, get_registry.
  destruct (PyDict.get pid (project_containers st)) as [h|]; [|discriminate].
  destruct (get_container_status h st) as [[sr|e] s1]; [|discriminate].
  destruct (status_success sr); [|discriminate].
  destruct (negb _).
  - destruct (start_container h s1) as [[[|]|e] s2]; try discriminate.
    destruct (get_container_status h s2) as [[sr'|e] s3]; [|discriminate].
    intros [= <- <-]. repeat split. exists h. split; reflexivity.
  - intros [= <- <-]. repeat split. exists h. split; reflexivity.
Qed.

Lemma create_new_cases pid request_json st o st' :
  create_new pid request_json st = (o, st') ->
  (project_containers st' = project_containers st
   /\ forall r, o = Ret r -> code r = 500%Z)
  \/ (exists h env ports volumes command stb,
         run_container pid env ports volumes command st = (Ret (RunOk h), stb)
         /\ project_containers st' = PyDict.set pid h (project_containers st)
         /\ forall r, o = Ret r ->
                      code r = 201%Z
                      /\ PyDict.get "container_id" (body r) = Some (JStr h)).
Proof.
  unfold create_new, bind, lift.
  destruct (py_get _ "environment" _) as [environment|e];
    [|intros [= <- <-]; left; split; [reflexivity | discriminate]].
  destruct (py_get _ "volumes" _) as [volumes|e];
    [|intros [= <- <-]; left; split; [reflexivity | discriminate]].
  destruct (py_get _ "ports" _) as [ports|e];
    [|intros [= <- <-]; left; split; [reflexivity | discriminate]].
  destruct (py_get _ "command" _) as [command|e];
    [|intros [= <- <-]; left; split; [reflexivity | discriminate]].
  destruct (run_container _ _ _ _ _ st) as [[[err|h]|e] s1] eqn:Hrun.
  - intros [= <- <-]. left. split.
    + exact (kept_eq (run_container_kept _ _ _ _ _) Hrun).
    + intros r [= <-]. reflexivity.
  - pose proof (kept_eq (run_container_kept _ _ _ _ _) Hrun) as K1.
    unfold get_registry, put_registry. cbn [world docker_log project_containers].
    destruct (get_container_status h _) as [[sr|e] s2] eqn:Hst.
    + pose proof (kept_eq (get_container_status_kept h) Hst) as K2.
      intros [= <- <-]. right. do 6 eexists. split; [exact Hrun|].
      split; [rewrite K2; simpl; rewrite K1; reflexivity|].
      intros r [= <-]. split; reflexivity.
    + pose proof (kept_eq (get_container_status_kept h) Hst) as K2.
      intros [= <- <-]. right. do 6 eexists. split; [exact Hrun|].
      split; [rewrite K2; simpl; rewrite K1; reflexivity|].
      discriminate.
  - intros [= <- <-]. left. split.
    + exact (kept_eq (run_container_kept _ _ _ _ _) Hrun).
    + discriminate.
Qed.

Lemma create_or_run_container_cases pid request_json st :
  exists r st',
    create_or_run_container pid request_json st = (Ret r, st')
    /\ ((project_containers st' = project_containers st
         /\ (code r = 500%Z
             \/ (code r = 200%Z
                 /\ PyDict.get "project_id" (body r) = None
                 /\ exists h, PyDict.get pid (project_containers st) = Some h
                              /\ PyDict.get "container_id" (body r) = Some (JStr h))))
        \/ (exists h env ports volumes command sta stb,
               project_containers sta = project_containers st
               /\ run_container pid env ports volumes command sta = (Ret (RunOk h), stb)
               /\ project_containers st' = PyDict.set pid h (project_containers st)
               /\ (code r = 500%Z
                   \/ (code r = 201%Z
                       /\ PyDict.get "container_id" (body r) = Some (JStr h))))).
Proof.
  unfold create_or_run_container, try_except, bind, exception_response.
  destruct (check_docker_running st) as [[running|e] s1] eqn:H1;
    pose proof (kept_eq check_docker_running_kept H1) as K1;
    [|do 2 eexists; split; [reflexivity|]; left; split; [exact K1 | left; reflexivity]].
  destruct (negb running);
    [do 2 eexists; split; [reflexivity|]; left; split; [exact K1 | left; reflexivity]|].
  destruct (ensure_base_image_exists s1) as [[image|e] s2] eqn:H2;
    pose proof (kept_eq ensure_base_image_exists_kept H2) as K2;
    [|do 2 eexists; split; [reflexivity|]; left; split;
      [congruence | left; reflexivity]].
  destruct (negb image);
    [do 2 eexists; split; [reflexivity|]; left; split; [congruence | left; reflexivity]|].
  destruct (reuse_existing pid s2) as [[[r|]|e] s3] eqn:H3;
    pose proof (kept_eq (reuse_existing_kept pid) H3) as K3.
  - destruct (reuse_existing_code _ _ H3) as [Hc [Hp [h [Hg Hb]]]].
    do 2 eexists; split; [reflexivity|]. left. split; [congruence|].
    right. split; [exact Hc|]. split; [exact Hp|]. exists h. split; [congruence | exact Hb].
  - destruct (create_new pid request_json s3) as [o s4] eqn:H4.
    destruct (create_new_cases _ _ _ H4) as [[K4 Hcode] | Hreg].
    + destruct o as [r|e]; do 2 eexists; (split; [reflexivity|]); left;
        (split; [congruence|]); left; [apply Hcode|]; reflexivity.
    + destruct Hreg as (h & env & ports & volumes & command & stb & Hrun & K4 & Hr).
      assert (K : project_containers s3 = project_containers st) by congruence.
      destruct o as [r|e]; do 2 eexists; (split; [reflexivity|]); right;
        exists h, env, ports, volumes, command, s3, stb;
        (split; [exact K|]); (split; [exact Hrun|]); (split; [congruence|]).
      * right. apply Hr. reflexivity.
      * left. reflexivity.
  - do 2 eexists; split; [reflexivity|]. left. split; [congruence | left; reflexivity].
Qed.

(** [C1] A project whose registered container inspects as [running]:
    the handler answers 200 with that same container id and the status
    just read, issues no [docker run], and leaves the registry as it
    was.  In particular, when the state is the one a first call left
    behind with a 201 answer, the id reported now is the id reported
    then.  The inspection is the one the handler makes, after its daemon
    check and its image guard have passed. *)
Theorem running_container_is_reused
        pid request_json st st0 st1 st2 h created id env :
  PyDict.get pid (project_containers st) = Some h ->
  check_docker_running st = (Ret true, st0) ->
  ensure_base_image_exists st0 = (Ret true, st1) ->
  get_container_status h st1
  = (Ret (StatusInfo (JStr "running") created id env), st2) ->
  create_or_run_container pid request_json st
  = (Ret (Response
            [("status", JStr "success");
             ("message", JStr ("Container for project " ++ pid
                               ++ " is already running"));
             ("container_id", JStr h);
             ("container_status", JStr "running");
             ("environment", env)]
            200), st2)
  /\ project_containers st2 = project_containers st
  /\ quiet st st2
  /\ (forall first_json st_before r1,
         create_or_run_container pid first_json st_before = (Ret r1, st) ->
         code r1 = 201%Z ->
         PyDict.get "container_id" (body r1) = Some (JStr h)).
Proof.
  intros Hget Hcheck Himage Hstatus.
  destruct (@reuse_running pid request_json st st0 st1 st2 h created id env
                           Hget Hcheck Himage Hstatus) as [Hr [Hk Hq]].
  repeat (split; [assumption|]).
  intros first_json st_before r1 Hfirst Hcode.
  destruct (create_or_run_container_cases pid first_json st_before)
    as (r & st' & Heq & Hcases).
  rewrite Hfirst in Heq. injection Heq as <- <-.
  destruct Hcases as [[_ [H5 | [H2 _]]] | Hreg]; try congruence.
  destruct Hreg as (h' & _ & _ & _ & _ & _ & _ & _ & _ & Hset & [H5 | [_ Hb]]);
    [congruence|].
  rewrite Hset, dict_get_set_same in Hget. congruence.
Qed.

(** ** Replacing a stale handle *)

Lemma dict_keys_set_present V k (v v' : V) (d : PyDict.t V) :
  PyDict.get k d = Some v' -> PyDict.keys (PyDict.set k v d) = PyDict.keys d.
Proof.
  induction d as [|[k0 v0] rest IH]; simpl; [discriminate|].
  destruct (String.eqb_spec k k0) as [->|Hk]; simpl.
  - reflexivity.
  - intros H. f_equal. exact (IH H).
Qed.

(** [C2] A project whose registered handle fails to inspect: the
    handler goes on to create a new container with the stale key still
    in the registry, and when that run succeeds the registry maps the
    project to the new handle, in the place of the stale one.  The
    inspection is the one the handler makes, after its daemon check and
    its image guard have passed. *)
Theorem stale_handle_is_replaced
        pid request_json d st st0 st1 st2 st3 h err h' :
  PyDict.get pid (project_containers st) = Some h ->
  check_docker_running st = (Ret true, st0) ->
  ensure_base_image_exists st0 = (Ret true, st1) ->
  get_container_status h st1 = (Ret (StatusError err), st2) ->
  request_data request_json = JDict d ->
  run_container pid
                (Some (request_environment
                         pid (PyDict.get_default "environment" (JDict []) d)))
                (PyDict.get_default "ports" (JDict []) d)
                (PyDict.get_default "volumes" (JDict []) d)
                (PyDict.get_default "command" JNull d) st2
  = (Ret (RunOk h'), st3) ->
  PyDict.get pid (project_containers st2) = Some h
  /\ create_or_run_container pid request_json st
     = try_except (create_new pid request_json) exception_response st2
  /\ exists r st4,
      create_or_run_container pid request_json st = (Ret r, st4)
      /\ project_containers st4 = PyDict.set pid h' (project_containers st)
      /\ PyDict.get pid (project_containers st4) = Some h'
      /\ PyDict.keys (project_containers st4) = PyDict.keys (project_containers st)
      /\ (code r = 201%Z -> PyDict.get "container_id" (body r) = Some (JStr h')).
Proof.
  intros Hget Hcheck Himage Hstatus Hdata Hrun.
  pose proof (kept_eq check_docker_running_kept Hcheck) as K0.
  pose proof (kept_eq ensure_base_image_exists_kept Himage) as K1.
  pose proof (kept_eq (get_container_status_kept h) Hstatus) as K2.
  pose proof (kept_eq (run_container_kept _ _ _ _ _) Hrun) as K3.
  assert (Hfall : create_or_run_container pid request_json st
                  = try_except (create_new pid request_json) exception_response st2).
  { unfold create_or_run_container, try_except, bind.
    rewrite Hcheck. cbn [negb]. rewrite Himage. cbn [negb].
    unfold reuse_existing, bind, get_registry.
    rewrite K1, K0, Hget, Hstatus. reflexivity. }
  split; [congruence|]. split; [exact Hfall|].
  rewrite Hfall. unfold try_except, create_new, bind, lift.
  rewrite Hdata. cbn [py_get]. rewrite Hrun.
  unfold get_registry, put_registry. cbn [world docker_log project_containers].
  destruct (get_container_status h' _) as [[sr|e] s4] eqn:Hst;
    pose proof (kept_eq (get_container_status_kept h') Hst) as K4;
    cbn [project_containers] in K4;
    do 2 eexists; (split; [reflexivity|]);
    (split; [congruence|]);
    (split; [rewrite K4; apply dict_get_set_same|]);
    (split; [rewrite K4, K3, K2, K1, K0;
             apply dict_keys_set_present with (v' := h); exact Hget|]).
  - intros _. reflexivity.
  - discriminate.
Qed.

(** ** Stopping a container *)

Lemma stop_and_remove_container_returns h st :
  exists result st1, stop_and_remove_container h st = (Ret result, st1).
Proof.
  unfold stop_and_remove_container, bind.
  destruct (run_docker_command_eq ["docker"; "stop"; h] st) as [r1 ->].
  destruct (negb (success r1)); [do 2 eexists; reflexivity|].
  match goal with
  | |- context [run_docker_command ?c ?s] =>
      destruct (run_docker_command_eq c s) as [r2 ->]
  end.
  destruct (negb (success r2)); do 2 eexists; reflexivity.
Qed.

Lemma stop_container_absent pid st st0 :
  check_docker_running st = (Ret true, st0) ->
  PyDict.get pid (project_containers st) = None ->
  stop_container pid st = (Ret (no_container_found pid), st0).
Proof.
  intros Hcheck Hget.
  pose proof (kept_eq check_docker_running_kept Hcheck) as K0.
  unfold stop_container, try_except, bind, get_registry.
  rewrite Hcheck. cbn [negb]. rewrite K0, Hget. reflexivity.
Qed.

Lemma stop_container_present pid st st0 h result st1 :
  check_docker_running st = (Ret true, st0) ->
  PyDict.get pid (project_containers st) = Some h ->
  stop_and_remove_container h st0 = (Ret result, st1) ->
  stop_container pid st
  = match result with
    | StopOk =>
        (Ret (Response
                [("status", JStr "success");
                 ("message", JStr ("Container for project " ++ pid
                                   ++ " stopped and removed"))]
                200),
         MkState (PyDict.del pid (project_containers st)) (world st1) (docker_log st1))
    | StopError err =>
        if PyStr.contains "No such container" err then
          (Ret (Response
                  [("status", JStr "warning");
                   ("message", JStr ("Container for project " ++ pid
                                     ++ " not found in Docker, but record cleaned"))]
                  200),
           MkState (PyDict.del pid (project_containers st)) (world st1) (docker_log st1))
        else (Ret (error_response err 500), st1)
    end
  /\ project_containers st1 = project_containers st.
Proof.
  intros Hcheck Hget Hstop.
  pose proof (kept_eq check_docker_running_kept Hcheck) as K0.
  pose proof (kept_eq (stop_and_remove_container_kept h) Hstop) as K1.
  split; [|congruence].
  unfold stop_container, try_except, bind, get_registry, put_registry.
  rewrite Hcheck. cbn [negb]. rewrite K0, Hget, Hstop.
  destruct result as [err|].
  - destruct (PyStr.contains "No such container" err); [|reflexivity].
    rewrite K1, K0. reflexivity.
  - rewrite K1, K0. reflexivity.
Qed.

(** [C4] Stopping, once the daemon check at the head of the handler has
    passed.  An unregistered project gets 404 and the registry is left
    alone.  For a registered one: when stop-and-remove succeeds the entry
    is deleted and the answer is 200 ["success"]; when it fails with an
    error that contains [No such container] the entry is deleted all the
    same and the answer is 200 ["warning"]; on any other failure the
    answer is 500 and the entry stays.  Hence a second stop right after
    one that answered 200 gets 404. *)
Theorem stop_container_outcomes pid st st0 :
  check_docker_running st = (Ret true, st0) ->
  (PyDict.get pid (project_containers st) = None ->
   stop_container pid st = (Ret (no_container_found pid), st0)
   /\ code (no_container_found pid) = 404%Z
   /\ project_containers st0 = project_containers st)
  /\ (forall h,
         PyDict.get pid (project_containers st) = Some h ->
         exists result st1 r st2,
           stop_and_remove_container h st0 = (Ret result, st1)
           /\ stop_container pid st = (Ret r, st2)
           /\ match result with
              | StopOk =>
                  code r = 200%Z
                  /\ PyDict.get "status" (body r) = Some (JStr "success")
                  /\ project_containers st2 = PyDict.del pid (project_containers st)
                  /\ PyDict.get pid (project_containers st2) = None
              | StopError err =>
                  if PyStr.contains "No such container" err then
                    code r = 200%Z
                    /\ PyDict.get "status" (body r) = Some (JStr "warning")
                    /\ project_containers st2 = PyDict.del pid (project_containers st)
                    /\ PyDict.get pid (project_containers st2) = None
                  else
                    r = error_response err 500
                    /\ code r = 500%Z
                    /\ project_containers st2 = project_containers st
                    /\ PyDict.get pid (project_containers st2) = Some h
              end)
  /\ (forall r1 st' st0',
         stop_container pid st = (Ret r1, st') ->
         code r1 = 200%Z ->
         check_docker_running st' = (Ret true, st0') ->
         stop_container pid st' = (Ret (no_container_found pid), st0')
         /\ code (no_container_found pid) = 404%Z).
Proof.
  intros Hcheck.
  assert (Hpresent : forall h,
             PyDict.get pid (project_containers st) = Some h ->
             exists result st1 r st2,
               stop_and_remove_container h st0 = (Ret result, st1)
               /\ stop_container pid st = (Ret r, st2)
               /\ match result with
                  | StopOk =>
                      code r = 200%Z
                      /\ PyDict.get "status" (body r) = Some (JStr "success")
                      /\ project_containers st2 = PyDict.del pid (project_containers st)
                      /\ PyDict.get pid (project_containers st2) = None
                  | StopError err =>
                      if PyStr.contains "No such container" err then
                        code r = 200%Z
                        /\ PyDict.get "status" (body r) = Some (JStr "warning")
                        /\ project_containers st2
                           = PyDict.del pid (project_containers st)
                        /\ PyDict.get pid (project_containers st2) = None
                      else
                        r = error_response err 500
                        /\ code r = 500%Z
                        /\ project_containers st2 = project_containers st
                        /\ PyDict.get pid (project_containers st2) = Some h
                  end).
  { intros h Hget.
    destruct (stop_and_remove_container_returns h st0) as (result & st1 & Hstop).
    destruct (@stop_container_present pid st st0 h result st1 Hcheck Hget Hstop) as [Heq K].
    exists result, st1.
    destruct result as [err|].
    - destruct (PyStr.contains "No such container" err) eqn:Hc.
      + do 2 eexists. split; [exact Hstop|]. split; [exact Heq|].
        cbn [project_containers]. repeat split.
        apply dict_get_del_same.
      + do 2 eexists. split; [exact Hstop|]. split; [exact Heq|].
        repeat split; congruence.
    - do 2 eexists. split; [exact Hstop|]. split; [exact Heq|].
      cbn [project_containers]. repeat split. apply dict_get_del_same. }
  split; [|split; [exact Hpresent|]].
  - intros Hget. split; [exact (@stop_container_absent pid st st0 Hcheck Hget)|].
    split; [reflexivity|]. exact (kept_eq check_docker_running_kept Hcheck).
  - intros r1 st' st0' Hfirst Hcode Hcheck'.
    split; [|reflexivity]. apply (@stop_container_absent pid st' st0'); [exact Hcheck'|].
    destruct (PyDict.get pid (project_containers st)) as [h|] eqn:Hget.
    + destruct (Hpresent h eq_refl) as (result & st1 & r & st2 & _ & Heq & Hres).
      rewrite Hfirst in Heq. injection Heq as <- <-.
      destruct result as [err|].
      * destruct (PyStr.contains "No such container" err).
        -- tauto.
        -- destruct Hres as (_ & H5 & _). congruence.
      * tauto.
    + rewrite (@stop_container_absent pid st st0 Hcheck Hget) in Hfirst.
      injection Hfirst as <- <-. discriminate Hcode.
Qed.

(** ** Listing *)

Lemma list_loop_kept items : forall acc, along registry_kept (list_loop items acc).
Proof.
  induction items as [|[p c] rest IH]; intros acc; simpl.
  - apply along_ret, registry_kept_refl.
  - apply along_bind; [exact registry_kept_trans | apply get_container_status_kept|].
    intros cs. apply IH.
Qed.

Lemma list_containers_kept : along registry_kept list_containers.
Proof.
  unfold list_containers, exception_response.
  along_with registry_kept_refl registry_kept_trans
             ltac:(first [apply check_docker_running_kept | apply list_loop_kept]).
Qed.

Lemma list_entry_fields h r :
  exists entry,
    list_entry h r = JDict entry
    /\ PyDict.get "container_id" entry = Some (JStr h)
    /\ PyDict.get "status" entry
       = Some (match r with
               | StatusError _ => JStr "not_found"
               | StatusInfo status _ _ _ => status
               end).
Proof. destruct r; eexists; repeat split. Qed.

Lemma list_loop_spec items :
  forall acc st result st',
    list_loop items acc st = (Ret result, st') ->
    NoDup (PyDict.keys acc ++ PyDict.keys items) ->
    PyDict.keys result = PyDict.keys acc ++ PyDict.keys items
    /\ (forall k, In k (PyDict.keys acc) -> PyDict.get k result = PyDict.get k acc)
    /\ (forall pid h,
           In (pid, h) items ->
           exists sti r sti',
             get_container_status h sti = (Ret r, sti')
             /\ PyDict.get pid result = Some (list_entry h r)).
Proof.
  induction items as [|[p c] rest IH]; intros acc st result st' Hloop Hnd.
  - simpl in Hloop. injection Hloop as <- <-. simpl. rewrite app_nil_r.
    split; [reflexivity|]. split; [reflexivity | intros ? ? []].
  - simpl in Hloop. unfold bind in Hloop.
    destruct (get_container_status c st) as [[cs|e] s1] eqn:Hst; [|discriminate].
    assert (Hfresh : ~ In p (PyDict.keys acc)).
    { simpl in Hnd. apply NoDup_remove_2 in Hnd. intros Hin. apply Hnd.
      apply in_or_app. left. exact Hin. }
    assert (Hset : PyDict.set p (list_entry c cs) acc = acc ++ [(p, list_entry c cs)]).
    { apply dict_set_fresh. apply dict_get_none_keys. exact Hfresh. }
    assert (Hkeys : PyDict.keys (PyDict.set p (list_entry c cs) acc)
                    = PyDict.keys acc ++ [p]).
    { rewrite Hset. unfold PyDict.keys. rewrite map_app. reflexivity. }
    destruct (IH _ _ _ _ Hloop) as (Hk & Hacc & Hitems).
    { rewrite Hkeys, <- app_assoc. exact Hnd. }
    split; [|split].
    + rewrite Hk, Hkeys, <- app_assoc. reflexivity.
    + intros k Hin. rewrite Hacc.
      * apply dict_get_set_other. intros ->. exact (Hfresh Hin).
      * rewrite Hkeys. apply in_or_app. left. exact Hin.
    + intros pid h [Heq | Hin].
      * injection Heq as <- <-. exists st, cs, s1. split; [exact Hst|].
        rewrite Hacc; [apply dict_get_set_same|].
        rewrite Hkeys. apply in_or_app. right. left. reflexivity.
      * exact (Hitems pid h Hin).
Qed.

(** [C5] Listing never changes the registry, whatever the state of the
    runtime, and it always answers.  Once the daemon check has passed
    and no inspection raises, the answer is 200 with exactly one entry
    per registered project: an entry whose handle failed to inspect says
    [not_found], an entry whose handle inspected says the status the
    runtime gave, and in both cases the project is still registered with
    the same handle afterwards. *)
Theorem list_containers_reads_only st :
  project_containers (snd (list_containers st)) = project_containers st
  /\ (exists r, fst (list_containers st) = Ret r)
  /\ forall st0 result st1,
      NoDup (PyDict.keys (project_containers st)) ->
      check_docker_running st = (Ret true, st0) ->
      list_loop (project_containers st) [] st0 = (Ret result, st1) ->
      list_containers st
      = (Ret (Response [("status", JStr "success"); ("containers", JDict result)]
                       200), st1)
      /\ PyDict.keys result = PyDict.keys (project_containers st)
      /\ project_containers st1 = project_containers st
      /\ forall pid h,
          PyDict.get pid (project_containers st) = Some h ->
          PyDict.get pid (project_containers st1) = Some h
          /\ exists sti r sti' entry,
              get_container_status h sti = (Ret r, sti')
              /\ PyDict.get pid result = Some (JDict entry)
              /\ PyDict.get "container_id" entry = Some (JStr h)
              /\ PyDict.get "status" entry
                 = Some (match r with
                         | StatusError _ => JStr "not_found"
                         | StatusInfo status _ _ _ => status
                         end).
Proof.
  split; [apply list_containers_kept|]. split.
  - unfold list_containers, try_except, exception_response, ret.
    destruct (bind _ _ st) as [[r|e] s]; eexists; reflexivity.
  - intros st0 result st1 Hnd Hcheck Hloop.
    pose proof (kept_eq check_docker_running_kept Hcheck) as K0.
    pose proof (kept_eq (list_loop_kept _ _) Hloop) as K1.
    destruct (list_loop_spec _ _ _ Hloop) as (Hk & _ & Hitems);
      [simpl; exact Hnd|].
    split; [|split; [exact Hk | split; [congruence|]]].
    + unfold list_containers, try_except, bind, get_registry.
      rewrite Hcheck. cbn [negb]. rewrite K0, Hloop. reflexivity.
    + intros pid h Hget. split; [congruence|].
      destruct (Hitems pid h (dict_get_in _ _ Hget)) as (sti & r & sti' & Hst & Hres).
      destruct (list_entry_fields h r) as (entry & He & Hc & Hs).
      exists sti, r, sti', entry. rewrite <- He. auto.
Qed.

(** ** The life of a registry key *)

Lemma stop_container_cases pid st :
  exists r st',
    stop_container pid st = (Ret r, st')
    /\ (project_containers st' = project_containers st
        \/ project_containers st' = PyDict.del pid (project_containers st)).
Proof.
  destruct (check_docker_running st) as [[[|]|e] s0] eqn:Hcheck.
  - destruct (PyDict.get pid (project_containers st)) as [h|] eqn:Hget.
    + destruct (stop_and_remove_container_returns h s0) as (result & s1 & Hstop).
      destruct (@stop_container_present pid st s0 h result s1 Hcheck Hget Hstop)
        as [Heq K].
      rewrite Heq. destruct result as [err|].
      * destruct (PyStr.contains "No such container" err);
          do 2 eexists; (split; [reflexivity|]); [right; reflexivity | left; exact K].
      * do 2 eexists. split; [reflexivity|]. right. reflexivity.
    + rewrite (@stop_container_absent pid st s0 Hcheck Hget).
      do 2 eexists. split; [reflexivity|]. left.
      exact (kept_eq check_docker_running_kept Hcheck).
  - unfold stop_container, try_except, bind. rewrite Hcheck. cbn [negb].
    do 2 eexists. split; [reflexivity|]. left.
    exact (kept_eq check_docker_running_kept Hcheck).
  - unfold stop_container, try_except, bind. rewrite Hcheck.
    do 2 eexists. split; [reflexivity|]. left.
    exact (kept_eq check_docker_running_kept Hcheck).
Qed.

Lemma get_container_status_endpoint_kept pid :
  along registry_kept (get_container_status_endpoint pid).
Proof.
  unfold get_container_status_endpoint, exception_response. kept'.
Qed.

Lemma get_docker_status_kept : along registry_kept get_docker_status.
Proof. unfold get_docker_status. kept'. Qed.

Lemma create_new_run_fails pid request_json d st st' err :
  request_data request_json = JDict d ->
  run_container pid
                (Some (request_environment
                         pid (PyDict.get_default "environment" (JDict []) d)))
                (PyDict.get_default "ports" (JDict []) d)
                (PyDict.get_default "volumes" (JDict []) d)
                (PyDict.get_default "command" JNull d) st
  = (Ret (RunError err), st') ->
  create_new pid request_json st = (Ret (error_response err 500), st').
Proof.
  intros Hdata Hrun. unfold create_new, bind, lift.
  rewrite Hdata. cbn [py_get]. rewrite Hrun. reflexivity.
Qed.

Lemma dict_mem_set V k p (v : V) (d : PyDict.t V) :
  PyDict.mem k (PyDict.set p v d) = true -> k = p \/ PyDict.mem k d = true.
Proof.
  unfold PyDict.mem. destruct (String.eqb_spec k p) as [->|Hne]; [auto|].
  rewrite dict_get_set_other by exact Hne. auto.
Qed.

Lemma dict_mem_del V k p (d : PyDict.t V) :
  PyDict.mem k d = true -> PyDict.mem k (PyDict.del p d) = false -> k = p.
Proof.
  unfold PyDict.mem. destruct (String.eqb_spec k p) as [->|Hne]; [auto|].
  rewrite dict_get_del_other by exact Hne.
  destruct (PyDict.get k d); congruence.
Qed.

Lemma dict_mem_del_only V k p (d : PyDict.t V) :
  PyDict.mem k (PyDict.del p d) = true -> PyDict.mem k d = true.
Proof.
  unfold PyDict.mem. destruct (String.eqb_spec k p) as [->|Hne].
  - rewrite dict_get_del_same. discriminate.
  - rewrite dict_get_del_other by exact Hne. auto.
Qed.

Lemma dict_mem_set_keeps V k p (v : V) (d : PyDict.t V) :
  PyDict.mem k d = true -> PyDict.mem k (PyDict.set p v d) = true.
Proof.
  unfold PyDict.mem. destruct (String.eqb_spec k p) as [->|Hne].
  - rewrite dict_get_set_same. reflexivity.
  - rewrite dict_get_set_other by exact Hne. auto.
Qed.

Lemma handle_cases op st :
  project_containers (snd (handle op st)) = project_containers st
  \/ (exists pid request_json h env ports volumes command sta stb,
         op = OpCreateOrRun pid request_json
         /\ project_containers sta = project_containers st
         /\ run_container pid env ports volumes command sta = (Ret (RunOk h), stb)
         /\ project_containers (snd (handle op st))
            = PyDict.set pid h (project_containers st))
  \/ (exists pid,
         op = OpStop pid
         /\ project_containers (snd (handle op st))
            = PyDict.del pid (project_containers st)).
Proof.
  destruct op as [|pid request_json|pid| |pid]; simpl.
  - left. apply get_docker_status_kept.
  - destruct (create_or_run_container_cases pid request_json st)
      as (r & st' & Heq & [[K _] | Hreg]); rewrite Heq; simpl.
    + left. exact K.
    + destruct Hreg as (h & env & ports & volumes & command & sta & stb
                        & Ka & Hrun & Hset & _).
      right. left. exists pid, request_json, h, env, ports, volumes, command, sta, stb.
      auto.
  - destruct (stop_container_cases pid st) as (r & st' & Heq & [K | K]);
      rewrite Heq; simpl.
    + left. exact K.
    + right. right. exists pid. auto.
  - left. apply list_containers_kept.
  - left. apply get_container_status_endpoint_kept.
Qed.

(** [C3] Over all five operations: the registry after a request is the
    registry before, or the project of a create-or-run whose
    [run_container] succeeded now maps to the new handle (a new key or an
    overwrite), or the project of a stop is gone.  So a key only appears
    through such a create-or-run and only disappears through a stop.  In
    particular a create-or-run whose [run_container] fails answers with
    that failure and the registry is exactly as it was. *)
Theorem registry_lifecycle op st :
  (project_containers (snd (handle op st)) = project_containers st
   \/ (exists pid request_json h env ports volumes command sta stb,
          op = OpCreateOrRun pid request_json
          /\ project_containers sta = project_containers st
          /\ run_container pid env ports volumes command sta = (Ret (RunOk h), stb)
          /\ project_containers (snd (handle op st))
             = PyDict.set pid h (project_containers st))
   \/ (exists pid,
          op = OpStop pid
          /\ project_containers (snd (handle op st))
             = PyDict.del pid (project_containers st)))
  /\ (forall k,
         PyDict.mem k (project_containers st) = false ->
         PyDict.mem k (project_containers (snd (handle op st))) = true ->
         exists request_json h env ports volumes command sta stb,
           op = OpCreateOrRun k request_json
           /\ project_containers sta = project_containers st
           /\ run_container k env ports volumes command sta = (Ret (RunOk h), stb)
           /\ PyDict.get k (project_containers (snd (handle op st))) = Some h)
  /\ (forall k,
         PyDict.mem k (project_containers st) = true ->
         PyDict.mem k (project_containers (snd (handle op st))) = false ->
         op = OpStop k)
  /\ (forall pid request_json d st0 st1 st2 st3 err,
         op = OpCreateOrRun pid request_json ->
         check_docker_running st = (Ret true, st0) ->
         ensure_base_image_exists st0 = (Ret true, st1) ->
         reuse_existing pid st1 = (Ret None, st2) ->
         request_data request_json = JDict d ->
         run_container pid
                       (Some (request_environment
                                pid (PyDict.get_default "environment" (JDict []) d)))
                       (PyDict.get_default "ports" (JDict []) d)
                       (PyDict.get_default "volumes" (JDict []) d)
                       (PyDict.get_default "command" JNull d) st2
         = (Ret (RunError err), st3) ->
         handle op st = (Ret (error_response err 500), st3)
         /\ code (error_response err 500) = 500%Z
         /\ project_containers st3 = project_containers st).
Proof.
  split; [apply handle_cases|]. split; [|split].
  - intros k Hout Hin.
    destruct (handle_cases op st) as [K | [Hadd | Hdel]].
    + rewrite K in Hin. congruence.
    + destruct Hadd as (pid & request_json & h & env & ports & volumes & command
                        & sta & stb & Hop & Ka & Hrun & Hset).
      rewrite Hset in Hin |- *.
      destruct (dict_mem_set _ _ _ _ Hin) as [-> | Hmem]; [|congruence].
      exists request_json, h, env, ports, volumes, command, sta, stb.
      repeat split; auto. apply dict_get_set_same.
    + destruct Hdel as (pid & Hop & Hset). rewrite Hset in Hin.
      apply dict_mem_del_only in Hin. congruence.
  - intros k Hin Hout.
    destruct (handle_cases op st) as [K | [Hadd | Hdel]].
    + rewrite K in Hout. congruence.
    + destruct Hadd as (pid & request_json & h & env & ports & volumes & command
                        & sta & stb & Hop & Ka & Hrun & Hset).
      rewrite Hset in Hout.
      rewrite (dict_mem_set_keeps _ pid h _ Hin) in Hout. discriminate.
    + destruct Hdel as (pid & Hop & Hset). rewrite Hset in Hout.
      rewrite (dict_mem_del _ _ _ Hin Hout). exact Hop.
  - intros pid request_json d st0 st1 st2 st3 err -> Hcheck Himage Hreuse Hdata Hrun.
    pose proof (kept_eq check_docker_running_kept Hcheck) as K0.
    pose proof (kept_eq ensure_base_image_exists_kept Himage) as K1.
    pose proof (kept_eq (reuse_existing_kept pid) Hreuse) as K2.
    pose proof (kept_eq (run_container_kept _ _ _ _ _) Hrun) as K3.
    split; [|split; [reflexivity | congruence]].
    simpl. unfold create_or_run_container, try_except, bind.
    rewrite Hcheck. cbn [negb]. rewrite Himage. cbn [negb]. rewrite Hreuse.
    rewrite (@create_new_run_fails pid request_json d st2 st3 err Hdata Hrun).
    reflexivity.
Qed.

(** * Further properties of the code *)

(** ** Stripping *)

Lemma lstrip_id (s : string) :
  PyStr.starts_with_space s = false -> PyStr.lstrip s = s.
Proof. destruct s as [|c t]; simpl; [reflexivity|]. intros ->. reflexivity. Qed.

Lemma rstrip_id (s : string) :
  PyStr.ends_with_space s = false -> PyStr.rstrip s = s.
Proof.
  induction s as [|c t IH]; [reflexivity|].
  destruct t as [|c' t'].
  - simpl. intros ->. reflexivity.
  - intros H. change (PyStr.ends_with_space (String c' t') = false) in H.
    change (PyStr.rstrip (String c (String c' t')))
      with (match PyStr.rstrip (String c' t') with
            | EmptyString => if PyStr.isspace c then EmptyString
                             else String c EmptyString
            | r => String c r
            end).
    rewrite (IH H). reflexivity.
Qed.

Lemma strip_id (s : string) : PyStr.trimmed s -> PyStr.strip s = s.
Proof.
  intros [Hl Hr]. unfold PyStr.strip. rewrite (lstrip_id _ Hl). exact (rstrip_id _ Hr).
Qed.

Lemma strip_idempotent (s : string) : PyStr.strip (PyStr.strip s) = PyStr.strip s.
Proof. apply strip_id, strip_trimmed. Qed.

(** ** One call of the executor *)

Lemma run_docker_command_unfold command st :
  run_docker_command command st
  = (Ret (cmd_result_of (fst (subprocess_run command (world st)))),
     after_command command st).
Proof.
  unfold run_docker_command, after_command, cmd_result_of.
  destruct (subprocess_run command (world st)) as [[rc out err|msg] w]; simpl;
    [destruct (Z.eqb rc 0)|]; reflexivity.
Qed.

Lemma success_cmd_result_of r : success (cmd_result_of r) = exit_ok r.
Proof. destruct r; reflexivity. Qed.

(** ** Image availability guard *)

Lemma ensure_base_image_exists_unfold st :
  ensure_base_image_exists st
  = if exit_ok (fst (subprocess_run
                       ["docker"; "image"; "inspect"; USER_CONTAINER_TEMPLATE]
                       (world st)))
    then (Ret true,
          after_command ["docker"; "image"; "inspect"; USER_CONTAINER_TEMPLATE] st)
    else (Ret (exit_ok
                 (fst (subprocess_run
                         ["docker"; "pull"; USER_CONTAINER_TEMPLATE]
                         (world (after_command
                                   ["docker"; "image"; "inspect";
                                    USER_CONTAINER_TEMPLATE] st))))),
          after_command
            ["docker"; "pull"; USER_CONTAINER_TEMPLATE]
            (after_command ["docker"; "image"; "inspect"; USER_CONTAINER_TEMPLATE] st)).
Proof.
  unfold ensure_base_image_exists, bind.
  rewrite run_docker_command_unfold, success_cmd_result_of.
  destruct (exit_ok _); cbn [negb]; [reflexivity|].
  rewrite run_docker_command_unfold, success_cmd_result_of.
  destruct (exit_ok _); reflexivity.
Qed.

(** [X1] The image guard inspects the image and pulls it only when the
    inspection fails, and then once: it answers true exactly when the
    inspection, or else the pull, exited with 0.  It never raises and
    leaves the registry alone. *)
Theorem image_guard_pulls_only_on_miss st :
  let inspect := ["docker"; "image"; "inspect"; USER_CONTAINER_TEMPLATE] in
  let pull := ["docker"; "pull"; USER_CONTAINER_TEMPLATE] in
  let r1 := fst (subprocess_run inspect (world st)) in
  let r2 := fst (subprocess_run pull (world (after_command inspect st))) in
  exists available st',
    ensure_base_image_exists st = (Ret available, st')
    /\ project_containers st' = project_containers st
    /\ available = (exit_ok r1 || exit_ok r2)
    /\ docker_log st'
       = docker_log st ++ (if exit_ok r1 then [inspect] else [inspect; pull]).
Proof.
  intros inspect pull r1 r2. rewrite ensure_base_image_exists_unfold.
  fold inspect pull r1. fold r2.
  destruct (exit_ok r1); do 2 eexists; (split; [reflexivity|]);
    (split; [reflexivity|]); (split; [reflexivity|]); simpl.
  - reflexivity.
  - rewrite <- app_assoc. reflexivity.
Qed.

(** ** Inspecting, starting, stopping *)

Lemma check_docker_running_unfold st :
  check_docker_running st
  = (Ret (exit_ok (fst (subprocess_run ["docker"; "info"] (world st)))),
     after_command ["docker"; "info"] st).
Proof.
  unfold check_docker_running, bind, ret.
  rewrite run_docker_command_unfold, success_cmd_result_of. reflexivity.
Qed.

Lemma start_container_unfold h st :
  start_container h st
  = (Ret (exit_ok (fst (subprocess_run ["docker"; "start"; h] (world st)))),
     after_command ["docker"; "start"; h] st).
Proof.
  unfold start_container, bind, ret.
  rewrite run_docker_command_unfold, success_cmd_result_of. reflexivity.
Qed.

Lemma get_container_status_state h st :
  snd (get_container_status h st) = after_command ["docker"; "inspect"; h] st.
Proof.
  unfold get_container_status, bind, lift, ret.
  rewrite run_docker_command_unfold.
  destruct (negb _); [reflexivity|].
  destruct (json_loads _) as [j|]; [|reflexivity].
  destruct (negb (truthy j)); [reflexivity|].
  destruct (py_len j) as [n|e]; [|reflexivity].
  destruct (Nat.eqb n 0); [reflexivity|].
  destruct (py_first j) as [cd|e]; [|reflexivity].
  destruct (py_get cd "Config" _) as [config|e]; [|reflexivity].
  destruct (py_get config "Env" _) as [env|e]; [|reflexivity].
  destruct (py_get cd "State" _) as [state|e]; [|reflexivity].
  destruct (py_get state "Status" _) as [status|e]; [|reflexivity].
  destruct (py_get cd "Created" _) as [created|e]; reflexivity.
Qed.

Lemma stop_and_remove_container_unfold h st :
  stop_and_remove_container h st
  = let r1 := cmd_result_of (fst (subprocess_run ["docker"; "stop"; h] (world st))) in
    let st1 := after_command ["docker"; "stop"; h] st in
    if success r1 then
      let r2 := cmd_result_of (fst (subprocess_run ["docker"; "rm"; h] (world st1))) in
      (Ret (if success r2 then StopOk
            else StopError ("Failed to remove container: " ++ error r2)),
       after_command ["docker"; "rm"; h] st1)
    else (Ret (StopError ("Failed to stop container: " ++ error r1)), st1).
Proof.
  unfold stop_and_remove_container, bind, ret.
  rewrite run_docker_command_unfold. cbv zeta.
  destruct (success _); cbn [negb]; [|reflexivity].
  rewrite run_docker_command_unfold.
  destruct (success _); reflexivity.
Qed.
(** [X2] How an inspection fails without raising: a failed [docker
    inspect] gives its stripped error behind a fixed prefix, output that
    is no JSON gives a parse error, and a decoded value that is falsy
    (the empty list docker prints for an unknown id) gives [Container
    not found].  In every case exactly one command is issued. *)
Theorem inspection_failures h st :
  let cmd := ["docker"; "inspect"; h] in
  let r := cmd_result_of (fst (subprocess_run cmd (world st))) in
  snd (get_container_status h st) = after_command cmd st
  /\ (success r = false ->
      fst (get_container_status h st)
      = Ret (StatusError ("Failed to get container status: " ++ error r)))
  /\ (success r = true -> json_loads (output r) = None ->
      fst (get_container_status h st)
      = Ret (StatusError "Failed to parse container info"))
  /\ (forall j, success r = true -> json_loads (output r) = Some j ->
                truthy j = false ->
                fst (get_container_status h st)
                = Ret (StatusError "Container not found")).
Proof.
  intros cmd r. split; [apply get_container_status_state|].
  unfold get_container_status, bind, lift, ret.
  rewrite run_docker_command_unfold. fold cmd. fold r.
  split; [|split].
  - intros ->. reflexivity.
  - intros -> ->. reflexivity.
  - intros j -> -> ->. reflexivity.
Qed.

(** [X3] A successful inspection reads only the first element of the
    decoded list and fills in what is missing: the status defaults to
    [unknown], the creation time to the empty string, the environment to
    the empty list; the id reported is the id asked for. *)
Theorem inspection_defaults h st cd rest c s :
  let cmd := ["docker"; "inspect"; h] in
  let r := cmd_result_of (fst (subprocess_run cmd (world st))) in
  success r = true ->
  json_loads (output r) = Some (JList (JDict cd :: rest)) ->
  PyDict.get_default "Config" (JDict []) cd = JDict c ->
  PyDict.get_default "State" (JDict []) cd = JDict s ->
  get_container_status h st
  = (Ret (StatusInfo (PyDict.get_default "Status" (JStr "unknown") s)
                     (PyDict.get_default "Created" (JStr "") cd)
                     h
                     (PyDict.get_default "Env" (JList []) c)),
     after_command cmd st)
  /\ (PyDict.get "State" cd = None -> PyDict.get "Config" cd = None ->
      PyDict.get "Created" cd = None ->
      get_container_status h st
      = (Ret (StatusInfo (JStr "unknown") (JStr "") h (JList [])),
         after_command cmd st)).
Proof.
  intros cmd r Hok Hjson Hc Hs.
  assert (Heq : get_container_status h st
                = (Ret (StatusInfo (PyDict.get_default "Status" (JStr "unknown") s)
                                   (PyDict.get_default "Created" (JStr "") cd)
                                   h
                                   (PyDict.get_default "Env" (JList []) c)),
                   after_command cmd st)).
  { unfold get_container_status, bind, lift, ret.
    rewrite run_docker_command_unfold. fold cmd. fold r.
    rewrite Hok, Hjson. cbn [negb truthy py_len py_first py_get length Nat.eqb].
    rewrite Hc, Hs. reflexivity. }
  split; [exact Heq|].
  intros HS HC HT. rewrite Heq. unfold PyDict.get_default in *.
  rewrite HS in Hs. rewrite HC in Hc. rewrite HT.
  injection Hs as <-. injection Hc as <-. reflexivity.
Qed.

Ltac malformed_case :=
  split;
  [ intros _; split; [reflexivity|]; eexists; split; [reflexivity|];
    split; [reflexivity|]; unfold well_formed_info;
    repeat match goal with
           | H : PyDict.get_default _ _ _ = _ |- _ => rewrite H
           end; reflexivity
  | intros _; eexists; reflexivity ].

(** [X4] An inspection raises exactly when [docker inspect] succeeded
    and printed JSON that is truthy but is not a list headed by an
    object with objects (or nothing) under [Config] and [State]. *)
Theorem inspection_raises_only_on_malformed h st :
  let r := cmd_result_of (fst (subprocess_run ["docker"; "inspect"; h] (world st))) in
  (exists e, fst (get_container_status h st) = Raise e)
  <-> (success r = true
       /\ exists j, json_loads (output r) = Some j
                    /\ truthy j = true /\ well_formed_info j = false).
Proof.
  intros r. unfold get_container_status, bind, lift, ret.
  rewrite run_docker_command_unfold. fold r.
  destruct (success r); cbn [negb].
  2:{ split; [intros [e He]; discriminate | intros [Hf _]; discriminate]. }
  destruct (json_loads (output r)) as [j|].
  2:{ split; [intros [e He]; discriminate | intros [_ [j [Hj _]]]; discriminate]. }
  destruct (truthy j) eqn:Ht; cbn [negb].
  2:{ split; [intros [e He]; discriminate
             | intros [_ [j' [[= <-] [Ht' _]]]]; congruence]. }
  destruct j as [| b | n | s | l | d].
  - discriminate Ht.
  - simpl in Ht. subst b. malformed_case.
  - split; [intros _; split; [reflexivity|]; exists (JNum n); auto
           | intros _; eexists; reflexivity].
  - destruct s as [|a s]; [discriminate | malformed_case].
  - destruct l as [|x l]; [discriminate|].
    destruct x as [| b | n | s | l' | cd]; try (malformed_case).
    cbn [py_len py_first length Nat.eqb fst snd py_get].
    destruct (PyDict.get_default "Config" (JDict []) cd)
      as [| b | n | s | l' | c] eqn:HC; try (malformed_case).
    destruct (PyDict.get_default "State" (JDict []) cd)
      as [| b | n | s' | l' | s'] eqn:HS; try (malformed_case).
    split; [intros [e He]; discriminate|].
    intros [_ [j' [[= <-] [_ Hw]]]]. unfold well_formed_info in Hw.
    rewrite HC, HS in Hw. discriminate.
  - destruct d as [|kv d]; [discriminate | malformed_case].
Qed.

(** [X5] Stop-and-remove never raises.  When [docker stop] fails,
    [docker rm] is not attempted and the error is the stop error behind
    [Failed to stop container: ]; when it succeeds, [docker rm] follows
    and a failure there is reported behind [Failed to remove container: ]. *)
Theorem stop_then_remove h st :
  let stop := ["docker"; "stop"; h] in
  let rm := ["docker"; "rm"; h] in
  let r1 := cmd_result_of (fst (subprocess_run stop (world st))) in
  let r2 := cmd_result_of
              (fst (subprocess_run rm (world (after_command stop st)))) in
  exists result st',
    stop_and_remove_container h st = (Ret result, st')
    /\ project_containers st' = project_containers st
    /\ (success r1 = false ->
        result = StopError ("Failed to stop container: " ++ error r1)
        /\ docker_log st' = docker_log st ++ [stop])
    /\ (success r1 = true ->
        result = (if success r2 then StopOk
                  else StopError ("Failed to remove container: " ++ error r2))
        /\ docker_log st' = docker_log st ++ [stop; rm]).
Proof.
  intros stop rm r1 r2. rewrite stop_and_remove_container_unfold. cbv zeta.
  fold stop rm r1. fold r2.
  destruct (success r1); do 2 eexists; (split; [reflexivity|]);
    (split; [reflexivity|]); split; intros H; try discriminate H.
  - split; [reflexivity|]. simpl. rewrite <- app_assoc. reflexivity.
  - split; reflexivity.
Qed.
(** ** The handlers as a whole *)

(** [X6] With the daemon unreachable, every one of the five handlers
    answers the same 500 after the single [docker info] call: nothing else
    is run and the registry is not touched. *)
Theorem daemon_down_fails_fast op st :
  exit_ok (fst (subprocess_run ["docker"; "info"] (world st))) = false ->
  handle op st = (Ret daemon_unreachable, after_command ["docker"; "info"] st)
  /\ code daemon_unreachable = 500%Z
  /\ project_containers (snd (handle op st)) = project_containers st
  /\ docker_log (snd (handle op st)) = docker_log st ++ [["docker"; "info"]].
Proof.
  intros Hdown.
  assert (Heq : handle op st
                = (Ret daemon_unreachable, after_command ["docker"; "info"] st)).
  { destruct op; simpl;
      unfold get_docker_status, create_or_run_container, stop_container,
        list_containers, get_container_status_endpoint, try_except, bind;
      rewrite check_docker_running_unfold, Hdown; reflexivity. }
  rewrite Heq. repeat split.
Qed.

Lemma stop_container_codes pid st :
  exists r st',
    stop_container pid st = (Ret r, st')
    /\ ((project_containers st' = project_containers st
         /\ (code r = 404%Z \/ code r = 500%Z))
        \/ (project_containers st' = PyDict.del pid (project_containers st)
            /\ code r = 200%Z
            /\ exists h, PyDict.get pid (project_containers st) = Some h)).
Proof.
  destruct (check_docker_running st) as [[[|]|e] s0] eqn:Hcheck.
  - destruct (PyDict.get pid (project_containers st)) as [h|] eqn:Hget.
    + destruct (stop_and_remove_container_returns h s0) as (result & s1 & Hstop).
      destruct (@stop_container_present pid st s0 h result s1 Hcheck Hget Hstop)
        as [Heq K].
      rewrite Heq. destruct result as [err|].
      * destruct (PyStr.contains "No such container" err);
          do 2 eexists; (split; [reflexivity|]).
        -- right. split; [reflexivity|]. split; [reflexivity|]. exists h. reflexivity.
        -- left. split; [exact K | right; reflexivity].
      * do 2 eexists. split; [reflexivity|]. right.
        split; [reflexivity|]. split; [reflexivity|]. exists h. reflexivity.
    + rewrite (@stop_container_absent pid st s0 Hcheck Hget).
      do 2 eexists. split; [reflexivity|]. left.
      split; [exact (kept_eq check_docker_running_kept Hcheck) | left; reflexivity].
  - unfold stop_container, try_except, bind. rewrite Hcheck. cbn [negb].
    do 2 eexists. split; [reflexivity|]. left.
    split; [exact (kept_eq check_docker_running_kept Hcheck) | right; reflexivity].
  - unfold stop_container, try_except, bind. rewrite Hcheck.
    do 2 eexists. split; [reflexivity|]. left.
    split; [exact (kept_eq check_docker_running_kept Hcheck) | right; reflexivity].
Qed.

(** [X7] The four container handlers never let an exception out: any
    exception raised on the way becomes a 500 answer, and the codes a
    handler can answer with are 200, 201 or 500 for create-or-run, 200,
    404 or 500 for stop and for the status of one project, 200 or 500
    for the listing. *)
Theorem container_handlers_never_raise op st :
  op <> OpStatus ->
  exists r, fst (handle op st) = Ret r /\ In (code r) (answer_codes op).
Proof.
  intros Hop. destruct op as [|pid request_json|pid| |pid]; [congruence| | | |]; simpl.
  - destruct (create_or_run_container_cases pid request_json st)
      as (r & st' & Heq & Hcases). rewrite Heq. exists r. split; [reflexivity|].
    destruct Hcases as [[_ [H | [H _]]] | (h & _ & _ & _ & _ & _ & _ & _ & _ & _ & [H | [H _]])];
      rewrite H; simpl; auto.
  - destruct (stop_container_codes pid st) as (r & st' & Heq & Hcases).
    rewrite Heq. exists r. split; [reflexivity|].
    destruct Hcases as [[_ [H | H]] | [_ [H _]]]; rewrite H; simpl; auto.
  - unfold list_containers, try_except, bind, get_registry, exception_response, ret.
    rewrite check_docker_running_unfold.
    destruct (exit_ok _); cbn [negb].
    + destruct (list_loop _ _ _) as [[res|e] s]; eexists; (split; [reflexivity|]);
        simpl; auto.
    + eexists. split; [reflexivity|]. simpl; auto.
  - unfold get_container_status_endpoint, try_except, bind, get_registry,
      exception_response, ret.
    rewrite check_docker_running_unfold.
    destruct (exit_ok _); cbn [negb]; [|eexists; split; [reflexivity|]; simpl; auto].
    cbn [project_containers after_command].
    destruct (PyDict.get pid (project_containers st)) as [h|];
      [|eexists; split; [reflexivity|]; simpl; auto].
    destruct (get_container_status h _) as [[[err|s c i e]|e] s1];
      eexists; (split; [reflexivity|]); simpl; auto.
Qed.

Lemma ensure_base_image_exists_returns st :
  exists available st', ensure_base_image_exists st = (Ret available, st').
Proof.
  rewrite ensure_base_image_exists_unfold. destruct (exit_ok _); do 2 eexists; reflexivity.
Qed.

(** [X8] The daemon status handler has no [try]: when [docker version]
    succeeds and prints JSON that is not an object (a list, a number, a
    string), the handler raises [AttributeError] instead of answering. *)
Theorem docker_status_raises_on_non_object_version st j :
  let info := ["docker"; "info"] in
  let version := ["docker"; "version"; "--format"; "json"] in
  let r := cmd_result_of
             (fst (subprocess_run version (world (after_command info st)))) in
  exit_ok (fst (subprocess_run info (world st))) = true ->
  success r = true ->
  json_loads (output r) = Some j ->
  is_dict j = false ->
  fst (get_docker_status st) = Raise (no_attribute j "get")
  /\ project_containers (snd (get_docker_status st)) = project_containers st.
Proof.
  intros info version r Hup Hok Hjson Hj.
  split; [|apply get_docker_status_kept].
  unfold get_docker_status, get_docker_version, bind, lift, ret.
  rewrite check_docker_running_unfold. fold info. rewrite Hup. cbn [negb].
  rewrite run_docker_command_unfold. fold version. fold r.
  rewrite Hok, Hjson.
  match goal with
  | |- context [ensure_base_image_exists ?s] =>
      destruct (ensure_base_image_exists_returns s) as (b & s' & ->)
  end.
  destruct j; try reflexivity. discriminate Hj.
Qed.

(** ** Paths through create-or-run *)

Lemma create_or_run_falls_through pid request_json st st0 st1 st2 :
  check_docker_running st = (Ret true, st0) ->
  ensure_base_image_exists st0 = (Ret true, st1) ->
  reuse_existing pid st1 = (Ret None, st2) ->
  create_or_run_container pid request_json st
  = try_except (create_new pid request_json) exception_response st2
  /\ project_containers st2 = project_containers st
  /\ quiet st st2.
Proof.
  intros Hcheck Himage Hreuse.
  pose proof (kept_eq check_docker_running_kept Hcheck) as K0.
  pose proof (kept_eq ensure_base_image_exists_kept Himage) as K1.
  pose proof (kept_eq (reuse_existing_kept pid) Hreuse) as K2.
  split; [|split; [congruence|]].
  - unfold create_or_run_container, try_except, bind.
    rewrite Hcheck. cbn [negb]. rewrite Himage. cbn [negb]. rewrite Hreuse.
    reflexivity.
  - eapply quiet_trans; [exact (quiet_eq check_docker_running_quiet Hcheck)|].
    eapply quiet_trans; [exact (quiet_eq ensure_base_image_exists_quiet Himage)|].
    exact (quiet_eq (reuse_existing_quiet pid) Hreuse).
Qed.

(** [X10] Create-or-run needs the image even for a project whose
    container is registered: when the image guard fails the answer is
    500, the commands issued are [docker info], the image inspection and
    the pull, no container is inspected or started, and the registry is
    unchanged. *)
Theorem create_needs_the_image pid request_json st st0 st1 :
  check_docker_running st = (Ret true, st0) ->
  ensure_base_image_exists st0 = (Ret false, st1) ->
  create_or_run_container pid request_json st
  = (Ret (error_response
            ("Base Docker image " ++ USER_CONTAINER_TEMPLATE
             ++ " not available. Check your registry access.") 500), st1)
  /\ project_containers st1 = project_containers st
  /\ docker_log st1
     = docker_log st
       ++ [["docker"; "info"];
           ["docker"; "image"; "inspect"; USER_CONTAINER_TEMPLATE];
           ["docker"; "pull"; USER_CONTAINER_TEMPLATE]].
Proof.
  intros Hcheck Himage.
  pose proof (kept_eq check_docker_running_kept Hcheck) as K0.
  pose proof (kept_eq ensure_base_image_exists_kept Himage) as K1.
  split; [|split; [congruence|]].
  - unfold create_or_run_container, try_except, bind.
    rewrite Hcheck. cbn [negb]. rewrite Himage. reflexivity.
  - rewrite check_docker_running_unfold in Hcheck. injection Hcheck as _ <-.
    rewrite ensure_base_image_exists_unfold in Himage.
    destruct (exit_ok _) in Himage; [discriminate|].
    injection Himage as _ <-. simpl. rewrite <- !app_assoc. reflexivity.
Qed.

(** [X11] A registered container that inspects with a status other than
    [running] and that [docker start] starts: the answer is 200
    [restarted] with the status of a second inspection, or [unknown] and
    no environment when that second inspection fails; nothing is
    created and the registry is unchanged. *)
Theorem stopped_container_is_restarted
        pid request_json st st0 st1 st2 st3 st4 h status created id env new_status :
  PyDict.get pid (project_containers st) = Some h ->
  check_docker_running st = (Ret true, st0) ->
  ensure_base_image_exists st0 = (Ret true, st1) ->
  get_container_status h st1 = (Ret (StatusInfo status created id env), st2) ->
  eq_str status "running" = false ->
  start_container h st2 = (Ret true, st3) ->
  get_container_status h st3 = (Ret new_status, st4) ->
  create_or_run_container pid request_json st
  = (Ret (Response
            [("status", JStr "success");
             ("message", JStr ("Container for project " ++ pid ++ " restarted"));
             ("container_id", JStr h);
             ("container_status", status_get_status new_status (JStr "unknown"));
             ("environment", status_get_env new_status (JList []))]
            200), st4)
  /\ project_containers st4 = project_containers st
  /\ quiet st st4.
Proof.
  intros Hget Hcheck Himage Hstatus Hnot Hstart Hnew.
  pose proof (kept_eq check_docker_running_kept Hcheck) as K0.
  pose proof (kept_eq ensure_base_image_exists_kept Himage) as K1.
  pose proof (kept_eq (get_container_status_kept h) Hstatus) as K2.
  pose proof (kept_eq (start_container_kept h) Hstart) as K3.
  pose proof (kept_eq (get_container_status_kept h) Hnew) as K4.
  split; [|split; [congruence|]].
  - unfold create_or_run_container, try_except, bind.
    rewrite Hcheck. cbn [negb]. rewrite Himage. cbn [negb].
    unfold reuse_existing, bind, get_registry.
    rewrite K1, K0, Hget, Hstatus. cbn [status_success status_get_status].
    rewrite Hnot. cbn [negb]. rewrite Hstart, Hnew. reflexivity.
  - eapply quiet_trans; [exact (quiet_eq check_docker_running_quiet Hcheck)|].
    eapply quiet_trans; [exact (quiet_eq ensure_base_image_exists_quiet Himage)|].
    eapply quiet_trans; [exact (quiet_eq (get_container_status_quiet h) Hstatus)|].
    eapply quiet_trans; [exact (quiet_eq (start_container_quiet h) Hstart)|].
    exact (quiet_eq (get_container_status_quiet h) Hnew).
Qed.

(** [X12] When [docker start] fails on the registered container, the
    handler goes on to create a new one: the old entry is still in the
    registry at that point, and afterwards the project maps either to the
    old handle still or to the handle of a run that succeeded. *)
Theorem failed_start_falls_through
        pid request_json st st0 st1 st2 st3 h status created id env :
  PyDict.get pid (project_containers st) = Some h ->
  check_docker_running st = (Ret true, st0) ->
  ensure_base_image_exists st0 = (Ret true, st1) ->
  get_container_status h st1 = (Ret (StatusInfo status created id env), st2) ->
  eq_str status "running" = false ->
  start_container h st2 = (Ret false, st3) ->
  create_or_run_container pid request_json st
  = try_except (create_new pid request_json) exception_response st3
  /\ PyDict.get pid (project_containers st3) = Some h
  /\ In ["docker"; "start"; h] (docker_log st3)
  /\ (PyDict.get pid (project_containers
                        (snd (create_or_run_container pid request_json st)))
      = Some h
      \/ exists h' env' ports volumes command stb,
          run_container pid env' ports volumes command st3 = (Ret (RunOk h'), stb)
          /\ PyDict.get pid (project_containers
                               (snd (create_or_run_container pid request_json st)))
             = Some h').
Proof.
  intros Hget Hcheck Himage Hstatus Hnot Hstart.
  pose proof (kept_eq check_docker_running_kept Hcheck) as K0.
  pose proof (kept_eq ensure_base_image_exists_kept Himage) as K1.
  pose proof (kept_eq (get_container_status_kept h) Hstatus) as K2.
  pose proof (kept_eq (start_container_kept h) Hstart) as K3.
  assert (Hreuse : reuse_existing pid st1 = (Ret None, st3)).
  { unfold reuse_existing, bind, get_registry.
    rewrite K1, K0, Hget, Hstatus. cbn [status_success status_get_status].
    rewrite Hnot. cbn [negb]. rewrite Hstart. reflexivity. }
  destruct (@create_or_run_falls_through pid request_json st st0 st1 st3
                                         Hcheck Himage Hreuse) as (Heq & K & _).
  split; [exact Heq|]. split; [congruence|]. split.
  - rewrite start_container_unfold in Hstart. injection Hstart as _ <-.
    simpl. apply in_or_app. right. left. reflexivity.
  - rewrite Heq. unfold try_except.
    destruct (create_new pid request_json st3) as [o s4] eqn:Hnew.
    destruct (create_new_cases _ _ _ Hnew) as [[K4 _] | Hreg].
    + left. destruct o; simpl; congruence.
    + destruct Hreg as (h' & env' & ports & volumes & command & stb & Hrun & Hset & _).
      right. exists h', env', ports, volumes, command, stb. split; [exact Hrun|].
      destruct o; simpl; rewrite Hset; apply dict_get_set_same.
Qed.
(** ** Running a new container *)

Lemma output_is_stripped r : PyStr.strip (output (cmd_result_of r)) = output (cmd_result_of r).
Proof. destruct r; simpl; [apply strip_idempotent | reflexivity]. Qed.

Lemma run_container_after_guard pid env ports volumes command st st1 pi vi cmd :
  ensure_base_image_exists st = (Ret true, st1) ->
  py_items (none_to_empty ports) = Ret pi ->
  py_items (none_to_empty volumes) = Ret vi ->
  str_items 0 (build_run_cmd pid (PyDict.set "PROJECT_ID" (JStr pid) env)
                             pi vi command) = Ret cmd ->
  run_container pid (Some env) ports volumes command st
  = let r := cmd_result_of (fst (subprocess_run cmd (world st1))) in
    if success r then
      match get_container_status (output r) (after_command cmd st1) with
      | (Ret _, s) => (Ret (RunOk (output r)), s)
      | (Raise e, s) => (Raise e, s)
      end
    else (Ret (RunError ("Failed to run container: " ++ error r)),
          after_command cmd st1).
Proof.
  intros Himage Hp Hv Hcmd. unfold run_container, bind, lift, ret.
  rewrite Himage. cbn [negb]. rewrite Hp, Hv, Hcmd.
  rewrite run_docker_command_unfold. cbv zeta.
  destruct (success _); cbn [negb]; [|reflexivity].
  rewrite output_is_stripped. reflexivity.
Qed.

Lemma build_run_cmd_is_run pid E pi vi command cmd :
  str_items 0 (build_run_cmd pid E pi vi command) = Ret cmd ->
  is_docker_run cmd = true /\ kind_of cmd = KRun.
Proof.
  unfold build_run_cmd. rewrite str_items_strings.
  destruct (str_items _ _) as [r|e]; [|discriminate].
  intros [= <-]. split; reflexivity.
Qed.

(** [X13] Creation and running are decoupled: once [docker run] has
    exited with 0, [run_container] reports success with the printed id,
    stripped, whatever the inspection that follows says (a failure, or a
    status other than [running]), as long as it does not raise. *)
Theorem run_container_reports_created
        pid env ports volumes command st st1 st2 pi vi cmd checked :
  let r := cmd_result_of (fst (subprocess_run cmd (world st1))) in
  ensure_base_image_exists st = (Ret true, st1) ->
  py_items (none_to_empty ports) = Ret pi ->
  py_items (none_to_empty volumes) = Ret vi ->
  str_items 0 (build_run_cmd pid (PyDict.set "PROJECT_ID" (JStr pid) env)
                             pi vi command) = Ret cmd ->
  success r = true ->
  get_container_status (output r) (after_command cmd st1) = (Ret checked, st2) ->
  run_container pid (Some env) ports volumes command st = (Ret (RunOk (output r)), st2)
  /\ PyStr.trimmed (output r).
Proof.
  intros r Himage Hp Hv Hcmd Hok Hst.
  rewrite (@run_container_after_guard pid env ports volumes command st st1 pi vi cmd
                                      Himage Hp Hv Hcmd).
  cbv zeta. fold r. rewrite Hok, Hst. split; [reflexivity|].
  unfold r. rewrite <- output_is_stripped. apply strip_trimmed.
Qed.

(** [X14] A container can be started and yet not registered: when
    [docker run] has exited with 0 and the inspection that follows it
    inside [run_container] raises (malformed inspect output), the
    handler answers 500 and the registry is unchanged, although the
    [docker run] command has been issued. *)
Theorem started_but_not_registered
        pid request_json d st st0 st1 st2 st3 st4 pi vi cmd e :
  let env := request_environment
               pid (PyDict.get_default "environment" (JDict []) d) in
  let r := cmd_result_of (fst (subprocess_run cmd (world st3))) in
  check_docker_running st = (Ret true, st0) ->
  ensure_base_image_exists st0 = (Ret true, st1) ->
  reuse_existing pid st1 = (Ret None, st2) ->
  request_data request_json = JDict d ->
  ensure_base_image_exists st2 = (Ret true, st3) ->
  py_items (none_to_empty (PyDict.get_default "ports" (JDict []) d)) = Ret pi ->
  py_items (none_to_empty (PyDict.get_default "volumes" (JDict []) d)) = Ret vi ->
  str_items 0 (build_run_cmd pid (PyDict.set "PROJECT_ID" (JStr pid) env) pi vi
                             (PyDict.get_default "command" JNull d)) = Ret cmd ->
  success r = true ->
  get_container_status (output r) (after_command cmd st3) = (Raise e, st4) ->
  create_or_run_container pid request_json st
  = (Ret (error_response ("Error: " ++ exn_str e) 500), st4)
  /\ project_containers st4 = project_containers st
  /\ is_docker_run cmd = true
  /\ In cmd (docker_log st4).
Proof.
  intros env r Hcheck Himage Hreuse Hdata Himage' Hp Hv Hcmd Hok Hst.
  destruct (@create_or_run_falls_through pid request_json st st0 st1 st2
                                         Hcheck Himage Hreuse) as (Heq & K & _).
  pose proof (kept_eq ensure_base_image_exists_kept Himage') as K3.
  pose proof (get_container_status_state (output r) (after_command cmd st3)) as Hs.
  rewrite Hst in Hs. simpl in Hs.
  assert (Hrun : run_container pid (Some env)
                               (PyDict.get_default "ports" (JDict []) d)
                               (PyDict.get_default "volumes" (JDict []) d)
                               (PyDict.get_default "command" JNull d) st2
                 = (Raise e, st4)).
  { rewrite (@run_container_after_guard pid env _ _ _ st2 st3 pi vi cmd
                                        Himage' Hp Hv Hcmd).
    cbv zeta. fold r. rewrite Hok, Hst. reflexivity. }
  split; [|split; [|split]].
  - rewrite Heq. unfold try_except, create_new, bind, lift.
    rewrite Hdata. cbn [py_get]. fold env. rewrite Hrun. reflexivity.
  - rewrite Hs. simpl. congruence.
  - exact (proj1 (build_run_cmd_is_run _ _ _ _ _ Hcmd)).
  - rewrite Hs. simpl. apply in_or_app. left. apply in_or_app. right. left. reflexivity.
Qed.

(** [X15] A 500 answer does not mean the registry is unchanged: the new
    handle is stored before the last inspection, so when that inspection
    raises, the handler answers 500 with the project already registered
    under the new handle. *)
Theorem registered_before_last_inspection
        pid request_json d st st0 st1 st2 st3 st4 h' e :
  check_docker_running st = (Ret true, st0) ->
  ensure_base_image_exists st0 = (Ret true, st1) ->
  reuse_existing pid st1 = (Ret None, st2) ->
  request_data request_json = JDict d ->
  run_container pid
                (Some (request_environment
                         pid (PyDict.get_default "environment" (JDict []) d)))
                (PyDict.get_default "ports" (JDict []) d)
                (PyDict.get_default "volumes" (JDict []) d)
                (PyDict.get_default "command" JNull d) st2
  = (Ret (RunOk h'), st3) ->
  get_container_status
    h' (MkState (PyDict.set pid h' (project_containers st3))
                (world st3) (docker_log st3))
  = (Raise e, st4) ->
  create_or_run_container pid request_json st
  = (Ret (error_response ("Error: " ++ exn_str e) 500), st4)
  /\ project_containers st4 = PyDict.set pid h' (project_containers st)
  /\ PyDict.get pid (project_containers st4) = Some h'.
Proof.
  intros Hcheck Himage Hreuse Hdata Hrun Hst.
  destruct (@create_or_run_falls_through pid request_json st st0 st1 st2
                                         Hcheck Himage Hreuse) as (Heq & K & _).
  pose proof (kept_eq (run_container_kept _ _ _ _ _) Hrun) as K3.
  pose proof (kept_eq (get_container_status_kept h') Hst) as K4.
  cbn [project_containers] in K4.
  assert (Hset : project_containers st4 = PyDict.set pid h' (project_containers st))
    by congruence.
  split; [|split; [exact Hset|rewrite Hset; apply dict_get_set_same]].
  rewrite Heq. unfold try_except, create_new, bind, lift.
  rewrite Hdata. cbn [py_get]. rewrite Hrun.
  unfold get_registry, put_registry. cbn [world docker_log project_containers].
  rewrite Hst. reflexivity.
Qed.

(** [X16] A project that is not registered: no container is inspected
    before the run, and when the run succeeds the answer is 201 with the
    five fields of the interface and the base image, the status being
    [unknown] when the last inspection fails; the registry gains exactly
    one entry, at its end, and keeps the others as they were. *)
Theorem new_project_is_appended
        pid request_json d st st0 st1 st2 st3 h' checked :
  PyDict.get pid (project_containers st) = None ->
  check_docker_running st = (Ret true, st0) ->
  ensure_base_image_exists st0 = (Ret true, st1) ->
  request_data request_json = JDict d ->
  run_container pid
                (Some (request_environment
                         pid (PyDict.get_default "environment" (JDict []) d)))
                (PyDict.get_default "ports" (JDict []) d)
                (PyDict.get_default "volumes" (JDict []) d)
                (PyDict.get_default "command" JNull d) st1
  = (Ret (RunOk h'), st2) ->
  get_container_status
    h' (MkState (PyDict.set pid h' (project_containers st2))
                (world st2) (docker_log st2))
  = (Ret checked, st3) ->
  create_or_run_container pid request_json st
  = (Ret (Response
            [("status", JStr "success");
             ("message", JStr ("Container created for project " ++ pid));
             ("project_id", JStr pid);
             ("container_id", JStr h');
             ("base_image", JStr USER_CONTAINER_TEMPLATE);
             ("container_status", status_get_status checked (JStr "unknown"));
             ("environment", status_get_env checked (JList []))]
            201), st3)
  /\ project_containers st3 = project_containers st ++ [(pid, h')].
Proof.
  intros Hget Hcheck Himage Hdata Hrun Hst.
  pose proof (kept_eq check_docker_running_kept Hcheck) as K0.
  pose proof (kept_eq ensure_base_image_exists_kept Himage) as K1.
  assert (Hreuse : reuse_existing pid st1 = (Ret None, st1)).
  { unfold reuse_existing, bind, get_registry. rewrite K1, K0, Hget. reflexivity. }
  destruct (@create_or_run_falls_through pid request_json st st0 st1 st1
                                         Hcheck Himage Hreuse) as (Heq & K & _).
  pose proof (kept_eq (run_container_kept _ _ _ _ _) Hrun) as K3.
  pose proof (kept_eq (get_container_status_kept h') Hst) as K4.
  cbn [project_containers] in K4.
  split.
  - rewrite Heq. unfold try_except, create_new, bind, lift.
    rewrite Hdata. cbn [py_get]. rewrite Hrun.
    unfold get_registry, put_registry. cbn [world docker_log project_containers].
    rewrite Hst. destruct checked; reflexivity.
  - rewrite K4, K3, K. apply dict_set_fresh. exact Hget.
Qed.
(** ** Request bodies the code does not expect *)

Lemma none_to_empty_items j e :
  py_items (none_to_empty j) = Raise e -> e = no_attribute j "items".
Proof. destruct j; simpl; congruence. Qed.

(** [X17] Unlike [environment], a [ports] or [volumes] value that is
    not a dictionary is not coerced.  [null] stands for the empty
    mapping; anything else (a list, a string, a number) raises when its
    items are asked for, after the image guard and before any [docker
    run], and the handler answers 500 with the registry unchanged. *)
Theorem non_dict_ports_or_volumes_fail
        pid request_json d st st0 st1 st2 st3 e :
  let ports := PyDict.get_default "ports" (JDict []) d in
  let volumes := PyDict.get_default "volumes" (JDict []) d in
  check_docker_running st = (Ret true, st0) ->
  ensure_base_image_exists st0 = (Ret true, st1) ->
  reuse_existing pid st1 = (Ret None, st2) ->
  request_data request_json = JDict d ->
  ensure_base_image_exists st2 = (Ret true, st3) ->
  (py_items (none_to_empty ports) = Raise e
   \/ (exists port_items, py_items (none_to_empty ports) = Ret port_items)
      /\ py_items (none_to_empty volumes) = Raise e) ->
  create_or_run_container pid request_json st
  = (Ret (error_response ("Error: " ++ exn_str e) 500), st3)
  /\ (e = no_attribute ports "items" \/ e = no_attribute volumes "items")
  /\ project_containers st3 = project_containers st
  /\ quiet st st3
  /\ (forall env v c s,
         run_container pid env JNull v c s = run_container pid env (JDict []) v c s
         /\ run_container pid env v JNull c s = run_container pid env v (JDict []) c s).
Proof.
  intros ports volumes Hcheck Himage Hreuse Hdata Himage' Hbad.
  destruct (@create_or_run_falls_through pid request_json st st0 st1 st2
                                         Hcheck Himage Hreuse) as (Heq & K & Hq).
  pose proof (kept_eq ensure_base_image_exists_kept Himage') as K3.
  split; [|split; [|split; [congruence|split]]].
  - rewrite Heq. unfold try_except, create_new, bind, lift.
    rewrite Hdata. cbn [py_get]. fold ports volumes.
    unfold run_container, bind, lift. rewrite Himage'. cbn [negb].
    destruct Hbad as [Hp | [[pi Hp] Hv]]; rewrite Hp; [reflexivity|].
    rewrite Hv. reflexivity.
  - destruct Hbad as [Hp | [_ Hv]]; [left | right];
      apply none_to_empty_items; assumption.
  - eapply quiet_trans; [exact Hq|].
    exact (quiet_eq ensure_base_image_exists_quiet Himage').
  - intros env v c s. split; reflexivity.
Qed.

Lemma str_items_first_non_string (ss : list string) x rest i :
  (forall s, x <> JStr s) ->
  str_items i (map JStr ss ++ x :: rest)
  = Raise (TypeError ("sequence item " ++ PyStr.of_nat (i + length ss)
                      ++ ": expected str instance, " ++ type_name x ++ " found")).
Proof.
  intros Hx. rewrite str_items_strings. simpl.
  destruct x; try reflexivity. exfalso. exact (Hx s eq_refl).
Qed.

(** [X18] A [command] list with an element that is not a string: the
    command line cannot be joined, so the handler answers 500 naming the
    position and the type of the first such element, no [docker run] is
    issued and the registry is unchanged. *)
Theorem non_string_command_element_fails
        pid request_json d st st0 st1 st2 st3 pi vi ss x rest :
  let env := PyDict.set "PROJECT_ID" (JStr pid)
               (request_environment
                  pid (PyDict.get_default "environment" (JDict []) d)) in
  check_docker_running st = (Ret true, st0) ->
  ensure_base_image_exists st0 = (Ret true, st1) ->
  reuse_existing pid st1 = (Ret None, st2) ->
  request_data request_json = JDict d ->
  ensure_base_image_exists st2 = (Ret true, st3) ->
  py_items (none_to_empty (PyDict.get_default "ports" (JDict []) d)) = Ret pi ->
  py_items (none_to_empty (PyDict.get_default "volumes" (JDict []) d)) = Ret vi ->
  PyDict.get_default "command" JNull d = JList (map JStr ss ++ x :: rest) ->
  (forall s, x <> JStr s) ->
  create_or_run_container pid request_json st
  = (Ret (error_response
            ("Error: sequence item "
             ++ PyStr.of_nat (length (run_cmd_base pid env pi vi) + length ss)
             ++ ": expected str instance, " ++ type_name x ++ " found") 500), st3)
  /\ project_containers st3 = project_containers st
  /\ quiet st st3.
Proof.
  intros env Hcheck Himage Hreuse Hdata Himage' Hp Hv Hcommand Hx.
  destruct (@create_or_run_falls_through pid request_json st st0 st1 st2
                                         Hcheck Himage Hreuse) as (Heq & K & Hq).
  pose proof (kept_eq ensure_base_image_exists_kept Himage') as K3.
  split; [|split; [congruence|]].
  - rewrite Heq. unfold try_except, create_new, bind, lift.
    rewrite Hdata. cbn [py_get].
    unfold run_container, bind, lift. rewrite Himage'. cbn [negb].
    rewrite Hp, Hv, Hcommand. fold env.
    unfold build_run_cmd.
    assert (Htok : command_tokens (JList (map JStr ss ++ x :: rest))
                   = map JStr ss ++ x :: rest).
    { unfold command_tokens, truthy. destruct ss; reflexivity. }
    rewrite Htok, str_items_strings, (str_items_first_non_string _ _ _ Hx).
    reflexivity.
  - eapply quiet_trans; [exact Hq|].
    exact (quiet_eq ensure_base_image_exists_quiet Himage').
Qed.

(** [X19] A request body that is falsy (no JSON, [null], [false], [0],
    an empty string, list or object) is handled exactly as no body.  A
    body that is truthy and not an object (a non-empty list or string, a
    number) makes the creation raise at the first lookup: the answer is
    500, nothing more is run, the registry is unchanged. *)
Theorem request_body_shapes pid j :
  (truthy j = false ->
   forall st, create_or_run_container pid (Some j) st
              = create_or_run_container pid None st)
  /\ (truthy j = true -> is_dict j = false ->
      forall st st0 st1 st2,
        check_docker_running st = (Ret true, st0) ->
        ensure_base_image_exists st0 = (Ret true, st1) ->
        reuse_existing pid st1 = (Ret None, st2) ->
        create_or_run_container pid (Some j) st
        = (Ret (error_response
                  ("Error: '" ++ type_name j ++ "' object has no attribute 'get'")
                  500), st2)
        /\ project_containers st2 = project_containers st
        /\ quiet st st2).
Proof.
  split.
  - intros Hf. apply create_or_run_container_ext. intros st.
    unfold create_new, request_data. rewrite Hf. reflexivity.
  - intros Ht Hd st st0 st1 st2 Hcheck Himage Hreuse.
    destruct (@create_or_run_falls_through pid (Some j) st st0 st1 st2
                                           Hcheck Himage Hreuse) as (Heq & K & Hq).
    split; [|split; assumption].
    rewrite Heq. unfold try_except, create_new, bind, lift, request_data.
    rewrite Ht. destruct j; try reflexivity. discriminate Hd.
Qed.

(** ** The status of one project *)

(** [X20] The status of one project, once the daemon check has passed:
    404 when the project is not registered; 404 again, with the record
    left in the registry, when the registered handle fails to inspect;
    200 with the project id, the handle and what the inspection read
    otherwise; 500 when the inspection raises.  The registry is never
    changed. *)
Theorem project_status_outcomes pid st st0 :
  check_docker_running st = (Ret true, st0) ->
  (PyDict.get pid (project_containers st) = None ->
   get_container_status_endpoint pid st = (Ret (no_container_found pid), st0))
  /\ (forall h checked st1,
         PyDict.get pid (project_containers st) = Some h ->
         get_container_status h st0 = (checked, st1) ->
         get_container_status_endpoint pid st
         = (Ret (match checked with
                 | Ret (StatusInfo status created _ env) =>
                     Response [("status", JStr "success");
                               ("project_id", JStr pid);
                               ("container_id", JStr h);
                               ("base_image", JStr USER_CONTAINER_TEMPLATE);
                               ("container_status", status);
                               ("created", created);
                               ("environment", env)] 200
                 | Ret (StatusError _) =>
                     error_response
                       ("Container for project " ++ pid
                        ++ " exists in records but not in Docker") 404
                 | Raise e => error_response ("Error: " ++ exn_str e) 500
                 end), st1)
         /\ PyDict.get pid (project_containers st1) = Some h)
  /\ project_containers (snd (get_container_status_endpoint pid st))
     = project_containers st.
Proof.
  intros Hcheck.
  pose proof (kept_eq check_docker_running_kept Hcheck) as K0.
  split; [|split; [|apply get_container_status_endpoint_kept]].
  - intros Hget. unfold get_container_status_endpoint, try_except, bind, get_registry.
    rewrite Hcheck. cbn [negb]. rewrite K0, Hget. reflexivity.
  - intros h checked st1 Hget Hst.
    pose proof (kept_eq (get_container_status_kept h) Hst) as K1.
    split; [|congruence].
    unfold get_container_status_endpoint, try_except, bind, get_registry.
    rewrite Hcheck. cbn [negb]. rewrite K0, Hget, Hst.
    destruct checked as [[err|status created id env]|e]; reflexivity.
Qed.
(** ** What the handlers run *)

Section Kinds.
Variable ks : list command_kind.

Lemma of_kinds_refl st : log_grows (of_kinds ks) st st.
Proof. apply log_grows_refl. Qed.

Lemma of_kinds_trans a b c :
  log_grows (of_kinds ks) a b -> log_grows (of_kinds ks) b c ->
  log_grows (of_kinds ks) a c.
Proof. apply log_grows_trans. Qed.

Ltac kinds_leaf :=
  first [ apply put_registry_log
        | apply run_docker_command_log; unfold of_kinds; simpl; assumption ].
Ltac kinds_auto := along_with of_kinds_refl of_kinds_trans kinds_leaf.

Lemma check_docker_running_kinds :
  In KInfo ks -> along (log_grows (of_kinds ks)) check_docker_running.
Proof. intros H. unfold check_docker_running. kinds_auto. Qed.

Lemma get_docker_version_kinds :
  In KVersion ks -> along (log_grows (of_kinds ks)) get_docker_version.
Proof. intros H. unfold get_docker_version. kinds_auto. Qed.

Lemma ensure_base_image_exists_kinds :
  In KImageInspect ks -> In KPull ks ->
  along (log_grows (of_kinds ks)) ensure_base_image_exists.
Proof. intros H1 H2. unfold ensure_base_image_exists. kinds_auto. Qed.

Lemma get_container_status_kinds h :
  In KInspect ks -> along (log_grows (of_kinds ks)) (get_container_status h).
Proof. intros H. unfold get_container_status. kinds_auto. Qed.

Lemma start_container_kinds h :
  In KStart ks -> along (log_grows (of_kinds ks)) (start_container h).
Proof. intros H. unfold start_container. kinds_auto. Qed.

Lemma stop_and_remove_container_kinds h :
  In KStop ks -> In KRm ks ->
  along (log_grows (of_kinds ks)) (stop_and_remove_container h).
Proof. intros H1 H2. unfold stop_and_remove_container. kinds_auto. Qed.

Lemma list_loop_kinds items :
  In KInspect ks -> forall acc, along (log_grows (of_kinds ks)) (list_loop items acc).
Proof.
  intros H. induction items as [|[p c] rest IH]; intros acc; simpl.
  - apply along_ret, of_kinds_refl.
  - apply along_bind; [exact of_kinds_trans | apply get_container_status_kinds, H|].
    intros cs. apply IH.
Qed.

Lemma run_container_kinds pid env ports volumes command :
  In KImageInspect ks -> In KPull ks -> In KRun ks -> In KInspect ks ->
  along (log_grows (of_kinds ks)) (run_container pid env ports volumes command).
Proof.
  intros H1 H2 H3 H4. unfold run_container.
  apply along_bind;
    [exact of_kinds_trans | apply ensure_base_image_exists_kinds; assumption
     | intros image].
  destruct (negb image); [apply along_ret, of_kinds_refl|].
  apply along_bind_lift; [exact of_kinds_refl | intros port_items _].
  apply along_bind_lift; [exact of_kinds_refl | intros volume_items _].
  apply along_bind_lift; [exact of_kinds_refl | intros run_cmd Hcmd].
  apply along_bind; [exact of_kinds_trans | | intros result].
  - apply run_docker_command_log. unfold of_kinds.
    rewrite (proj2 (build_run_cmd_is_run _ _ _ _ _ Hcmd)). exact H3.
  - destruct (negb (success result)); [apply along_ret, of_kinds_refl|].
    apply along_bind;
      [exact of_kinds_trans | apply get_container_status_kinds, H4 | intros ?].
    apply along_ret, of_kinds_refl.
Qed.

End Kinds.

Ltac op_kinds_leaf :=
  first [ apply put_registry_log
        | apply check_docker_running_kinds; simpl; tauto
        | apply get_docker_version_kinds; simpl; tauto
        | apply ensure_base_image_exists_kinds; simpl; tauto
        | apply get_container_status_kinds; simpl; tauto
        | apply start_container_kinds; simpl; tauto
        | apply stop_and_remove_container_kinds; simpl; tauto
        | apply list_loop_kinds; simpl; tauto
        | apply run_container_kinds; simpl; tauto ].

(** [X21] What each operation can run.  The daemon status runs only
    [info], [version], the image inspection and the pull; create-or-run
    never stops or removes a container; stop never starts or runs one;
    the listing and the status of one project only run [info] and
    [inspect]. *)
Theorem commands_by_operation op st :
  log_grows (of_kinds (allowed_kinds op)) st (snd (handle op st)).
Proof.
  revert st. change (along (log_grows (of_kinds (allowed_kinds op))) (handle op)).
  destruct op as [|pid request_json|pid| |pid]; simpl handle.
  - unfold get_docker_status.
    along_with (@of_kinds_refl (allowed_kinds OpStatus))
               (@of_kinds_trans (allowed_kinds OpStatus)) op_kinds_leaf.
  - unfold create_or_run_container, reuse_existing, create_new, exception_response.
    along_with (@of_kinds_refl (allowed_kinds (OpCreateOrRun pid request_json)))
               (@of_kinds_trans (allowed_kinds (OpCreateOrRun pid request_json)))
               op_kinds_leaf.
  - unfold stop_container, exception_response.
    along_with (@of_kinds_refl (allowed_kinds (OpStop pid)))
               (@of_kinds_trans (allowed_kinds (OpStop pid))) op_kinds_leaf.
  - unfold list_containers, exception_response.
    along_with (@of_kinds_refl (allowed_kinds OpList))
               (@of_kinds_trans (allowed_kinds OpList)) op_kinds_leaf.
  - unfold get_container_status_endpoint, exception_response.
    along_with (@of_kinds_refl (allowed_kinds (OpGet pid)))
               (@of_kinds_trans (allowed_kinds (OpGet pid))) op_kinds_leaf.
Qed.

(** ** How many containers a request starts *)

Lemma runs_at_most_refl n st : runs_at_most n st st.
Proof. exists []. rewrite app_nil_r. split; [reflexivity | apply Nat.le_0_l]. Qed.

Lemma runs_at_most_compose n m a b c :
  runs_at_most n a b -> runs_at_most m b c -> runs_at_most (n + m) a c.
Proof.
  intros [e1 [H1 L1]] [e2 [H2 L2]]. exists (e1 ++ e2). split.
  - rewrite H2, H1, app_assoc. reflexivity.
  - unfold run_count in *. rewrite filter_app, length_app. lia.
Qed.

Lemma quiet_runs_none a b : quiet a b -> runs_at_most 0 a b.
Proof.
  intros [ext [H F]]. exists ext. split; [exact H|]. clear H.
  unfold run_count. induction F as [|c l Hc F IH]; simpl; [lia|].
  rewrite Hc. exact IH.
Qed.

Lemma along_bind_runs n m A B (c : M A) (k : A -> M B) :
  along (runs_at_most n) c -> (forall a, along (runs_at_most m) (k a)) ->
  along (runs_at_most (n + m)) (bind c k).
Proof.
  intros Hc Hk st. unfold bind. specialize (Hc st).
  destruct (c st) as [[a|e] st']; simpl in *.
  - eapply runs_at_most_compose; [exact Hc | apply Hk].
  - eapply runs_at_most_compose; [exact Hc | apply runs_at_most_refl].
Qed.

Lemma along_try_runs n m A (c : M A) (h : exn -> M A) :
  along (runs_at_most n) c -> (forall e, along (runs_at_most m) (h e)) ->
  along (runs_at_most (n + m)) (try_except c h).
Proof.
  intros Hc Hh st. unfold try_except. specialize (Hc st).
  destruct (c st) as [[a|e] st']; simpl in *.
  - eapply runs_at_most_compose; [exact Hc | apply runs_at_most_refl].
  - eapply runs_at_most_compose; [exact Hc | apply Hh].
Qed.

Lemma along_quiet_runs A (c : M A) : along quiet c -> along (runs_at_most 0) c.
Proof. intros H st. apply quiet_runs_none, H. Qed.

Lemma run_container_runs pid env ports volumes command :
  along (runs_at_most 1) (run_container pid env ports volumes command).
Proof.
  unfold run_container.
  apply (@along_bind_runs 0 1);
    [apply along_quiet_runs, ensure_base_image_exists_quiet | intros image].
  destruct (negb image); [apply along_ret, runs_at_most_refl|].
  apply along_bind_lift; [apply runs_at_most_refl | intros port_items _].
  apply along_bind_lift; [apply runs_at_most_refl | intros volume_items _].
  apply along_bind_lift; [apply runs_at_most_refl | intros run_cmd _].
  apply (@along_bind_runs 1 0).
  - intros st. rewrite run_docker_command_unfold. exists [run_cmd].
    split; [reflexivity|]. unfold run_count. simpl.
    destruct (is_docker_run run_cmd); simpl; lia.
  - intros result. destruct (negb (success result));
      [apply along_ret, runs_at_most_refl|].
    apply (@along_bind_runs 0 0);
      [apply along_quiet_runs, get_container_status_quiet | intros ?].
    apply along_ret, runs_at_most_refl.
Qed.

Lemma create_new_runs pid request_json :
  along (runs_at_most 1) (create_new pid request_json).
Proof.
  unfold create_new.
  apply along_bind_lift; [apply runs_at_most_refl | intros environment _].
  apply along_bind_lift; [apply runs_at_most_refl | intros volumes _].
  apply along_bind_lift; [apply runs_at_most_refl | intros ports _].
  apply along_bind_lift; [apply runs_at_most_refl | intros command _].
  apply (@along_bind_runs 1 0); [apply run_container_runs | intros run_result].
  destruct run_result as [err|h]; [apply along_ret, runs_at_most_refl|].
  apply (@along_bind_runs 0 0); [intros st; apply runs_at_most_refl | intros registry].
  apply (@along_bind_runs 0 0);
    [intros st; exists []; simpl; rewrite app_nil_r; split;
     [reflexivity | apply Nat.le_0_l]
    | intros ?].
  apply (@along_bind_runs 0 0);
    [apply along_quiet_runs, get_container_status_quiet | intros ?].
  apply along_ret, runs_at_most_refl.
Qed.

Lemma stop_and_remove_container_quiet h : along quiet (stop_and_remove_container h).
Proof. unfold stop_and_remove_container. quiet_auto. Qed.

Lemma get_docker_version_quiet : along quiet get_docker_version.
Proof. unfold get_docker_version. quiet_auto. Qed.

Lemma list_loop_quiet items : forall acc, along quiet (list_loop items acc).
Proof.
  induction items as [|[p c] rest IH]; intros acc; simpl.
  - apply along_ret, quiet_refl.
  - apply along_bind; [exact quiet_trans | apply get_container_status_quiet|].
    intros cs. apply IH.
Qed.

Lemma put_registry_quiet d : along quiet (put_registry d).
Proof. apply put_registry_log. Qed.

Ltac quiet_leaf'' :=
  first [ apply check_docker_running_quiet | apply ensure_base_image_exists_quiet
        | apply get_container_status_quiet | apply start_container_quiet
        | apply stop_and_remove_container_quiet | apply get_docker_version_quiet
        | apply list_loop_quiet | apply put_registry_quiet ].
Ltac quiet_auto'' := along_with quiet_refl quiet_trans quiet_leaf''.

(** [X22] One request starts at most one container: a create-or-run
    issues at most one [docker run], whatever path it takes, and the four
    other operations issue none. *)
Theorem at_most_one_container_per_request op st :
  runs_at_most (match op with OpCreateOrRun _ _ => 1 | _ => 0 end)
               st (snd (handle op st)).
Proof.
  revert st.
  change (along (runs_at_most (match op with OpCreateOrRun _ _ => 1 | _ => 0 end))
                (handle op)).
  destruct op as [|pid request_json|pid| |pid]; simpl handle.
  - apply along_quiet_runs. unfold get_docker_status. quiet_auto''.
  - unfold create_or_run_container, exception_response.
    apply (@along_try_runs 1 0); [|intros e; apply along_ret, runs_at_most_refl].
    apply (@along_bind_runs 0 1);
      [apply along_quiet_runs, check_docker_running_quiet | intros running].
    destruct (negb running);
      [eapply along_weaken; [|apply along_ret, (runs_at_most_refl 1)]; auto|].
    apply (@along_bind_runs 0 1);
      [apply along_quiet_runs, ensure_base_image_exists_quiet | intros image].
    destruct (negb image); [apply along_ret, runs_at_most_refl|].
    apply (@along_bind_runs 0 1);
      [apply along_quiet_runs, reuse_existing_quiet | intros early].
    destruct early as [r|]; [apply along_ret, runs_at_most_refl|].
    apply create_new_runs.
  - apply along_quiet_runs. unfold stop_container, exception_response. quiet_auto''.
  - apply along_quiet_runs. unfold list_containers, exception_response. quiet_auto''.
  - apply along_quiet_runs. unfold get_container_status_endpoint, exception_response.
    quiet_auto''.
Qed.

(** ** Other projects, and round trips *)

Lemma dict_del_absent V k (d : PyDict.t V) :
  PyDict.get k d = None -> PyDict.del k d = d.
Proof.
  induction d as [|[k0 v0] rest IH]; simpl; [reflexivity|].
  destruct (String.eqb k k0); [discriminate|]. intros H. f_equal. exact (IH H).
Qed.

Lemma dict_del_set_fresh V k (v : V) (d : PyDict.t V) :
  PyDict.get k d = None -> PyDict.del k (PyDict.set k v d) = d.
Proof.
  induction d as [|[k0 v0] rest IH]; simpl.
  - rewrite String.eqb_refl. reflexivity.
  - destruct (String.eqb k k0) eqn:E; [discriminate|]. simpl. rewrite E.
    intros H. f_equal. exact (IH H).
Qed.

(** [X23] A request about one project never touches the entry of
    another: after a create-or-run or a stop of [p] every other key maps
    to what it mapped to before, the three other operations change no
    key at all, and the keys of the registry stay distinct. *)
Theorem other_projects_untouched op st k :
  match op with
  | OpCreateOrRun p _ | OpStop p => k <> p
  | _ => True
  end ->
  PyDict.get k (project_containers (snd (handle op st)))
  = PyDict.get k (project_containers st)
  /\ (NoDup (PyDict.keys (project_containers st)) ->
      NoDup (PyDict.keys (project_containers (snd (handle op st))))).
Proof.
  intros Hk.
  destruct (handle_cases op st) as [K | [Hadd | Hdel]].
  - rewrite K. auto.
  - destruct Hadd as (pid & request_json & h & env & ports & volumes & command
                      & sta & stb & -> & Ka & Hrun & ->).
    split; [apply dict_get_set_other; exact Hk | apply dict_set_NoDup].
  - destruct Hdel as (pid & -> & ->).
    split; [apply dict_get_del_other; exact Hk | apply dict_del_NoDup].
Qed.

(** [X24] Creating a container for a project that was not registered
    and then stopping it gives back the registry as it was: a 201 followed
    by a 200 of the stop leaves no trace in the registry. *)
Theorem create_then_stop_restores pid request_json st r1 st1 r2 st2 :
  PyDict.get pid (project_containers st) = None ->
  create_or_run_container pid request_json st = (Ret r1, st1) ->
  code r1 = 201%Z ->
  stop_container pid st1 = (Ret r2, st2) ->
  code r2 = 200%Z ->
  project_containers st2 = project_containers st.
Proof.
  intros Hget Hcreate H201 Hstop H200.
  destruct (create_or_run_container_cases pid request_json st)
    as (r & s & Heq & Hcases). rewrite Hcreate in Heq. injection Heq as <- <-.
  destruct (stop_container_codes pid st1) as (r & s & Heq & Hstops).
  rewrite Hstop in Heq. injection Heq as <- <-.
  destruct Hstops as [[_ [H | H]] | [Hdel _]]; try congruence.
  destruct Hcases as [[_ [H | [H _]]] | Hreg]; try congruence.
  destruct Hreg as (h & _ & _ & _ & _ & _ & _ & _ & _ & Hset & _).
  rewrite Hdel, Hset. apply dict_del_set_fresh. exact Hget.
Qed.

(** ** The listing, command by command *)

Lemma list_loop_log items :
  forall acc st result st',
    list_loop items acc st = (Ret result, st') ->
    docker_log st'
    = docker_log st ++ map (fun kv => ["docker"; "inspect"; snd kv]) items.
Proof.
  induction items as [|[p c] rest IH]; intros acc st result st' Hloop.
  - simpl in Hloop. injection Hloop as _ <-. simpl. rewrite app_nil_r. reflexivity.
  - simpl in Hloop. unfold bind in Hloop.
    pose proof (get_container_status_state c st) as Hs.
    destruct (get_container_status c st) as [[cs|e] s1]; [|discriminate].
    simpl in Hs. subst s1. rewrite (IH _ _ _ _ Hloop). simpl.
    rewrite <- app_assoc. reflexivity.
Qed.

(** [X25] A listing that answers 200 has run [docker info] and then one
    [docker inspect] per registered handle, in the order of the registry,
    and nothing else; on an empty registry it runs [docker info] alone
    and answers with no container. *)
Theorem listing_inspects_each_handle_once st st0 result st1 :
  check_docker_running st = (Ret true, st0) ->
  list_loop (project_containers st) [] st0 = (Ret result, st1) ->
  docker_log (snd (list_containers st))
  = docker_log st
    ++ ["docker"; "info"]
    :: map (fun kv => ["docker"; "inspect"; snd kv]) (project_containers st)
  /\ (project_containers st = [] ->
      list_containers st
      = (Ret (Response [("status", JStr "success"); ("containers", JDict [])] 200),
         st0)).
Proof.
  intros Hcheck Hloop.
  pose proof (kept_eq check_docker_running_kept Hcheck) as K0.
  assert (Heq : list_containers st
                = (Ret (Response [("status", JStr "success");
                                  ("containers", JDict result)] 200), st1)).
  { unfold list_containers, try_except, bind, get_registry.
    rewrite Hcheck. cbn [negb]. rewrite K0, Hloop. reflexivity. }
  split.
  - rewrite Heq. simpl. rewrite (list_loop_log _ _ _ Hloop).
    rewrite check_docker_running_unfold in Hcheck. injection Hcheck as _ <-.
    simpl. rewrite <- app_assoc. reflexivity.
  - intros Hempty. rewrite Heq. rewrite Hempty in Hloop. simpl in Hloop.
    injection Hloop as <- <-. reflexivity.
Qed.

(** ** One request after another *)

(** [X26] The status of a project follows the registry: right after a
    stop that answered 200 it is 404, and right after a create-or-run
    that answered 201 with a handle it is 200 with that same handle,
    provided the handle inspects. *)
Theorem status_follows_registry pid :
  (forall st r st' st0',
      stop_container pid st = (Ret r, st') ->
      code r = 200%Z ->
      check_docker_running st' = (Ret true, st0') ->
      get_container_status_endpoint pid st' = (Ret (no_container_found pid), st0'))
  /\ (forall request_json st r st' st0' st1' h status created id env,
         create_or_run_container pid request_json st = (Ret r, st') ->
         code r = 201%Z ->
         PyDict.get "container_id" (body r) = Some (JStr h) ->
         check_docker_running st' = (Ret true, st0') ->
         get_container_status h st0' = (Ret (StatusInfo status created id env), st1') ->
         get_container_status_endpoint pid st'
         = (Ret (Response [("status", JStr "success");
                           ("project_id", JStr pid);
                           ("container_id", JStr h);
                           ("base_image", JStr USER_CONTAINER_TEMPLATE);
                           ("container_status", status);
                           ("created", created);
                           ("environment", env)] 200), st1')).
Proof.
  split.
  - intros st r st' st0' Hstop H200 Hcheck.
    destruct (stop_container_codes pid st) as (r' & s & Heq & Hcases).
    rewrite Hstop in Heq. injection Heq as <- <-.
    destruct Hcases as [[_ [H | H]] | [Hdel _]]; try congruence.
    pose proof (kept_eq check_docker_running_kept Hcheck) as K0.
    unfold get_container_status_endpoint, try_except, bind, get_registry.
    rewrite Hcheck. cbn [negb]. rewrite K0, Hdel, dict_get_del_same. reflexivity.
  - intros request_json st r st' st0' st1' h status created id env
           Hcreate H201 Hid Hcheck Hst.
    destruct (create_or_run_container_cases pid request_json st)
      as (r' & s & Heq & Hcases). rewrite Hcreate in Heq. injection Heq as <- <-.
    destruct Hcases as [[_ [H | [H _]]] | Hreg]; try congruence.
    destruct Hreg as (h' & _ & _ & _ & _ & _ & _ & _ & _ & Hset & [H | [_ Hb]]);
      [congruence|].
    assert (h' = h) by congruence. subst h'.
    pose proof (kept_eq check_docker_running_kept Hcheck) as K0.
    unfold get_container_status_endpoint, try_except, bind, get_registry.
    rewrite Hcheck. cbn [negb]. rewrite K0, Hset, dict_get_set_same, Hst.
    reflexivity.
Qed.

End App.

(** * The handlers on the simulated runtime *)

Abbreviation sim_create_or_run :=
  (create_or_run_container Sim.subprocess_run Sim.json_loads Sim.py_repr Sim.image).
Abbreviation sim_stop := (stop_container Sim.subprocess_run).
Abbreviation sim_list := (list_containers Sim.subprocess_run Sim.json_loads Sim.image).
Abbreviation sim_handle :=
  (handle Sim.subprocess_run Sim.json_loads Sim.py_repr Sim.image).

Ltac vm_pose name term :=
  let v := eval vm_compute in term in pose (name := v).

(** Two calls in a row for project 42 on a fresh runtime: 201 with
    [c1], then 200 with the same [c1], nothing started by the second. *)
Lemma running_container_is_reused_witness :
  exists r1 st r2 st2,
    sim_create_or_run "42" None (MkState [] Sim.fresh []) = (Ret r1, st)
    /\ code r1 = 201%Z
    /\ PyDict.get "container_id" (body r1) = Some (JStr "c1")
    /\ sim_create_or_run "42" None st = (Ret r2, st2)
    /\ code r2 = 200%Z
    /\ PyDict.get "container_id" (body r2) = Some (JStr "c1")
    /\ PyDict.get "container_status" (body r2) = Some (JStr "running")
    /\ project_containers st2 = project_containers st
    /\ quiet st st2.
Proof.
  vm_pose st (snd (sim_create_or_run "42" None (MkState [] Sim.fresh []))).
  vm_pose st0 (snd (check_docker_running Sim.subprocess_run st)).
  vm_pose st1 (snd (ensure_base_image_exists Sim.subprocess_run Sim.image st0)).
  vm_pose st2 (snd (get_container_status Sim.subprocess_run Sim.json_loads "c1" st1)).
  assert (Hget : PyDict.get "42" (project_containers st) = Some "c1")
    by (vm_compute; reflexivity).
  assert (Hcheck : check_docker_running Sim.subprocess_run st = (Ret true, st0))
    by (vm_compute; reflexivity).
  assert (Himage : ensure_base_image_exists Sim.subprocess_run Sim.image st0
                   = (Ret true, st1))
    by (vm_compute; reflexivity).
  assert (Hstatus : get_container_status Sim.subprocess_run Sim.json_loads "c1" st1
                    = (Ret (StatusInfo (JStr "running") (JStr "2024-01-01T00:00:00Z")
                                       "c1" (JList [])), st2))
    by (vm_compute; reflexivity).
  destruct (@running_container_is_reused
              _ Sim.subprocess_run Sim.json_loads Sim.py_repr Sim.image "42" None
              st st0 st1 st2 "c1" (JStr "2024-01-01T00:00:00Z") "c1" (JList [])
              Hget Hcheck Himage Hstatus)
    as (H1 & H2 & H3 & H4).
  eexists. exists st. eexists. exists st2.
  split; [vm_compute; reflexivity|].
  split; [vm_compute; reflexivity|]. split; [vm_compute; reflexivity|].
  split; [exact H1|]. do 3 (split; [vm_compute; reflexivity|]).
  split; [exact H2 | exact H3].
Defined.

(** A registered handle the runtime no longer knows: a new container
    [c1] takes its place in the registry. *)
Lemma stale_handle_is_replaced_witness :
  exists r st4,
    sim_create_or_run "42" None (MkState [("42", "gone")] Sim.fresh []) = (Ret r, st4)
    /\ project_containers st4 = PyDict.set "42" "c1" [("42", "gone")]
    /\ PyDict.get "42" (project_containers st4) = Some "c1"
    /\ PyDict.keys (project_containers st4) = ["42"].
Proof.
  pose (st := MkState [("42", "gone")] Sim.fresh []).
  vm_pose st0 (snd (check_docker_running Sim.subprocess_run st)).
  vm_pose st1 (snd (ensure_base_image_exists Sim.subprocess_run Sim.image st0)).
  vm_pose st2 (snd (get_container_status Sim.subprocess_run Sim.json_loads "gone" st1)).
  vm_pose st3 (snd (run_container Sim.subprocess_run Sim.json_loads Sim.py_repr Sim.image
                                  "42" (Some [("PROJECT_ID", JStr "42")])
                                  (JDict []) (JDict []) JNull st2)).
  assert (Hget : PyDict.get "42" (project_containers st) = Some "gone")
    by (vm_compute; reflexivity).
  assert (Hcheck : check_docker_running Sim.subprocess_run st = (Ret true, st0))
    by (vm_compute; reflexivity).
  assert (Himage : ensure_base_image_exists Sim.subprocess_run Sim.image st0
                   = (Ret true, st1))
    by (vm_compute; reflexivity).
  assert (Hstatus : get_container_status Sim.subprocess_run Sim.json_loads "gone" st1
                    = (Ret (StatusError
                              "Failed to get container status: Error: No such object: gone"),
                       st2))
    by (vm_compute; reflexivity).
  assert (Hdata : request_data None = JDict []) by reflexivity.
  assert (Hrun : run_container
                   Sim.subprocess_run Sim.json_loads Sim.py_repr Sim.image "42"
                   (Some (request_environment
                            "42" (PyDict.get_default "environment" (JDict []) [])))
                   (PyDict.get_default "ports" (JDict []) [])
                   (PyDict.get_default "volumes" (JDict []) [])
                   (PyDict.get_default "command" JNull []) st2
                 = (Ret (RunOk "c1"), st3))
    by (vm_compute; reflexivity).
  destruct (@stale_handle_is_replaced
              _ Sim.subprocess_run Sim.json_loads Sim.py_repr Sim.image "42" None []
              st st0 st1 st2 st3 "gone" _ "c1" Hget Hcheck Himage Hstatus Hdata Hrun)
    as (_ & _ & r & st4 & Heq & Hset & Hnew & Hkeys & _).
  exists r, st4. split; [exact Heq|]. split; [exact Hset|].
  split; [exact Hnew | exact Hkeys].
Defined.

(** A create-or-run whose [docker run] fails on a name that is taken:
    the answer is the failure and the registry is still empty. *)
Lemma registry_lifecycle_witness :
  exists err st3,
    sim_handle (OpCreateOrRun "42" None) (MkState [] Sim.one_running [])
    = (Ret (error_response err 500), st3)
    /\ project_containers st3 = [].
Proof.
  pose (st := MkState (World := Sim.World) [] Sim.one_running []).
  vm_pose st0 (snd (check_docker_running Sim.subprocess_run st)).
  vm_pose st1 (snd (ensure_base_image_exists Sim.subprocess_run Sim.image st0)).
  vm_pose st2 (snd (reuse_existing Sim.subprocess_run Sim.json_loads "42" st1)).
  vm_pose st3 (snd (run_container Sim.subprocess_run Sim.json_loads Sim.py_repr Sim.image
                                  "42" (Some [("PROJECT_ID", JStr "42")])
                                  (JDict []) (JDict []) JNull st2)).
  pose (err := "Failed to run container: docker: Error response from daemon: Conflict. The container name is already in use.").
  assert (Hcheck : check_docker_running Sim.subprocess_run st = (Ret true, st0))
    by (vm_compute; reflexivity).
  assert (Himage : ensure_base_image_exists Sim.subprocess_run Sim.image st0
                   = (Ret true, st1))
    by (vm_compute; reflexivity).
  assert (Hreuse : reuse_existing Sim.subprocess_run Sim.json_loads "42" st1
                   = (Ret None, st2))
    by (vm_compute; reflexivity).
  assert (Hdata : request_data None = JDict []) by reflexivity.
  assert (Hrun : run_container
                   Sim.subprocess_run Sim.json_loads Sim.py_repr Sim.image "42"
                   (Some (request_environment
                            "42" (PyDict.get_default "environment" (JDict []) [])))
                   (PyDict.get_default "ports" (JDict []) [])
                   (PyDict.get_default "volumes" (JDict []) [])
                   (PyDict.get_default "command" JNull []) st2
                 = (Ret (RunError err), st3))
    by (vm_compute; reflexivity).
  destruct (@registry_lifecycle
              _ Sim.subprocess_run Sim.json_loads Sim.py_repr Sim.image
              (OpCreateOrRun "42" None) st) as (_ & _ & _ & Hfail).
  destruct (Hfail "42" None [] st0 st1 st2 st3 err eq_refl
                  Hcheck Himage Hreuse Hdata Hrun) as (Heq & _ & Hreg).
  exists err, st3. split; [exact Heq | exact Hreg].
Defined.

(** Stop twice: 200, then 404. *)
Lemma stop_container_outcomes_witness :
  exists r1 st' st'',
    sim_stop "42" (MkState [("42", "c1")] Sim.one_running []) = (Ret r1, st')
    /\ code r1 = 200%Z
    /\ project_containers st' = []
    /\ sim_stop "42" st' = (Ret (no_container_found "42"), st'')
    /\ code (no_container_found "42") = 404%Z.
Proof.
  pose (st := MkState [("42", "c1")] Sim.one_running []).
  vm_pose st0 (snd (check_docker_running Sim.subprocess_run st)).
  vm_pose st' (snd (sim_stop "42" st)).
  vm_pose st0' (snd (check_docker_running Sim.subprocess_run st')).
  pose (r1 := Response [("status", JStr "success");
                        ("message", JStr "Container for project 42 stopped and removed")]
                       200).
  assert (Hcheck : check_docker_running Sim.subprocess_run st = (Ret true, st0))
    by (vm_compute; reflexivity).
  assert (Hfirst : sim_stop "42" st = (Ret r1, st')) by (vm_compute; reflexivity).
  assert (Hcode : code r1 = 200%Z) by reflexivity.
  assert (Hcheck' : check_docker_running Sim.subprocess_run st' = (Ret true, st0'))
    by (vm_compute; reflexivity).
  destruct (@stop_container_outcomes
              _ Sim.subprocess_run Sim.json_loads Sim.image "42" st st0 Hcheck)
    as (_ & _ & Htwice).
  destruct (Htwice r1 st' st0' Hfirst Hcode Hcheck') as (Hsecond & H404).
  exists r1, st', st0'. split; [exact Hfirst|]. split; [exact Hcode|].
  split; [reflexivity|]. split; [exact Hsecond | exact H404].
Defined.

(** Listing a registry with one stale and one live entry. *)
Lemma list_containers_reads_only_witness :
  exists result st1 stale live,
    sim_list (MkState [("7", "zz"); ("42", "c1")] Sim.one_running [])
    = (Ret (Response [("status", JStr "success"); ("containers", JDict result)] 200),
       st1)
    /\ PyDict.keys result = ["7"; "42"]
    /\ project_containers st1 = [("7", "zz"); ("42", "c1")]
    /\ PyDict.get "7" result = Some (JDict stale)
    /\ PyDict.get "status" stale = Some (JStr "not_found")
    /\ PyDict.get "42" result = Some (JDict live)
    /\ PyDict.get "status" live = Some (JStr "running").
Proof.
  pose (st := MkState [("7", "zz"); ("42", "c1")] Sim.one_running []).
  vm_pose st0 (snd (check_docker_running Sim.subprocess_run st)).
  vm_pose st1 (snd (list_loop Sim.subprocess_run Sim.json_loads Sim.image
                              (project_containers st) [] st0)).
  vm_pose entries
          (match fst (list_loop Sim.subprocess_run Sim.json_loads Sim.image
                                (project_containers st) [] st0) with
           | Ret d => d
           | Raise _ => []
           end).
  assert (Hnd : NoDup (PyDict.keys (project_containers st))).
  { repeat constructor; simpl; intuition discriminate. }
  assert (Hcheck : check_docker_running Sim.subprocess_run st = (Ret true, st0))
    by (vm_compute; reflexivity).
  assert (Hloop : list_loop Sim.subprocess_run Sim.json_loads Sim.image
                            (project_containers st) [] st0 = (Ret entries, st1))
    by (vm_compute; reflexivity).
  destruct (@list_containers_reads_only
              _ Sim.subprocess_run Sim.json_loads Sim.image st) as (_ & _ & Hlist).
  destruct (Hlist st0 entries st1 Hnd Hcheck Hloop) as (Heq & Hkeys & Hreg & _).
  exists entries, st1. do 2 eexists.
  split; [exact Heq|]. split; [exact Hkeys|]. split; [exact Hreg|].
  repeat split; vm_compute; reflexivity.
Defined.

(** The example of the specification: a spoofed [PROJECT_ID] and [FOO]. *)
Lemma project_id_always_injected_witness :
  let env := [("PROJECT_ID", JStr "spoofed"); ("FOO", JStr "bar")] in
  let d := [("environment", JDict env)] in
  let st := MkState [] Sim.fresh [] in
  let E := PyDict.set "PROJECT_ID" (JStr "42") env in
  E = [("PROJECT_ID", JStr "42"); ("FOO", JStr "bar")]
  /\ (forall v, In ("PROJECT_ID", v) E -> v = JStr "42")
  /\ In "PROJECT_ID=42" (env_args Sim.py_repr E)
  /\ In "FOO=bar" (env_args Sim.py_repr E)
  /\ log_grows (run_uses Sim.py_repr Sim.image "42" E) st
               (snd (sim_create_or_run "42" (Some (JDict d)) st))
  /\ In ["docker"; "run"; "-d"; "--name"; "project-42";
         "-e"; "PROJECT_ID=42"; "-e"; "FOO=bar";
         "--label"; "project_id=42"; "--label"; "managed_by=agent_name_tbd";
         "--restart"; "unless-stopped"; "example/base:latest"]
        (docker_log (snd (sim_create_or_run "42" (Some (JDict d)) st))).
Proof.
  intros env d st E.
  assert (Henv : PyDict.get "environment" d = Some (JDict env)) by reflexivity.
  assert (Hnd : NoDup (PyDict.keys env)).
  { repeat constructor; simpl; intuition discriminate. }
  destruct (@project_id_always_injected
              _ Sim.subprocess_run Sim.json_loads Sim.py_repr Sim.image "42" d env st
              Henv Hnd) as (_ & Honly & _ & Hpid & Hother & Hlog).
  split; [reflexivity|]. split; [exact Honly|]. split; [exact Hpid|].
  split; [exact (Hother "FOO" (JStr "bar") ltac:(discriminate) eq_refl)|].
  split; [exact Hlog|].
  vm_compute. do 3 right. left. reflexivity.
Defined.

(** An [environment] that is a string. *)
Lemma non_dict_environment_coerced_witness :
  let st := MkState [] Sim.fresh [] in
  request_environment "42" (JStr "oops") = [("PROJECT_ID", JStr "42")]
  /\ sim_create_or_run
       "42" (Some (JDict [("environment", JStr "oops"); ("command", JStr "serve")])) st
     = sim_create_or_run "42" (Some (JDict [("command", JStr "serve")])) st.
Proof.
  intros st.
  destruct (@non_dict_environment_coerced
              _ Sim.subprocess_run Sim.json_loads Sim.py_repr Sim.image "42"
              [("environment", JStr "oops"); ("command", JStr "serve")]
              (JStr "oops") st eq_refl eq_refl) as (_ & Hco & Heq).
  split; [exact Hco | exact Heq].
Defined.

(** A command that is one word. *)
Lemma command_tokens_cases_witness :
  command_tokens (JStr "serve") = [JStr "serve"]
  /\ ((exists c s, JStr "serve" = JStr (String c s))
      \/ (exists x l, JStr "serve" = JList (x :: l))).
Proof.
  destruct (@command_tokens_cases
              _ Sim.subprocess_run Sim.json_loads Sim.py_repr Sim.image)
    as (_ & _ & Hstr & _ & Honly).
  split.
  - exact (proj1 (Hstr "s"%char "erve" "42" [] [] [])).
  - apply Honly. discriminate.
Defined.

(** [C8, counterexample] When the call itself fails, [error] is the
    message of the exception as it is: here it starts and ends with a
    space, so not every returned string is free of surrounding
    whitespace. *)
Lemma spawn_error_message_not_trimmed :
  exists r st',
    run_docker_command Unspawnable.subprocess_run ["docker"; "info"]
                       (MkState [] tt [])
    = (Ret r, st')
    /\ success r = false
    /\ error r = " spawn failed "
    /\ ~ PyStr.trimmed (error r).
Proof.
  do 2 eexists. split; [reflexivity|]. split; [reflexivity|].
  split; [reflexivity|]. intros [Hlead _]. vm_compute in Hlead. discriminate Hlead.
Qed.

(** [C7, at the failing input] The three successful answers of
    create-or-run on the simulated runtime.  A running container that is
    reused and an exited one that is restarted are answered with 200
    and no [project_id] field; only the 201 answer carries it. *)
Lemma reused_response_lacks_project_id :
  (exists r st',
      sim_create_or_run "42" None (MkState [("42", "c1")] Sim.one_running [])
      = (Ret r, st')
      /\ code r = 200%Z
      /\ PyDict.keys (body r)
         = ["status"; "message"; "container_id"; "container_status"; "environment"]
      /\ PyDict.mem "project_id" (body r) = false)
  /\ (exists r st',
         sim_create_or_run "42" None (MkState [("42", "c1")] Sim.one_exited [])
         = (Ret r, st')
         /\ code r = 200%Z
         /\ PyDict.keys (body r)
            = ["status"; "message"; "container_id"; "container_status"; "environment"]
         /\ PyDict.mem "project_id" (body r) = false)
  /\ (exists r st',
         sim_create_or_run "42" None (MkState [] Sim.fresh []) = (Ret r, st')
         /\ code r = 201%Z
         /\ PyDict.keys (body r)
            = ["status"; "message"; "project_id"; "container_id"; "base_image";
               "container_status"; "environment"]
         /\ PyDict.mem "project_id" (body r) = true).
Proof.
  repeat split; do 2 eexists; (split; [vm_compute; reflexivity|]);
    repeat split; reflexivity.
Qed.

(** * The further properties on the two runtimes *)

Abbreviation script_create_or_run :=
  (create_or_run_container Script.subprocess_run Script.json_loads Script.py_repr
                           Script.image).
Abbreviation script_inspect :=
  (get_container_status Script.subprocess_run Script.json_loads).
Abbreviation sim_inspect := (get_container_status Sim.subprocess_run Sim.json_loads).
Abbreviation sim_get :=
  (get_container_status_endpoint Sim.subprocess_run Sim.json_loads Sim.image).

(** An id the simulated runtime does not know. *)
Lemma inspection_failures_witness :
  fst (sim_inspect "zz" (MkState [] Sim.fresh []))
  = Ret (StatusError "Failed to get container status: Error: No such object: zz").
Proof.
  destruct (inspection_failures Sim.subprocess_run Sim.json_loads "zz"
                                (MkState [] Sim.fresh [])) as (_ & H & _).
  rewrite H; vm_compute; reflexivity.
Defined.

(** An inspection that prints a list of one empty object. *)
Lemma inspection_defaults_witness :
  script_inspect "abc" (MkState [] [Script.ok "[{}]"] [])
  = (Ret (StatusInfo (JStr "unknown") (JStr "") "abc" (JList [])),
     MkState [] [] [["docker"; "inspect"; "abc"]]).
Proof.
  assert (H1 : success (cmd_result_of
                          (fst (Script.subprocess_run ["docker"; "inspect"; "abc"]
                                                      [Script.ok "[{}]"]))) = true)
    by reflexivity.
  assert (H2 : Script.json_loads
                 (output (cmd_result_of
                            (fst (Script.subprocess_run ["docker"; "inspect"; "abc"]
                                                        [Script.ok "[{}]"]))))
               = Some (JList [JDict []]))
    by (vm_compute; reflexivity).
  destruct (@inspection_defaults
              _ Script.subprocess_run Script.json_loads "abc"
              (MkState [] [Script.ok "[{}]"] []) [] [] [] [] H1 H2 eq_refl eq_refl)
    as (_ & H).
  exact (H eq_refl eq_refl eq_refl).
Defined.

(** An inspection that prints a number. *)
Lemma inspection_raises_only_on_malformed_witness :
  exists e, fst (script_inspect "abc" (MkState [] [Script.ok "5"] [])) = Raise e.
Proof.
  apply (proj2 (inspection_raises_only_on_malformed
                  Script.subprocess_run Script.json_loads "abc"
                  (MkState [] [Script.ok "5"] []))).
  split; [reflexivity|]. exists (JNum 5).
  split; [vm_compute; reflexivity|]. split; reflexivity.
Defined.

(** Stopping an id the simulated runtime does not know: no [docker rm]. *)
Lemma stop_then_remove_witness :
  exists st',
    stop_and_remove_container Sim.subprocess_run "zz" (MkState [] Sim.fresh [])
    = (Ret (StopError
              "Failed to stop container: Error response from daemon: No such container: zz"),
       st')
    /\ docker_log st' = [["docker"; "stop"; "zz"]].
Proof.
  destruct (stop_then_remove Sim.subprocess_run "zz" (MkState [] Sim.fresh []))
    as (result & st' & Heq & _ & Hfail & _).
  destruct Hfail as [Hres Hlog]; [vm_compute; reflexivity|].
  exists st'. split; [|exact Hlog].
  rewrite Heq, Hres. vm_compute. reflexivity.
Defined.

(** Every handler with the simulated daemon down. *)
Lemma daemon_down_fails_fast_witness :
  let down := Sim.MkWorld false true true [] 1 in
  sim_handle (OpStop "42") (MkState [("42", "c1")] down [])
  = (Ret daemon_unreachable, MkState [("42", "c1")] down [["docker"; "info"]]).
Proof.
  intros down.
  destruct (daemon_down_fails_fast
              Sim.subprocess_run Sim.json_loads Sim.py_repr Sim.image (OpStop "42")
              (MkState [("42", "c1")] down []) eq_refl) as (H & _).
  exact H.
Defined.

(** A listing never raises. *)
Lemma container_handlers_never_raise_witness :
  exists r,
    fst (sim_handle OpList (MkState [("42", "c1")] Sim.one_running [])) = Ret r
    /\ In (code r) [200; 500]%Z.
Proof.
  apply (@container_handlers_never_raise
           _ Sim.subprocess_run Sim.json_loads Sim.py_repr Sim.image OpList).
  discriminate.
Defined.

(** [docker version] printing a number. *)
Lemma docker_status_raises_on_non_object_version_witness :
  fst (get_docker_status
         Script.subprocess_run Script.json_loads Script.image
         (MkState [] [Script.ok "up"; Script.ok "5"; Script.ok "image"] []))
  = Raise (AttributeError "'int' object has no attribute 'get'").
Proof.
  destruct (@docker_status_raises_on_non_object_version
              _ Script.subprocess_run Script.json_loads Script.image
              (MkState [] [Script.ok "up"; Script.ok "5"; Script.ok "image"] [])
              (JNum 5) eq_refl eq_refl
              ltac:(vm_compute; reflexivity) eq_refl) as (H & _).
  exact H.
Defined.


(** A registered, running container, and an image that is gone. *)
Lemma create_needs_the_image_witness :
  let w := Sim.MkWorld true false false
                       [Sim.Container "c1" "project-42" "running"] 2 in
  exists r st1,
    sim_create_or_run "42" None (MkState [("42", "c1")] w []) = (Ret r, st1)
    /\ code r = 500%Z
    /\ docker_log st1
       = [["docker"; "info"];
          ["docker"; "image"; "inspect"; "example/base:latest"];
          ["docker"; "pull"; "example/base:latest"]].
Proof.
  intros w.
  pose (st := MkState [("42", "c1")] w []).
  vm_pose st0 (snd (check_docker_running Sim.subprocess_run st)).
  vm_pose st1 (snd (ensure_base_image_exists Sim.subprocess_run Sim.image st0)).
  assert (Hcheck : check_docker_running Sim.subprocess_run st = (Ret true, st0))
    by (vm_compute; reflexivity).
  assert (Himage : ensure_base_image_exists Sim.subprocess_run Sim.image st0
                   = (Ret false, st1))
    by (vm_compute; reflexivity).
  destruct (create_needs_the_image Sim.subprocess_run Sim.json_loads Sim.py_repr
                                   Sim.image "42" None st Hcheck Himage)
    as (Heq & _ & Hlog).
  do 2 eexists. split; [exact Heq|]. split; [reflexivity | exact Hlog].
Defined.

(** An exited container of the simulated runtime is started again. *)
Lemma stopped_container_is_restarted_witness :
  exists r st4,
    sim_create_or_run "42" None (MkState [("42", "c1")] Sim.one_exited [])
    = (Ret r, st4)
    /\ code r = 200%Z
    /\ PyDict.get "container_status" (body r) = Some (JStr "running")
    /\ project_containers st4 = [("42", "c1")].
Proof.
  pose (st := MkState [("42", "c1")] Sim.one_exited []).
  vm_pose st0 (snd (check_docker_running Sim.subprocess_run st)).
  vm_pose st1 (snd (ensure_base_image_exists Sim.subprocess_run Sim.image st0)).
  vm_pose st2 (snd (sim_inspect "c1" st1)).
  vm_pose st3 (snd (start_container Sim.subprocess_run "c1" st2)).
  vm_pose st4 (snd (sim_inspect "c1" st3)).
  assert (Hget : PyDict.get "42" (project_containers st) = Some "c1") by reflexivity.
  assert (Hcheck : check_docker_running Sim.subprocess_run st = (Ret true, st0))
    by (vm_compute; reflexivity).
  assert (Himage : ensure_base_image_exists Sim.subprocess_run Sim.image st0
                   = (Ret true, st1))
    by (vm_compute; reflexivity).
  assert (Hstatus : sim_inspect "c1" st1
                    = (Ret (StatusInfo (JStr "exited") (JStr "2024-01-01T00:00:00Z")
                                       "c1" (JList [])), st2))
    by (vm_compute; reflexivity).
  assert (Hstart : start_container Sim.subprocess_run "c1" st2 = (Ret true, st3))
    by (vm_compute; reflexivity).
  assert (Hnew : sim_inspect "c1" st3
                 = (Ret (StatusInfo (JStr "running") (JStr "2024-01-01T00:00:00Z")
                                    "c1" (JList [])), st4))
    by (vm_compute; reflexivity).
  destruct (stopped_container_is_restarted
              Sim.subprocess_run Sim.json_loads Sim.py_repr Sim.image "42" None st
              Hget Hcheck Himage Hstatus eq_refl Hstart Hnew) as (Heq & Hreg & _).
  do 2 eexists. split; [exact Heq|]. split; [reflexivity|].
  split; [reflexivity | exact Hreg].
Defined.

(** A scripted runtime on which [docker start] fails. *)
Lemma failed_start_falls_through_witness :
  let st := MkState [("42", "old")]
                    [Script.ok "up"; Script.ok "image"; Script.ok "exited";
                     Script.failed "cannot start"; Script.ok "image";
                     Script.ok "c9"; Script.ok "running"; Script.ok "running"]
                    [] in
  PyDict.get "42" (project_containers (snd (script_create_or_run "42" None st)))
  = Some "c9"
  /\ In ["docker"; "start"; "old"]
        (docker_log (snd (script_create_or_run "42" None st))).
Proof.
  intros st.
  vm_pose st0 (snd (check_docker_running Script.subprocess_run st)).
  vm_pose st1 (snd (ensure_base_image_exists Script.subprocess_run Script.image st0)).
  vm_pose st2 (snd (script_inspect "old" st1)).
  vm_pose st3 (snd (start_container Script.subprocess_run "old" st2)).
  assert (Hget : PyDict.get "42" (project_containers st) = Some "old") by reflexivity.
  assert (Hcheck : check_docker_running Script.subprocess_run st = (Ret true, st0))
    by (vm_compute; reflexivity).
  assert (Himage : ensure_base_image_exists Script.subprocess_run Script.image st0
                   = (Ret true, st1))
    by (vm_compute; reflexivity).
  assert (Hstatus : script_inspect "old" st1
                    = (Ret (StatusInfo (JStr "exited") (JStr "") "old" (JList [])),
                       st2))
    by (vm_compute; reflexivity).
  assert (Hstart : start_container Script.subprocess_run "old" st2 = (Ret false, st3))
    by (vm_compute; reflexivity).
  destruct (failed_start_falls_through
              Script.subprocess_run Script.json_loads Script.py_repr Script.image
              "42" None st Hget Hcheck Himage Hstatus eq_refl Hstart)
    as (_ & _ & _ & _).
  split; vm_compute; [reflexivity|]. do 3 right. left. reflexivity.
Defined.

(** A run that succeeds and an inspection that then fails. *)
Lemma run_container_reports_created_witness :
  exists st2,
    run_container Script.subprocess_run Script.json_loads Script.py_repr Script.image
                  "42" (Some []) JNull JNull JNull
                  (MkState [] [Script.ok "image"; Script.ok " c9 ";
                               Script.failed "gone"] [])
    = (Ret (RunOk "c9"), st2).
Proof.
  pose (st := MkState (World := Script.World) []
                      [Script.ok "image"; Script.ok " c9 "; Script.failed "gone"] []).
  vm_pose st1 (snd (ensure_base_image_exists Script.subprocess_run Script.image st)).
  vm_pose cmd (match str_items 0 (build_run_cmd Script.py_repr Script.image "42"
                                                [("PROJECT_ID", JStr "42")] [] []
                                                JNull) with
               | Ret c => c
               | Raise _ => []
               end).
  vm_pose st2 (snd (script_inspect "c9" (after_command Script.subprocess_run cmd st1))).
  assert (Himage : ensure_base_image_exists Script.subprocess_run Script.image st
                   = (Ret true, st1))
    by (vm_compute; reflexivity).
  assert (Hcmd : str_items 0 (build_run_cmd
                                Script.py_repr Script.image "42"
                                (PyDict.set "PROJECT_ID" (JStr "42") []) [] [] JNull)
                 = Ret cmd)
    by (vm_compute; reflexivity).
  assert (Hok : success (cmd_result_of
                           (fst (Script.subprocess_run cmd (world st1)))) = true)
    by (vm_compute; reflexivity).
  assert (Hst : script_inspect
                  (output (cmd_result_of (fst (Script.subprocess_run cmd (world st1)))))
                  (after_command Script.subprocess_run cmd st1)
                = (Ret (StatusError "Failed to get container status: gone"), st2))
    by (vm_compute; reflexivity).
  destruct (@run_container_reports_created
              _ Script.subprocess_run Script.json_loads Script.py_repr Script.image
              "42" [] JNull JNull JNull st st1 st2 [] [] cmd _
              Himage eq_refl eq_refl Hcmd Hok Hst) as (Heq & _).
  exists st2. exact Heq.
Defined.

(** A run that succeeds and an inspection, inside [run_container], that
    prints a number. *)
Lemma started_but_not_registered_witness :
  let st := MkState [] [Script.ok "up"; Script.ok "image"; Script.ok "image";
                        Script.ok "c9"; Script.ok "5"] [] in
  exists r st4,
    script_create_or_run "42" None st = (Ret r, st4)
    /\ code r = 500%Z
    /\ project_containers st4 = []
    /\ run_count (docker_log st4) = 1.
Proof.
  intros st.
  vm_pose st0 (snd (check_docker_running Script.subprocess_run st)).
  vm_pose st1 (snd (ensure_base_image_exists Script.subprocess_run Script.image st0)).
  vm_pose st3 (snd (ensure_base_image_exists Script.subprocess_run Script.image st1)).
  vm_pose cmd (match str_items 0 (build_run_cmd Script.py_repr Script.image "42"
                                                [("PROJECT_ID", JStr "42")] [] []
                                                JNull) with
               | Ret c => c
               | Raise _ => []
               end).
  vm_pose st4 (snd (script_inspect "c9" (after_command Script.subprocess_run cmd st3))).
  assert (Hcheck : check_docker_running Script.subprocess_run st = (Ret true, st0))
    by (vm_compute; reflexivity).
  assert (Himage : ensure_base_image_exists Script.subprocess_run Script.image st0
                   = (Ret true, st1))
    by (vm_compute; reflexivity).
  assert (Hreuse : reuse_existing Script.subprocess_run Script.json_loads "42" st1
                   = (Ret None, st1))
    by (vm_compute; reflexivity).
  assert (Himage' : ensure_base_image_exists Script.subprocess_run Script.image st1
                    = (Ret true, st3))
    by (vm_compute; reflexivity).
  assert (Hcmd : str_items 0 (build_run_cmd
                                Script.py_repr Script.image "42"
                                (PyDict.set "PROJECT_ID" (JStr "42")
                                            (request_environment
                                               "42"
                                               (PyDict.get_default "environment"
                                                                   (JDict []) [])))
                                [] [] (PyDict.get_default "command" JNull []))
                 = Ret cmd)
    by (vm_compute; reflexivity).
  assert (Hok : success (cmd_result_of
                           (fst (Script.subprocess_run cmd (world st3)))) = true)
    by (vm_compute; reflexivity).
  assert (Hst : script_inspect
                  (output (cmd_result_of (fst (Script.subprocess_run cmd (world st3)))))
                  (after_command Script.subprocess_run cmd st3)
                = (Raise (TypeError "object of type 'int' has no len()"), st4))
    by (vm_compute; reflexivity).
  destruct (@started_but_not_registered
              _ Script.subprocess_run Script.json_loads Script.py_repr Script.image
              "42" None [] st st0 st1 st1 st3 st4 [] [] cmd _
              Hcheck Himage Hreuse eq_refl Himage' eq_refl eq_refl Hcmd Hok Hst)
    as (Heq & Hreg & _ & _).
  do 2 eexists. split; [exact Heq|]. split; [reflexivity|].
  split; [exact Hreg | vm_compute; reflexivity].
Defined.

(** The same with the number printed by the last inspection. *)
Lemma registered_before_last_inspection_witness :
  let st := MkState [] [Script.ok "up"; Script.ok "image"; Script.ok "image";
                        Script.ok "c9"; Script.ok "running"; Script.ok "5"] [] in
  exists r st4,
    script_create_or_run "42" None st = (Ret r, st4)
    /\ code r = 500%Z
    /\ PyDict.get "42" (project_containers st4) = Some "c9".
Proof.
  intros st.
  vm_pose st0 (snd (check_docker_running Script.subprocess_run st)).
  vm_pose st1 (snd (ensure_base_image_exists Script.subprocess_run Script.image st0)).
  vm_pose st3 (snd (run_container
                      Script.subprocess_run Script.json_loads Script.py_repr
                      Script.image "42" (Some [("PROJECT_ID", JStr "42")])
                      (JDict []) (JDict []) JNull st1)).
  vm_pose st4 (snd (script_inspect
                      "c9" (MkState (PyDict.set "42" "c9" (project_containers st3))
                                    (world st3) (docker_log st3)))).
  assert (Hcheck : check_docker_running Script.subprocess_run st = (Ret true, st0))
    by (vm_compute; reflexivity).
  assert (Himage : ensure_base_image_exists Script.subprocess_run Script.image st0
                   = (Ret true, st1))
    by (vm_compute; reflexivity).
  assert (Hreuse : reuse_existing Script.subprocess_run Script.json_loads "42" st1
                   = (Ret None, st1))
    by (vm_compute; reflexivity).
  assert (Hrun : run_container
                   Script.subprocess_run Script.json_loads Script.py_repr Script.image
                   "42"
                   (Some (request_environment
                            "42" (PyDict.get_default "environment" (JDict []) [])))
                   (PyDict.get_default "ports" (JDict []) [])
                   (PyDict.get_default "volumes" (JDict []) [])
                   (PyDict.get_default "command" JNull []) st1
                 = (Ret (RunOk "c9"), st3))
    by (vm_compute; reflexivity).
  assert (Hst : script_inspect
                  "c9" (MkState (PyDict.set "42" "c9" (project_containers st3))
                                (world st3) (docker_log st3))
                = (Raise (TypeError "object of type 'int' has no len()"), st4))
    by (vm_compute; reflexivity).
  destruct (@registered_before_last_inspection
              _ Script.subprocess_run Script.json_loads Script.py_repr Script.image
              "42" None [] st st0 st1 st1 st3 st4 "c9" _
              Hcheck Himage Hreuse eq_refl Hrun Hst) as (Heq & _ & Hget).
  do 2 eexists. split; [exact Heq|]. split; [reflexivity | exact Hget].
Defined.

(** A second project on the simulated runtime. *)
Lemma new_project_is_appended_witness :
  exists r st3,
    sim_create_or_run "7" None (MkState [("42", "c1")] Sim.one_running [])
    = (Ret r, st3)
    /\ code r = 201%Z
    /\ project_containers st3 = [("42", "c1"); ("7", "c2")].
Proof.
  pose (st := MkState [("42", "c1")] Sim.one_running []).
  vm_pose st0 (snd (check_docker_running Sim.subprocess_run st)).
  vm_pose st1 (snd (ensure_base_image_exists Sim.subprocess_run Sim.image st0)).
  vm_pose st2 (snd (run_container
                      Sim.subprocess_run Sim.json_loads Sim.py_repr Sim.image "7"
                      (Some [("PROJECT_ID", JStr "7")]) (JDict []) (JDict []) JNull
                      st1)).
  vm_pose st3 (snd (sim_inspect
                      "c2" (MkState (PyDict.set "7" "c2" (project_containers st2))
                                    (world st2) (docker_log st2)))).
  assert (Hcheck : check_docker_running Sim.subprocess_run st = (Ret true, st0))
    by (vm_compute; reflexivity).
  assert (Himage : ensure_base_image_exists Sim.subprocess_run Sim.image st0
                   = (Ret true, st1))
    by (vm_compute; reflexivity).
  assert (Hrun : run_container
                   Sim.subprocess_run Sim.json_loads Sim.py_repr Sim.image "7"
                   (Some (request_environment
                            "7" (PyDict.get_default "environment" (JDict []) [])))
                   (PyDict.get_default "ports" (JDict []) [])
                   (PyDict.get_default "volumes" (JDict []) [])
                   (PyDict.get_default "command" JNull []) st1
                 = (Ret (RunOk "c2"), st2))
    by (vm_compute; reflexivity).
  assert (Hst : sim_inspect
                  "c2" (MkState (PyDict.set "7" "c2" (project_containers st2))
                                (world st2) (docker_log st2))
                = (Ret (StatusInfo (JStr "running") (JStr "2024-01-01T00:00:00Z")
                                   "c2" (JList [])), st3))
    by (vm_compute; reflexivity).
  destruct (@new_project_is_appended
              _ Sim.subprocess_run Sim.json_loads Sim.py_repr Sim.image "7" None []
              st st0 st1 st2 st3 "c2" _ eq_refl Hcheck Himage eq_refl Hrun Hst)
    as (Heq & Hreg).
  do 2 eexists. split; [exact Heq|]. split; [reflexivity | exact Hreg].
Defined.

(** [ports] given as a list. *)
Lemma non_dict_ports_or_volumes_fail_witness :
  exists st3,
    sim_create_or_run "42" (Some (JDict [("ports", JList [JNum 80])]))
                      (MkState [] Sim.fresh [])
    = (Ret (error_response "Error: 'list' object has no attribute 'items'" 500), st3)
    /\ project_containers st3 = []
    /\ run_count (docker_log st3) = 0.
Proof.
  pose (st := MkState (World := Sim.World) [] Sim.fresh []).
  vm_pose st0 (snd (check_docker_running Sim.subprocess_run st)).
  vm_pose st1 (snd (ensure_base_image_exists Sim.subprocess_run Sim.image st0)).
  vm_pose st3 (snd (ensure_base_image_exists Sim.subprocess_run Sim.image st1)).
  assert (Hcheck : check_docker_running Sim.subprocess_run st = (Ret true, st0))
    by (vm_compute; reflexivity).
  assert (Himage : ensure_base_image_exists Sim.subprocess_run Sim.image st0
                   = (Ret true, st1))
    by (vm_compute; reflexivity).
  assert (Hreuse : reuse_existing Sim.subprocess_run Sim.json_loads "42" st1
                   = (Ret None, st1))
    by (vm_compute; reflexivity).
  assert (Himage' : ensure_base_image_exists Sim.subprocess_run Sim.image st1
                    = (Ret true, st3))
    by (vm_compute; reflexivity).
  destruct (@non_dict_ports_or_volumes_fail
              _ Sim.subprocess_run Sim.json_loads Sim.py_repr Sim.image "42"
              (Some (JDict [("ports", JList [JNum 80])]))
              [("ports", JList [JNum 80])] st st0 st1 st1 st3
              (no_attribute (JList [JNum 80]) "items")
              Hcheck Himage Hreuse eq_refl Himage' (or_introl eq_refl))
    as (Heq & _ & Hreg & _).
  exists st3. split; [exact Heq|]. split; [exact Hreg | vm_compute; reflexivity].
Defined.

(** A command list whose second element is a number. *)
Lemma non_string_command_element_fails_witness :
  exists st3,
    sim_create_or_run "42" (Some (JDict [("command", JList [JStr "sh"; JNum 1])]))
                      (MkState [] Sim.fresh [])
    = (Ret (error_response
              "Error: sequence item 15: expected str instance, int found" 500), st3)
    /\ project_containers st3 = [].
Proof.
  pose (st := MkState (World := Sim.World) [] Sim.fresh []).
  vm_pose st0 (snd (check_docker_running Sim.subprocess_run st)).
  vm_pose st1 (snd (ensure_base_image_exists Sim.subprocess_run Sim.image st0)).
  vm_pose st3 (snd (ensure_base_image_exists Sim.subprocess_run Sim.image st1)).
  assert (Hcheck : check_docker_running Sim.subprocess_run st = (Ret true, st0))
    by (vm_compute; reflexivity).
  assert (Himage : ensure_base_image_exists Sim.subprocess_run Sim.image st0
                   = (Ret true, st1))
    by (vm_compute; reflexivity).
  assert (Hreuse : reuse_existing Sim.subprocess_run Sim.json_loads "42" st1
                   = (Ret None, st1))
    by (vm_compute; reflexivity).
  assert (Himage' : ensure_base_image_exists Sim.subprocess_run Sim.image st1
                    = (Ret true, st3))
    by (vm_compute; reflexivity).
  assert (Hx : forall s, JNum 1 <> JStr s) by (intros s; discriminate).
  destruct (@non_string_command_element_fails
              _ Sim.subprocess_run Sim.json_loads Sim.py_repr Sim.image "42"
              (Some (JDict [("command", JList [JStr "sh"; JNum 1])]))
              [("command", JList [JStr "sh"; JNum 1])] st st0 st1 st1 st3 [] []
              ["sh"] (JNum 1) []
              Hcheck Himage Hreuse eq_refl Himage' eq_refl eq_refl eq_refl Hx)
    as (Heq & Hreg & _).
  exists st3. split; [exact Heq | exact Hreg].
Defined.

(** An empty list as a body is no body; a list of one number is an error. *)
Lemma request_body_shapes_witness :
  sim_create_or_run "42" (Some (JList [])) (MkState [] Sim.fresh [])
  = sim_create_or_run "42" None (MkState [] Sim.fresh [])
  /\ exists st2,
      sim_create_or_run "42" (Some (JList [JNum 1])) (MkState [] Sim.fresh [])
      = (Ret (error_response "Error: 'list' object has no attribute 'get'" 500), st2).
Proof.
  split.
  - apply (proj1 (request_body_shapes Sim.subprocess_run Sim.json_loads Sim.py_repr
                                      Sim.image "42" (JList []))).
    reflexivity.
  - pose (st := MkState (World := Sim.World) [] Sim.fresh []).
    vm_pose st0 (snd (check_docker_running Sim.subprocess_run st)).
    vm_pose st1 (snd (ensure_base_image_exists Sim.subprocess_run Sim.image st0)).
    assert (Hcheck : check_docker_running Sim.subprocess_run st = (Ret true, st0))
      by (vm_compute; reflexivity).
    assert (Himage : ensure_base_image_exists Sim.subprocess_run Sim.image st0
                     = (Ret true, st1))
      by (vm_compute; reflexivity).
    assert (Hreuse : reuse_existing Sim.subprocess_run Sim.json_loads "42" st1
                     = (Ret None, st1))
      by (vm_compute; reflexivity).
    destruct (proj2 (request_body_shapes Sim.subprocess_run Sim.json_loads Sim.py_repr
                                         Sim.image "42" (JList [JNum 1]))
                    eq_refl eq_refl st st0 st1 st1 Hcheck Himage Hreuse)
      as (Heq & _).
    exists st1. exact Heq.
Defined.

(** The status of a registered project whose container is gone. *)
Lemma project_status_outcomes_witness :
  exists st1,
    sim_get "42" (MkState [("42", "gone")] Sim.fresh [])
    = (Ret (error_response
              "Container for project 42 exists in records but not in Docker" 404),
       st1)
    /\ PyDict.get "42" (project_containers st1) = Some "gone".
Proof.
  pose (st := MkState [("42", "gone")] Sim.fresh []).
  vm_pose st0 (snd (check_docker_running Sim.subprocess_run st)).
  vm_pose st1 (snd (sim_inspect "gone" st0)).
  assert (Hcheck : check_docker_running Sim.subprocess_run st = (Ret true, st0))
    by (vm_compute; reflexivity).
  assert (Hst : sim_inspect "gone" st0
                = (Ret (StatusError
                          "Failed to get container status: Error: No such object: gone"),
                   st1))
    by (vm_compute; reflexivity).
  destruct (project_status_outcomes Sim.subprocess_run Sim.json_loads Sim.image "42"
                                    st Hcheck) as (_ & Hpresent & _).
  destruct (Hpresent "gone" _ st1 eq_refl Hst) as (Heq & Hget).
  exists st1. split; [exact Heq | exact Hget].
Defined.

(** Stopping project 42 leaves project 7 alone. *)
Lemma other_projects_untouched_witness :
  PyDict.get "7" (project_containers
                    (snd (sim_handle (OpStop "42")
                                     (MkState [("7", "zz"); ("42", "c1")]
                                              Sim.one_running []))))
  = Some "zz".
Proof.
  destruct (other_projects_untouched
              Sim.subprocess_run Sim.json_loads Sim.py_repr Sim.image (OpStop "42")
              (MkState [("7", "zz"); ("42", "c1")] Sim.one_running []) "7"
              ltac:(discriminate)) as (H & _).
  rewrite H. reflexivity.
Defined.

(** Create, then stop, on a registry that holds another project. *)
Lemma create_then_stop_restores_witness :
  let st := MkState [("7", "zz")] Sim.fresh [] in
  project_containers
    (snd (sim_stop "42" (snd (sim_create_or_run "42" None st))))
  = [("7", "zz")].
Proof.
  intros st.
  vm_pose st1 (snd (sim_create_or_run "42" None st)).
  vm_pose r1 (match fst (sim_create_or_run "42" None st) with
              | Ret r => r
              | Raise _ => daemon_unreachable
              end).
  vm_pose st2 (snd (sim_stop "42" st1)).
  vm_pose r2 (match fst (sim_stop "42" st1) with
              | Ret r => r
              | Raise _ => daemon_unreachable
              end).
  assert (Hcreate : sim_create_or_run "42" None st = (Ret r1, st1))
    by (vm_compute; reflexivity).
  assert (Hstop : sim_stop "42" st1 = (Ret r2, st2)) by (vm_compute; reflexivity).
  pose proof (create_then_stop_restores
                Sim.subprocess_run Sim.json_loads Sim.py_repr Sim.image "42" None st
                eq_refl Hcreate eq_refl Hstop eq_refl) as H.
  rewrite Hcreate. cbn [snd]. rewrite Hstop. exact H.
Defined.

(** The listing of two entries: three commands. *)
Lemma listing_inspects_each_handle_once_witness :
  docker_log (snd (sim_list (MkState [("7", "zz"); ("42", "c1")] Sim.one_running [])))
  = [["docker"; "info"]; ["docker"; "inspect"; "zz"]; ["docker"; "inspect"; "c1"]].
Proof.
  pose (st := MkState [("7", "zz"); ("42", "c1")] Sim.one_running []).
  vm_pose st0 (snd (check_docker_running Sim.subprocess_run st)).
  vm_pose st1 (snd (list_loop Sim.subprocess_run Sim.json_loads Sim.image
                              (project_containers st) [] st0)).
  vm_pose entries
          (match fst (list_loop Sim.subprocess_run Sim.json_loads Sim.image
                                (project_containers st) [] st0) with
           | Ret d => d
           | Raise _ => []
           end).
  assert (Hcheck : check_docker_running Sim.subprocess_run st = (Ret true, st0))
    by (vm_compute; reflexivity).
  assert (Hloop : list_loop Sim.subprocess_run Sim.json_loads Sim.image
                            (project_containers st) [] st0 = (Ret entries, st1))
    by (vm_compute; reflexivity).
  destruct (listing_inspects_each_handle_once
              Sim.subprocess_run Sim.json_loads Sim.image st Hcheck Hloop)
    as (Hlog & _).
  exact Hlog.
Defined.

(** Create, ask, stop, ask. *)
Lemma status_follows_registry_witness :
  let st1 := snd (sim_create_or_run "42" None (MkState [] Sim.fresh [])) in
  let st2 := snd (sim_stop "42" st1) in
  (exists r s, sim_get "42" st1 = (Ret r, s) /\ code r = 200%Z
               /\ PyDict.get "container_id" (body r) = Some (JStr "c1"))
  /\ (exists s, sim_get "42" st2 = (Ret (no_container_found "42"), s)).
Proof.
  intros st1' st2'.
  pose (st := MkState (World := Sim.World) [] Sim.fresh []).
  vm_pose st1 (snd (sim_create_or_run "42" None st)).
  vm_pose r1 (match fst (sim_create_or_run "42" None st) with
              | Ret r => r
              | Raise _ => daemon_unreachable
              end).
  vm_pose st10 (snd (check_docker_running Sim.subprocess_run st1)).
  vm_pose st11 (snd (sim_inspect "c1" st10)).
  vm_pose st2 (snd (sim_stop "42" st1)).
  vm_pose r2 (match fst (sim_stop "42" st1) with
              | Ret r => r
              | Raise _ => daemon_unreachable
              end).
  vm_pose st20 (snd (check_docker_running Sim.subprocess_run st2)).
  assert (E1 : st1' = st1) by (vm_compute; reflexivity).
  assert (E2 : st2' = st2) by (vm_compute; reflexivity).
  assert (Hcreate : sim_create_or_run "42" None st = (Ret r1, st1))
    by (vm_compute; reflexivity).
  assert (Hcheck1 : check_docker_running Sim.subprocess_run st1 = (Ret true, st10))
    by (vm_compute; reflexivity).
  assert (Hst : sim_inspect "c1" st10
                = (Ret (StatusInfo (JStr "running") (JStr "2024-01-01T00:00:00Z")
                                   "c1" (JList [])), st11))
    by (vm_compute; reflexivity).
  assert (Hstop : sim_stop "42" st1 = (Ret r2, st2)) by (vm_compute; reflexivity).
  assert (Hcheck2 : check_docker_running Sim.subprocess_run st2 = (Ret true, st20))
    by (vm_compute; reflexivity).
  destruct (status_follows_registry Sim.subprocess_run Sim.json_loads Sim.py_repr
                                    Sim.image "42") as (Hgone & Hfound).
  rewrite E1, E2. split.
  - do 2 eexists. split; [|split].
    + exact (Hfound None st r1 st1 st10 st11 "c1" _ _ _ _
                    Hcreate eq_refl eq_refl Hcheck1 Hst).
    + reflexivity.
    + reflexivity.
  - exists st20. exact (Hgone st1 r2 st2 st20 Hstop eq_refl Hcheck2).
Defined.
